(** * SP3 downloader: product selection, candidate names and fallback

    A shallow embedding of [sp3exe.py] (class [SP3CombinedDownloader]) and
    the properties of its decision logic: GPS week arithmetic, product
    classification by elapsed time, candidate file names, the probe loop with
    its fallback chain, decompression and the SP3 header scan. *)

From Stdlib Require Import ZArith QArith Lia Lqa String Ascii List DecimalString.
From stdpp Require Import base gmap strings list.

Open Scope Z_scope.

(** ** The standard library's [datetime] arithmetic

    [datetime] values are naive (no time zone).  The record keeps the fields
    the interpreter keeps; the ordinal of a date is computed the way
    [date.toordinal] computes it. *)

Module Datetime.

Record datetime := mk_datetime {
  year : Z; month : Z; day : Z;
  hour : Z; minute : Z; second : Z; microsecond : Z
}.

(** [timedelta] in normal form: [0 <= seconds < 86400],
    [0 <= microseconds < 10^6], [days] carries the sign. *)
Record timedelta := mk_timedelta {
  days : Z; seconds : Z; microseconds : Z
}.

Definition _is_leap (y : Z) : bool :=
  (y mod 4 =? 0) && (negb (y mod 100 =? 0) || (y mod 400 =? 0)).

Definition _days_before_year (y : Z) : Z :=
  let y := y - 1 in y * 365 + y / 4 - y / 100 + y / 400.

Definition _DAYS_IN_MONTH (m : Z) : Z :=
  match m with
  | 1 => 31 | 2 => 28 | 3 => 31 | 4 => 30 | 5 => 31 | 6 => 30
  | 7 => 31 | 8 => 31 | 9 => 30 | 10 => 31 | 11 => 30 | 12 => 31
  | _ => -1
  end.

Definition _DAYS_BEFORE_MONTH (m : Z) : Z :=
  match m with
  | 1 => 0 | 2 => 31 | 3 => 59 | 4 => 90 | 5 => 120 | 6 => 151
  | 7 => 181 | 8 => 212 | 9 => 243 | 10 => 273 | 11 => 304 | 12 => 334
  | _ => -1
  end.

Definition _days_before_month (y m : Z) : Z :=
  _DAYS_BEFORE_MONTH m + (if (2 <? m) && _is_leap y then 1 else 0).

Definition _ymd2ord (y m d : Z) : Z :=
  _days_before_year y + _days_before_month y m + d.

Definition _DI400Y : Z := 146097.
Definition _DI100Y : Z := 36524.
Definition _DI4Y : Z := 1461.
Definition _MAXORDINAL : Z := 3652059.

(** [_ord2ymd]: ordinal to (year, month, day). *)
Definition _ord2ymd (n : Z) : Z * Z * Z :=
  let n := n - 1 in
  let n400 := n / _DI400Y in let n := n mod _DI400Y in
  let y := n400 * 400 + 1 in
  let n100 := n / _DI100Y in let n := n mod _DI100Y in
  let n4 := n / _DI4Y in let n := n mod _DI4Y in
  let n1 := n / 365 in let n := n mod 365 in
  let y := y + n100 * 100 + n4 * 4 + n1 in
  if (n1 =? 4) || (n100 =? 4) then (y - 1, 12, 31)
  else
    let leapyear := (n1 =? 3) && (negb (n4 =? 24) || (n100 =? 3)) in
    let m := Z.shiftr (n + 50) 5 in
    let preceding :=
      _DAYS_BEFORE_MONTH m + (if (2 <? m) && leapyear then 1 else 0) in
    let '(m, preceding) :=
      if n <? preceding
      then (m - 1,
            preceding - (_DAYS_IN_MONTH (m - 1)
                         + (if (m - 1 =? 2) && leapyear then 1 else 0)))
      else (m, preceding) in
    (y, m, n - preceding + 1).

Definition toordinal (d : datetime) : Z :=
  _ymd2ord (year d) (month d) (day d).

(** [timetuple().tm_yday] *)
Definition tm_yday (d : datetime) : Z :=
  _days_before_month (year d) (month d) + day d.

(** [d.date()], compared with [==]. *)
Definition date (d : datetime) : Z * Z * Z := (year d, month d, day d).

Definition date_eqb (a b : Z * Z * Z) : bool :=
  let '(y1, m1, d1) := a in
  let '(y2, m2, d2) := b in
  (y1 =? y2) && (m1 =? m2) && (d1 =? d2).

Definition US_PER_SECOND : Z := 1000000.
Definition US_PER_DAY : Z := 86400 * US_PER_SECOND.

(** The constructor [timedelta(days, seconds, microseconds)] normalises its
    arguments. *)
Definition new_timedelta (d s us : Z) : timedelta :=
  let total := (d * 86400 + s) * US_PER_SECOND + us in
  let r := total mod US_PER_DAY in
  {| days := total / US_PER_DAY;
     seconds := r / US_PER_SECOND;
     microseconds := r mod US_PER_SECOND |}.

(** [datetime.__sub__] on two datetimes. *)
Definition sub (a b : datetime) : timedelta :=
  let secs1 := second a + minute a * 60 + hour a * 3600 in
  let secs2 := second b + minute b * 60 + hour b * 3600 in
  new_timedelta (toordinal a - toordinal b) (secs1 - secs2)
                (microsecond a - microsecond b).

(** [timedelta.total_seconds()] is the quotient of two integers; it is kept
    exact here.  The interpreter rounds it to a double, and so the division
    by 3600 that follows; both roundings are monotone and exact at the three
    thresholds 3, 24 and 288 hours, which microsecond inputs never approach
    closer than 10^-6 seconds, so the comparisons of the program agree with
    the exact ones. *)
Definition total_seconds (t : timedelta) : Q :=
  Qmake ((days t * 86400 + seconds t) * 1000000 + microseconds t) 1000000.

(** [d - timedelta(days=1)] ([datetime.__add__] of the negated delta);
    [None] is the [OverflowError] of a result that is out of range. *)
Definition sub_one_day (d : datetime) : option datetime :=
  let delta :=
    new_timedelta (toordinal d - 1)
                  (hour d * 3600 + minute d * 60 + second d)
                  (microsecond d) in
  let h := seconds delta / 3600 in
  let rem := seconds delta mod 3600 in
  if (0 <? days delta) && (days delta <=? _MAXORDINAL) then
    let '(y, m, dd) := _ord2ymd (days delta) in
    Some {| year := y; month := m; day := dd;
            hour := h; minute := rem / 60; second := rem mod 60;
            microsecond := microseconds delta |}
  else None.

(** The instant of a datetime in microseconds since the start of ordinal 0;
    datetimes are ordered by their instants. *)
Definition instant (d : datetime) : Z :=
  (toordinal d * 86400 + (second d + minute d * 60 + hour d * 3600))
  * US_PER_SECOND + microsecond d.

Definition le (a b : datetime) : Prop := instant a <= instant b.

End Datetime.
Import Datetime.

(** ** GPS week and product availability *)

Inductive product_type := final | rapid | ultra_rapid.

#[global] Instance product_type_eq_dec : EqDecision product_type.
Proof. solve_decision. Defined.

(** [self.availability_thresholds], in hours. *)
Definition availability_thresholds (p : product_type) : Z :=
  match p with
  | final => 12 * 24
  | rapid => 24
  | ultra_rapid => 3
  end.

(** [self.time_intervals] *)
Definition time_intervals : list string :=
  ["01S"; "30S"; "05M"; "15M"]%string.

Definition gps_epoch : datetime := mk_datetime 1980 1 6 0 0 0 0.

(** [date_to_gps_week] on an already parsed date: the week, the day of the
    week and the date itself.  [//] and [%] round towards minus infinity, as
    [Z.div] and [Z.modulo] do for a positive divisor. *)
Definition date_to_gps_week (date : datetime) : Z * Z * datetime :=
  let gps_start := gps_epoch in
  let delta := sub date gps_start in
  let gps_week := days delta / 7 in
  let day_of_week := days delta mod 7 in
  (gps_week, day_of_week, date).

Record analysis := mk_analysis {
  date_requested : datetime;
  hours_elapsed : Q;
  optimal_product : option product_type;
  data_unavailable : bool
}.

(** [analyze_data_availability], with the clock reading [now] as an
    argument. *)
Definition analyze_data_availability (target_date now : datetime) : analysis :=
  let date_obj := target_date in
  let time_diff := sub now date_obj in
  let hours_elapsed := (total_seconds time_diff / 3600)%Q in
  if Qle_bool (inject_Z (availability_thresholds final)) hours_elapsed then
    mk_analysis date_obj hours_elapsed (Some final) false
  else if Qle_bool (inject_Z (availability_thresholds rapid)) hours_elapsed then
    mk_analysis date_obj hours_elapsed (Some rapid) false
  else if Qle_bool (inject_Z (availability_thresholds ultra_rapid)) hours_elapsed then
    mk_analysis date_obj hours_elapsed (Some ultra_rapid) false
  else
    mk_analysis date_obj hours_elapsed None true.

(** ** File names *)

Section Formatting.
Local Open Scope string_scope.

(** [str(n)] for an integer. *)
Definition str_int (n : Z) : string :=
  NilEmpty.string_of_int (Z.to_int n).

Fixpoint zeros (k : nat) : string :=
  match k with
  | O => ""
  | S k => String "0" (zeros k)
  end.

(** [f"{n:0wd}"]: sign first, then zeros up to the width [w]. *)
Definition format_0d (w : nat) (n : Z) : string :=
  if (n <? 0)%Z then
    let ds := str_int (- n)%Z in
    String "-" (zeros (w - 1 - String.length ds)%nat +:+ ds)
  else
    let ds := str_int n in
    zeros (w - String.length ds)%nat +:+ ds.

(** [sub in s] on strings. *)
Fixpoint contains (sub s : string) : bool :=
  String.prefix sub s
  || match s with
     | EmptyString => false
     | String _ s' => contains sub s'
     end.

End Formatting.

Section Filenames.
Local Open Scope string_scope.
Local Open Scope list_scope.

(** The name pattern of the format in use since GPS week 2238,
    [f"{code}_{year}{doy:03d}{hour}00_{span}_{interval}_ORB.SP3.gz"]; the
    final and rapid products have the hour [00]. *)
Definition modern_name (code : string) (year doy : Z) (hour span interval : string)
  : string :=
  code +:+ "_" +:+ str_int year +:+ format_0d 3 doy +:+ hour +:+ "00_"
       +:+ span +:+ "_" +:+ interval +:+ "_ORB.SP3.gz".

(** [f"{center}{gps_week:04d}{day_of_week}.sp3.Z"] *)
Definition legacy_daily_name (center : string) (gps_week day_of_week : Z) : string :=
  center +:+ format_0d 4 gps_week +:+ str_int day_of_week +:+ ".sp3.Z".

(** [f"{center}{gps_week:04d}{day_of_week}_{hour:02d}.sp3.Z"] *)
Definition legacy_hourly_name (center : string) (gps_week day_of_week hour : Z)
  : string :=
  center +:+ format_0d 4 gps_week +:+ str_int day_of_week +:+ "_"
         +:+ format_0d 2 hour +:+ ".sp3.Z".

Definition is_empty {A} (l : list A) : bool :=
  match l with [] => true | _ => false end.

(** The blocks of names of [generate_combined_sp3_filenames], one for each
    of its loops.  First the current format: final and rapid products, by
    interval. *)
Definition modern_final_names (year doy : Z) : list string :=
  flat_map (fun interval =>
    [ modern_name "IGS0OPSFIN" year doy "00" "01D" interval;
      modern_name "COD0MGXFIN" year doy "00" "01D" interval;
      modern_name "GFZ0MGXFIN" year doy "00" "01D" interval;
      modern_name "WUM0MGXFIN" year doy "00" "01D" interval ])
    time_intervals.

Definition modern_rapid_names (year doy : Z) : list string :=
  flat_map (fun interval =>
    [ modern_name "IGS0OPSRAP" year doy "00" "01D" interval;
      modern_name "COD0OPSRAP" year doy "00" "01D" interval;
      modern_name "GFZ0OPSRAP" year doy "00" "01D" interval;
      modern_name "JPL0OPSRAP" year doy "00" "01D" interval;
      modern_name "IGR0OPSRAP" year doy "00" "01D" interval ])
    time_intervals.

(** Ultra-rapid products of the evening before ([for h in [18, 12]]), named
    with the year of the target date and the day of the year of the day
    before. *)
Definition yesterday_ultra_names (year yesterday_doy : Z) : list string :=
  flat_map (fun h =>
    flat_map (fun interval =>
      [ modern_name "IGS0OPSULT" year yesterday_doy (format_0d 2 h) "02D" interval;
        modern_name "COD0OPSULT" year yesterday_doy (format_0d 2 h) "02D" interval;
        modern_name "GFZ0OPSULT" year yesterday_doy (format_0d 2 h) "02D" interval ])
      time_intervals)
    [18; 12]%Z.

(** Ultra-rapid products of the available hours
    ([for hour in available_hours: for interval in self.time_intervals]). *)
Definition hourly_ultra_names (year doy : Z) (available_hours : list string)
  : list string :=
  flat_map (fun hour =>
    flat_map (fun interval =>
      [ modern_name "IGS0OPSULT" year doy hour "02D" interval;
        modern_name "COD0OPSULT" year doy hour "02D" interval;
        modern_name "GFZ0OPSULT" year doy hour "02D" interval;
        modern_name "JPL0OPSULT" year doy hour "02D" interval;
        modern_name "IGS0OPSULT" year doy hour "01D" interval;
        modern_name "COD0OPSULT" year doy hour "01D" interval;
        modern_name "GFZ0OPSULT" year doy hour "01D" interval ])
      time_intervals)
    available_hours.

(** Names of the older format: [igu] products for a list of hours, and the
    products of the other centres. *)
Definition igu_names (gps_week day_of_week : Z) (hours : list Z) : list string :=
  map (fun hour => legacy_hourly_name "igu" gps_week day_of_week hour) hours.

Definition other_ultra_names (gps_week day_of_week : Z) : list string :=
  flat_map (fun hour =>
    map (fun center =>
           legacy_hourly_name (center +:+ "u") gps_week day_of_week hour)
        ["cod"; "gfz"])
    [18; 12; 6; 0]%Z.

(** The hours out at [current_hour], three hours after their time. *)
Definition hours_out (current_hour : Z) (hours : list Z) : list Z :=
  List.filter (fun h => (h <=? current_hour - 3)%Z) hours.

(** The branch [if use_new_format:] of [generate_combined_sp3_filenames],
    the names of the format in use since GPS week 2238.  [None] is an
    exception raised on the way (the date arithmetic of the day before). *)
Definition modern_filenames (date_obj now : datetime) (gps_week day_of_week : Z)
    (product_type : product_type) : option (list string) :=
  let year := year date_obj in
  let doy := tm_yday date_obj in
  match product_type with
  | final => Some (modern_final_names year doy)
  | rapid => Some (modern_rapid_names year doy)
  | ultra_rapid =>
      (* hours of the 6-hourly products, and the names of the evening
         before when none is out yet today *)
      '(available_hours, filenames) ←
        (if date_eqb (date date_obj) (date now) then
           let current_hour_utc := hour now in
           let available_hours :=
             map (format_0d 2) (hours_out current_hour_utc [18; 12; 6; 0]%Z) in
           if is_empty available_hours then
             yesterday ← sub_one_day date_obj;
             let '(_, _, yesterday_obj) := date_to_gps_week yesterday in
             let yesterday_doy := tm_yday yesterday_obj in
             Some (available_hours, yesterday_ultra_names year yesterday_doy)
           else Some (available_hours, [])
         else Some (["18"; "12"; "06"; "00"], []));
      let filenames :=
        filenames ++ hourly_ultra_names year doy available_hours in
      (* names of the older format, appended as a fallback *)
      '(legacy_hours, filenames) ←
        (if date_eqb (date date_obj) (date now) then
           let current_hour := hour now in
           let legacy_hours :=
             hours_out current_hour [21; 18; 15; 12; 9; 6; 3; 0]%Z in
           if is_empty legacy_hours then
             yesterday ← sub_one_day date_obj;
             let '(gps_week_y, day_of_week_y, _) := date_to_gps_week yesterday in
             Some (legacy_hours,
                   filenames
                   ++ igu_names gps_week_y day_of_week_y [21; 18; 15; 12]%Z)
           else Some (legacy_hours, filenames)
         else Some ([21; 18; 15; 12; 9; 6; 3; 0]%Z, filenames));
      Some (filenames ++ igu_names gps_week day_of_week legacy_hours)
  end.

(** The branch [else:], the names of the format in use before GPS week
    2238. *)
Definition legacy_filenames (date_obj now : datetime) (gps_week day_of_week : Z)
    (product_type : product_type) : option (list string) :=
  match product_type with
  | final =>
      Some (map (fun center => legacy_daily_name center gps_week day_of_week)
                ["cod"; "gfz"; "whu"]
            ++ [legacy_daily_name "igs" gps_week day_of_week])
  | rapid =>
      Some (map (fun center =>
                   legacy_daily_name (center +:+ "r") gps_week day_of_week)
                ["cod"; "gfz"; "jpl"]
            ++ [legacy_daily_name "igr" gps_week day_of_week])
  | ultra_rapid =>
      filenames ←
        (if date_eqb (date date_obj) (date now) then
           let current_hour := hour now in
           let filenames :=
             igu_names gps_week day_of_week
               (hours_out current_hour [21; 18; 15; 12; 9; 6; 3; 0]%Z) in
           if (length (List.filter (contains "igu") filenames) =? 0)%nat then
             yesterday ← sub_one_day date_obj;
             let '(gps_week_y, day_of_week_y, _) := date_to_gps_week yesterday in
             Some (filenames ++ igu_names gps_week_y day_of_week_y [21; 18]%Z)
           else Some filenames
         else
           Some (igu_names gps_week day_of_week
                           [21; 18; 15; 12; 9; 6; 3; 0]%Z));
      Some (filenames ++ other_ultra_names gps_week day_of_week)
  end.

(** [generate_combined_sp3_filenames], with the clock reading [now] (used by
    the ultra-rapid branches only) as an argument. *)
Definition generate_combined_sp3_filenames
    (target_date now : datetime) (product_type : product_type)
  : option (list string * Z * bool) :=
  let '(gps_week, day_of_week, date_obj) := date_to_gps_week target_date in
  let use_new_format := (2238 <=? gps_week)%Z in
  filenames ←
    (if use_new_format
     then modern_filenames date_obj now gps_week day_of_week product_type
     else legacy_filenames date_obj now gps_week day_of_week product_type);
  Some (filenames, gps_week, use_new_format).

End Filenames.

(** ** The world of a download: clock, network, files, external tools *)

Section Paths.
Local Open Scope string_scope.

(** [s.endswith(suf)]: the suffix read backwards starts the string read
    backwards. *)
Definition endswith (s suf : string) : bool :=
  String.prefix (String.rev suf) (String.rev s).

(** A [pathlib.Path] below the output directory: [dir] is the directory with
    its trailing separator, [name] the final component, so that
    [str(output_dir / filename)] is [dir] followed by [filename]. *)
Record path := mk_path { dir : string; name : string }.

Definition str (p : path) : string := dir p +:+ name p.

(** [name.rfind('.')] *)
Fixpoint rfind_dot (s : string) : option nat :=
  match s with
  | EmptyString => None
  | String c s' =>
      match rfind_dot s' with
      | Some i => Some (S i)
      | None => if Ascii.eqb c "." then Some O else None
      end
  end.

(** [PurePath.suffix] *)
Definition suffix (nm : string) : string :=
  match rfind_dot nm with
  | Some i =>
      if (0 <? i)%nat && (i <? String.length nm - 1)%nat
      then substring i (String.length nm - i) nm
      else ""
  | None => ""
  end.

(** [p.with_suffix('')]; [None] is the [ValueError] of an empty name. *)
Definition with_suffix_empty (p : path) : option path :=
  if String.eqb (name p) "" then None
  else
    let n := name p in
    Some {| dir := dir p;
            name := substring 0 (String.length n - String.length (suffix n)) n |}.

End Paths.

(** What [session.head] gives: a response with its status code, or an
    exception (time-out, connection error). *)
Inductive head_result :=
| Response (status_code : Z)
| HeadRaised.

(** What [session.get] with [raise_for_status] and the streamed body give:
    an exception before any byte is written, or the bytes received and
    whether the stream ended without an exception. *)
Inductive get_result :=
| GetRaised
| GetStream (received : string) (complete : bool).

(** What [subprocess.run] gives: an exception before any process ran
    ([FileNotFoundError] when the program is not installed), the exit code of
    the process, or [TimeoutExpired]; a process that ran leaves the files
    [after]. *)
Inductive run_result :=
| RunUnavailable
| RunExited (returncode : Z) (after : gmap string string)
| RunTimedOut (after : gmap string string).

(** The requests sent, in order (a record kept for the proofs; the program
    itself keeps none). *)
Inductive event :=
| Head (url : string) (r : head_result)
| Get (url : string).

Abbreviation files := (gmap string string).

(** The collaborators of the downloader.  [X] is whatever state the outside
    world has (the servers, the clock); every call may change it. *)
Record env (X : Type) := mk_env {
  datetime_now : X -> datetime * X;
  session_head : string -> X -> head_result * X;
  session_get : string -> X -> get_result * X;
  writable : string -> bool;
  gunzip : string -> option string;
  uncompress_run : string -> X -> files -> run_result * X;
  output_dir : string;
  auto_cleanup : option bool
}.
Arguments datetime_now {X}.
Arguments session_head {X}.
Arguments session_get {X}.
Arguments writable {X}.
Arguments gunzip {X}.
Arguments uncompress_run {X}.
Arguments output_dir {X}.
Arguments auto_cleanup {X}.

Record state (X : Type) := mk_state {
  ext : X;
  fs : files;
  trace : list event
}.
Arguments mk_state {X}.
Arguments ext {X}.
Arguments fs {X}.
Arguments trace {X}.

(** A state monad over [state X]. *)
Definition M (X A : Type) : Type := state X -> A * state X.

#[global] Instance M_ret {X} : MRet (M X) := fun A a s => (a, s).
#[global] Instance M_bind {X} : MBind (M X) :=
  fun A B f m s => let '(a, s') := m s in f a s'.
#[global] Instance M_fmap {X} : FMap (M X) :=
  fun A B f m s => let '(a, s') := m s in (f a, s').

Definition cddis_base : string :=
  "https://cddis.nasa.gov/archive/gnss/products".

(** [if result:] on a result that is [None] or a string. *)
Definition truthy (result : option string) : bool :=
  match result with
  | Some s => negb (String.eqb s "")
  | None => false
  end.

Section Downloader.
Context {X : Type} (E : env X).
Local Open Scope string_scope.
Local Open Scope list_scope.

Definition now : M X datetime := fun s =>
  let '(t, x) := datetime_now E (ext s) in
  (t, mk_state x (fs s) (trace s)).

Definition head (url : string) : M X head_result := fun s =>
  let '(r, x) := session_head E url (ext s) in
  (r, mk_state x (fs s) (trace s ++ [Head url r])).

Definition get (url : string) : M X get_result := fun s =>
  let '(r, x) := session_get E url (ext s) in
  (r, mk_state x (fs s) (trace s ++ [Get url])).

Definition run_uncompress (p : string) : M X run_result := fun s =>
  let '(r, x) := uncompress_run E p (ext s) (fs s) in
  let f := match r with
           | RunUnavailable => fs s
           | RunExited _ after | RunTimedOut after => after
           end in
  (r, mk_state x f (trace s)).

Definition read_file (p : string) : M X (option string) := fun s =>
  (fs s !! p, s).

Definition exists_ (p : string) : M X bool := fun s =>
  (bool_decide (is_Some (fs s !! p)), s).

Definition write_file (p data : string) : M X unit := fun s =>
  (tt, mk_state (ext s) (<[p := data]> (fs s)) (trace s)).

Definition unlink (p : string) : M X unit := fun s =>
  (tt, mk_state (ext s) (delete p (fs s)) (trace s)).

(** [decompress_file]: every exception of the body leads to the handler,
    which returns the path of the compressed file. *)
Definition decompress_file (compressed_path : path) : M X string :=
  match with_suffix_empty compressed_path with
  | None => mret (str compressed_path)
  | Some decompressed_path =>
      (* gzip.open(compressed_path, 'rb') *)
      data ← read_file (str compressed_path);
      match data with
      | None => mret (str compressed_path)
      | Some data =>
          (* open(decompressed_path, 'wb') *)
          if negb (writable E (str decompressed_path))
          then mret (str compressed_path)
          else
            write_file (str decompressed_path) "";;
            (* f_out.write(f_in.read()) *)
            match gunzip E data with
            | None => mret (str compressed_path)
            | Some plain =>
                write_file (str decompressed_path) plain;;
                (match auto_cleanup E return M X unit with
                 | None | Some true => unlink (str compressed_path)
                 | Some false => mret tt
                 end);;
                (* decompressed_path.stat() *)
                ex ← exists_ (str decompressed_path);
                if (ex : bool) then mret (str decompressed_path)
                else mret (str compressed_path)
            end
      end
  end.

(** [decompress_unix_z] *)
Definition decompress_unix_z (compressed_path : path) : M X string :=
  match with_suffix_empty compressed_path with
  | None => mret (str compressed_path)
  | Some decompressed_path =>
      result ← run_uncompress (str compressed_path);
      match result with
      | RunUnavailable | RunTimedOut _ => mret (str compressed_path)
      | RunExited returncode _ =>
          ex ← exists_ (str decompressed_path);
          if (returncode =? 0)%Z && (ex : bool)
          then mret (str decompressed_path)
          else mret (str compressed_path)
      end
  end.

(** [download_file] *)
Definition download_file (file_url filename : string) : M X (option string) :=
  response ← get file_url;
  match response with
  | GetRaised => mret None
  | GetStream received complete =>
      let output_path := mk_path (output_dir E) filename in
      if negb (writable E (str output_path)) then mret None
      else
        write_file (str output_path) received;;
        if negb complete then mret None
        else if endswith filename ".gz"
        then Some <$> decompress_file output_path
        else if endswith filename ".Z"
        then Some <$> decompress_unix_z output_path
        else mret (Some (str output_path))
  end.

(** The probe loop of [download_product_type]: falling off the end of the
    list and [break] both reach the final [return None]. *)
Fixpoint probe_loop (repository : string) (filenames : list string)
  : M X (option string) :=
  match filenames with
  | [] => mret None
  | filename :: rest =>
      let file_url := repository +:+ filename in
      response ← head file_url;
      match response with
      | HeadRaised => probe_loop repository rest
      | Response status_code =>
          if (status_code =? 200)%Z then download_file file_url filename
          else if (status_code =? 404)%Z then probe_loop repository rest
          else if (status_code =? 401)%Z then mret None
          else probe_loop repository rest
      end
  end.

(** The clock is read by the ultra-rapid branches of the name generator
    only; the other branches do not look at their [now]. *)
Definition generate_with_clock (target_date : datetime) (product_type : product_type)
  : M X (option (list string * Z * bool)) :=
  match product_type with
  | ultra_rapid =>
      t ← now;
      mret (generate_combined_sp3_filenames target_date t ultra_rapid)
  | _ =>
      mret (generate_combined_sp3_filenames target_date target_date product_type)
  end.

(** [download_product_type] *)
Definition download_product_type (target_date : datetime) (product_type : product_type)
  : M X (option string) :=
  g ← generate_with_clock target_date product_type;
  match g with
  | None => mret None
  | Some (filenames, gps_week, use_new_format) =>
      let repository := cddis_base +:+ "/" +:+ format_0d 4 gps_week +:+ "/" in
      probe_loop repository filenames
  end.

(** [smart_download_sp3] *)
Definition smart_download_sp3 (target_date : datetime) : M X (option string) :=
  t ← now;
  let availability := analyze_data_availability target_date t in
  if data_unavailable availability then mret None
  else
    match optimal_product availability with
    | None => mret None
    | Some optimal_product =>
        result ← download_product_type target_date optimal_product;
        if truthy result then mret result
        else
          match optimal_product with
          | ultra_rapid =>
              result ← download_product_type target_date rapid;
              if truthy result then mret result
              else
                result ← download_product_type target_date final;
                if truthy result then mret result
                else mret None
          | rapid =>
              result ← download_product_type target_date final;
              if truthy result then mret result
              else mret None
          | final => mret None
          end
    end.

End Downloader.

(** ** The header scan of [analyze_sp3_file] *)

Section SP3.
Local Open Scope string_scope.
Local Open Scope list_scope.

(** [str.isalpha], [str.isdigit], [str.isspace] and [str.upper] on the
    characters of an ASCII text. *)
Definition isalpha (c : ascii) : bool :=
  let n := nat_of_ascii c in
  ((65 <=? n) && (n <=? 90) || (97 <=? n) && (n <=? 122))%nat.

Definition isdigit (c : ascii) : bool :=
  let n := nat_of_ascii c in ((48 <=? n) && (n <=? 57))%nat.

Definition isspace (c : ascii) : bool :=
  let n := nat_of_ascii c in
  ((9 <=? n) && (n <=? 13) || (28 <=? n) && (n <=? 32))%nat.

Definition upper (c : ascii) : ascii :=
  let n := nat_of_ascii c in
  if ((97 <=? n) && (n <=? 122))%nat then ascii_of_nat (n - 32) else c.

(** [s.isdigit()]: every character is a digit and there is at least one. *)
Fixpoint all_digits (s : string) : bool :=
  match s with
  | EmptyString => true
  | String c s' => isdigit c && all_digits s'
  end.

Definition str_isdigit (s : string) : bool :=
  negb (String.eqb s "") && all_digits s.

Fixpoint lstrip (s : string) : string :=
  match s with
  | EmptyString => EmptyString
  | String c s' => if isspace c then lstrip s' else s
  end.

Fixpoint rstrip (s : string) : string :=
  match s with
  | EmptyString => EmptyString
  | String c s' =>
      match rstrip s' with
      | EmptyString => if isspace c then EmptyString else String c EmptyString
      | r => String c r
      end
  end.

(** [s.strip()] *)
Definition strip (s : string) : string := rstrip (lstrip s).

(** [s[n:]] *)
Fixpoint slice_from (n : nat) (s : string) : string :=
  match n, s with
  | O, _ => s
  | S n', String _ s' => slice_from n' s'
  | S _, EmptyString => EmptyString
  end.

(** [f.readlines()]: the lines of a text, each with its line feed. *)
Fixpoint readlines_aux (cur : string) (s : string) : list string :=
  match s with
  | EmptyString =>
      if String.eqb cur "" then [] else [cur]
  | String c s' =>
      if Ascii.eqb c "010"
      then (cur +:+ String c "") :: readlines_aux "" s'
      else readlines_aux (cur +:+ String c "") s'
  end.

Definition readlines (s : string) : list string := readlines_aux "" s.

(** The three collections the scan fills. *)
Record sp3_scan := mk_scan {
  satellites : gmap string (gset string);
  constellations : gset string;
  all_satellites : gset string
}.

Definition empty_scan : sp3_scan := mk_scan ∅ ∅ ∅.

(** The body of the [while] loop for one identifier [sat_id] of three
    characters. *)
Definition scan_sat_id (sat_id : string) (sc : sp3_scan) : sp3_scan :=
  match sat_id with
  | String c0 rest =>
      if (String.length sat_id =? 3)%nat && isalpha c0 && str_isdigit rest then
        let constellation := String (upper c0) "" in
        mk_scan
          (<[constellation :=
               {[sat_id]} ∪ default ∅ (satellites sc !! constellation)]>
             (satellites sc))
          ({[constellation]} ∪ constellations sc)
          ({[sat_id]} ∪ all_satellites sc)
      else sc
  | EmptyString => sc
  end.

(** The [while pos < len(sat_section)] loop: [pos] advances by three, and an
    identifier is read only where three characters are left. *)
Fixpoint scan_section (sat_section : string) (sc : sp3_scan) : sp3_scan :=
  match sat_section with
  | String a (String b (String c rest)) =>
      scan_section rest (scan_sat_id (String a (String b (String c ""))) sc)
  | _ => sc
  end.

Definition scan_line (sc : sp3_scan) (line : string) : sp3_scan :=
  if String.prefix "+" line
  then scan_section (strip (slice_from 9 line)) sc
  else sc.

Definition scan_lines (lines : list string) : sp3_scan :=
  fold_left scan_line (take 200 lines) empty_scan.

Definition total_satellites (sc : sp3_scan) : nat := size (all_satellites sc).

(** [analyze_sp3_file]: the value returned, and what the scan found when it
    ran (the counts the function prints). *)
Definition analyze_sp3_file (disk : files) (file_path : string)
  : bool * option sp3_scan :=
  match disk !! file_path with
  | None => (false, None)
  | Some text =>
      if endswith file_path ".gz" || endswith file_path ".Z" then (false, None)
      else
        let lines := readlines text in
        if is_empty lines then (false, None)
        else
          let sc := scan_lines lines in
          if (total_satellites sc =? 0)%nat then (false, Some sc)
          else (true, Some sc)
  end.

End SP3.

(** ** Notions used by the properties *)

Section Notions.
Local Open Scope string_scope.
Local Open Scope list_scope.

(** The interval of a file name, as [download_product_type] finds it for its
    message: the first of [time_intervals] with [f"_{interval}_" in filename]. *)
Definition interval_match (filename : string) : option string :=
  List.find (fun interval => contains ("_" +:+ interval +:+ "_") filename)
            time_intervals.

(** The place of an interval in [time_intervals]. *)
Definition interval_rank (interval : string) : nat :=
  if String.eqb interval "01S" then 0
  else if String.eqb interval "30S" then 1
  else if String.eqb interval "05M" then 2
  else if String.eqb interval "15M" then 3
  else 4.

(** The text before the first underscore, and the text after it. *)
Fixpoint before_underscore (s : string) : string :=
  match s with
  | EmptyString => EmptyString
  | String c s' => if Ascii.eqb c "_" then EmptyString
                   else String c (before_underscore s')
  end.

Fixpoint after_underscore (s : string) : string :=
  match s with
  | EmptyString => EmptyString
  | String c s' => if Ascii.eqb c "_" then s' else after_underscore s'
  end.

(** The analysis-centre code of a name of the current format (its first
    field) and its epoch (its second field: year, day of year, hour and
    minute of the product). *)
Definition center_code (filename : string) : string :=
  before_underscore filename.

Definition epoch_field (filename : string) : string :=
  before_underscore (after_underscore filename).

(** The microseconds of a datetime since its midnight. *)
Definition time_of_day (d : datetime) : Z :=
  (second d + minute d * 60 + hour d * 3600) * US_PER_SECOND + microsecond d.

(** Elapsed hours, as the exact quotient of the elapsed microseconds. *)
Definition elapsed_hours (target_date now : datetime) : Q :=
  Qmake (instant now - instant target_date) 3600000000.

(** The order of availability: nothing, then ultra-rapid, rapid, final. *)
Definition availability_rank (c : option product_type) : nat :=
  match c with
  | None => 0
  | Some ultra_rapid => 1
  | Some rapid => 2
  | Some final => 3
  end.

(** The degrade chain in the words of the specification: the classes tried,
    in order, when [p] is the optimal class. *)
Definition degrade_chain (p : product_type) : list product_type :=
  match p with
  | ultra_rapid => [ultra_rapid; rapid; final]
  | rapid => [rapid; final]
  | final => [final]
  end.

(** "Returns the first success": the classes of a chain are attempted in
    order until one gives a result; overall failure when none does. *)
Fixpoint first_success {X} (E : env X) (target_date : datetime)
    (chain : list product_type) : M X (option string) :=
  match chain with
  | [] => mret None
  | p :: rest =>
      result ← download_product_type E target_date p;
      if truthy result then mret result
      else first_success E target_date rest
  end.

(** A 401 answer, when there is one among the requests [evs], is the last
    of them. *)
Definition auth_failure_is_last (evs : list event) : Prop :=
  forall pre url post,
    evs = pre ++ Head url (Response 401) :: post -> post = [].

End Notions.

(** ** The shape of the candidate names *)

Section NameShape.
Local Open Scope string_scope.
Local Open Scope list_scope.

Fixpoint string_forall (f : ascii -> bool) (s : string) : bool :=
  match s with
  | EmptyString => true
  | String c s' => f c && string_forall f s'
  end.

(** The characters of a formatted integer: digits and the minus sign. *)
Definition plain_char (c : ascii) : bool := isdigit c || Ascii.eqb c "-".

Definition plain (s : string) : bool := string_forall plain_char s.

Definition no_underscore (s : string) : bool :=
  string_forall (fun c => negb (Ascii.eqb c "_")) s.

(** A candidate of the current format, by its parts: the centre code, the
    hour, the span and the interval.  The year and the day of the year are
    those of the list it is on. *)
Record candidate := mk_candidate {
  c_code : string;
  c_hour : string;
  c_span : string;
  c_interval : string
}.

Definition render (year doy : Z) (c : candidate) : string :=
  modern_name (c_code c) year doy (c_hour c) (c_span c) (c_interval c).

Definition member (x : string) (l : list string) : bool :=
  existsb (String.eqb x) l.

Definition well_formed (c : candidate) : bool :=
  no_underscore (c_code c)
  && (plain (c_hour c) && (String.length (c_hour c) =? 2)%nat)
  && member (c_span c) ["01D"; "02D"]
  && member (c_interval c) time_intervals.

(** Every element of a list stands in the relation [ok] to the elements
    after it. *)
Fixpoint ordered_by {A} (ok : A -> A -> bool) (l : list A) : bool :=
  match l with
  | [] => true
  | x :: rest => forallb (ok x) rest && ordered_by ok rest
  end.

(** [c1], the earlier of two candidates, has the interval of higher or equal
    priority; with [hourly], only when the two have the same hour. *)
Definition priority_kept (hourly : bool) (c1 c2 : candidate) : bool :=
  (hourly && negb (String.eqb (c_hour c1) (c_hour c2)))
  || (interval_rank (c_interval c1) <=? interval_rank (c_interval c2))%nat.

(** The candidates behind the names of the current format, loop by loop. *)
Definition final_candidates : list candidate :=
  flat_map (fun interval =>
    [ mk_candidate "IGS0OPSFIN" "00" "01D" interval;
      mk_candidate "COD0MGXFIN" "00" "01D" interval;
      mk_candidate "GFZ0MGXFIN" "00" "01D" interval;
      mk_candidate "WUM0MGXFIN" "00" "01D" interval ])
    time_intervals.

Definition rapid_candidates : list candidate :=
  flat_map (fun interval =>
    [ mk_candidate "IGS0OPSRAP" "00" "01D" interval;
      mk_candidate "COD0OPSRAP" "00" "01D" interval;
      mk_candidate "GFZ0OPSRAP" "00" "01D" interval;
      mk_candidate "JPL0OPSRAP" "00" "01D" interval;
      mk_candidate "IGR0OPSRAP" "00" "01D" interval ])
    time_intervals.

Definition yesterday_candidates : list candidate :=
  flat_map (fun h =>
    flat_map (fun interval =>
      [ mk_candidate "IGS0OPSULT" (format_0d 2 h) "02D" interval;
        mk_candidate "COD0OPSULT" (format_0d 2 h) "02D" interval;
        mk_candidate "GFZ0OPSULT" (format_0d 2 h) "02D" interval ])
      time_intervals)
    [18; 12]%Z.

Definition ultra_rapid_candidates (available_hours : list string) : list candidate :=
  flat_map (fun hour =>
    flat_map (fun interval =>
      [ mk_candidate "IGS0OPSULT" hour "02D" interval;
        mk_candidate "COD0OPSULT" hour "02D" interval;
        mk_candidate "GFZ0OPSULT" hour "02D" interval;
        mk_candidate "JPL0OPSULT" hour "02D" interval;
        mk_candidate "IGS0OPSULT" hour "01D" interval;
        mk_candidate "COD0OPSULT" hour "01D" interval;
        mk_candidate "GFZ0OPSULT" hour "01D" interval ])
      time_intervals)
    available_hours.

(** A list of names made of candidates of the current format, well formed
    and in an order that keeps the priority of the intervals, followed by
    names without an interval. *)
Definition shaped (hourly : bool) (names : list string) : Prop :=
  exists year doy cs rest,
    names = map (render year doy) cs ++ rest
    /\ forallb well_formed cs = true
    /\ ordered_by (priority_kept hourly) cs = true
    /\ Forall (fun f => interval_match f = None) rest.

Definition is_ultra_rapid (p : product_type) : bool :=
  match p with ultra_rapid => true | _ => false end.

End NameShape.

(** ** Failures of the decompressors *)

Section DecompressionFailures.
Context {X : Type} (E : env X).

(** The files after a call of the external program. *)
Definition files_left (r : run_result) (before : files) : files :=
  match r with
  | RunUnavailable => before
  | RunExited _ after | RunTimedOut after => after
  end.

(** The external decompressor is unavailable, or its invocation fails: it
    could not be started, it ran out of time, it exited with an error code,
    or it left no decompressed file [decompressed]. *)
Definition uncompress_failed (r : run_result) (decompressed : string) : Prop :=
  match r with
  | RunUnavailable | RunTimedOut _ => True
  | RunExited returncode after =>
      returncode <> 0 \/ after !! decompressed = None
  end.

(** Gzip decompression of [compressed_path] raises an error: the file cannot
    be opened, the output cannot be opened for writing, or the data is not
    valid gzip data. *)
Definition gzip_raises (compressed_path decompressed_path : path) (s : state X)
  : Prop :=
  match fs s !! str compressed_path with
  | None => True
  | Some data =>
      writable E (str decompressed_path) = false \/ gunzip E data = None
  end.

End DecompressionFailures.

(** ** Sample worlds *)

Section Samples.
Local Open Scope string_scope.
Local Open Scope list_scope.

(** A world whose clock shows 2024-01-01 10:00, whose server rejects the
    credential on every request, and without the [uncompress] program. *)
Definition world_401 : env unit :=
  {| datetime_now := fun x => (mk_datetime 2024 1 1 10 0 0 0, x);
     session_head := fun _ x => (Response 401, x);
     session_get := fun _ x => (GetRaised, x);
     writable := fun _ => true;
     gunzip := fun _ => None;
     uncompress_run := fun _ x _ => (RunUnavailable, x);
     output_dir := "/data/";
     auto_cleanup := None |}.

(** A world that serves every file, with a body that is not gzip data, and
    without the [uncompress] program. *)
Definition world_no_tools : env unit :=
  {| datetime_now := fun x => (mk_datetime 2024 1 1 10 0 0 0, x);
     session_head := fun _ x => (Response 200, x);
     session_get := fun _ x => (GetStream "not compressed data" true, x);
     writable := fun _ => true;
     gunzip := fun _ => None;
     uncompress_run := fun _ x _ => (RunUnavailable, x);
     output_dir := "/data/";
     auto_cleanup := None |}.

Definition start : state unit := mk_state tt ∅ [].

(** The header line of the scenario, and the same line with the satellite
    identifiers starting at column 9 as the scan expects. *)
Definition header_col8 : string := "+  32   G01G02R01R02...".
Definition header_col9 : string := "+   32   G01G02R01R02...".

Definition sp3_text (header : string) : string :=
  "#dP2024  1  1  0  0  0.00000000      96 ORBIT IGS20 HLM  IGS" +:+ String "010" ""
  +:+ header +:+ String "010" "".

End Samples.

(** ** The requests of a run *)

Section Requests.
Local Open Scope string_scope.
Local Open Scope list_scope.

(** The URLs probed with their answers, and the URLs fetched, in order. *)
Definition probes (evs : list event) : list (string * head_result) :=
  omap (fun e => match e with Head u r => Some (u, r) | Get _ => None end) evs.

Definition fetched (evs : list event) : list string :=
  omap (fun e => match e with Get u => Some u | Head _ _ => None end) evs.

(** The answers that end the probe loop: 200 (found) and 401. *)
Definition ends_loop (r : head_result) : bool :=
  match r with
  | Response status_code => (status_code =? 200)%Z || (status_code =? 401)%Z
  | HeadRaised => false
  end.

(** The requests a probe loop over [filenames] can leave: probes of the
    candidates in order, ended by a 401, or by a 200 and the fetch of that
    file, or by the end of the list. *)
Inductive probe_trace (repository : string) : list string -> list event -> Prop :=
| probe_trace_end : probe_trace repository [] []
| probe_trace_next filename rest r evs :
    ends_loop r = false ->
    probe_trace repository rest evs ->
    probe_trace repository (filename :: rest)
                (Head (repository +:+ filename) r :: evs)
| probe_trace_auth filename rest :
    probe_trace repository (filename :: rest)
                [Head (repository +:+ filename) (Response 401)]
| probe_trace_found filename rest :
    probe_trace repository (filename :: rest)
                [Head (repository +:+ filename) (Response 200);
                 Get (repository +:+ filename)].

Definition url (e : event) : string :=
  match e with Head u _ => u | Get u => u end.

(** [f"{self.cddis_base}/{gps_week:04d}/"], the directory of a GPS week. *)
Definition week_directory (gps_week : Z) : string :=
  cddis_base +:+ "/" +:+ format_0d 4 gps_week +:+ "/".

(** The largest number of candidates of a class. *)
Definition class_budget (p : product_type) : nat :=
  match p with final => 16 | rapid => 20 | ultra_rapid => 120 end.

(** The requests sent between the states [s] and [s']. *)
Definition requests_between {X} (s s' : state X) : list event :=
  drop (length (trace s)) (trace s').

Fixpoint chain_budget (chain : list product_type) : nat :=
  match chain with
  | [] => 0
  | p :: rest => class_budget p + chain_budget rest
  end.

(** The requests of one class: at most as many probes as the class has
    candidates, at most one fetch, all in the directory of the GPS week of
    the target date; and no result without a fetch. *)
Definition class_requests {X} (target_date : datetime) (n : nat) (fetches : nat)
    (s : state X) (run : option string * state X) : Prop :=
  let evs := requests_between s run.2 in
  trace run.2 = trace s ++ evs
  /\ (length (probes evs) <= n)%nat
  /\ (length (fetched evs) <= fetches)%nat
  /\ Forall (fun e =>
       String.prefix
         (week_directory (days (sub target_date gps_epoch) / 7)) (url e) = true)
       evs
  /\ (fetched evs = [] -> run.1 = None).

(** A server where the third request of a session finds its file and the
    others find nothing, with working decompressors. *)
Definition world_third : env nat :=
  {| datetime_now := fun n => (mk_datetime 2024 1 20 10 0 0 0, n);
     session_head := fun _ n =>
       (if (n =? 2)%nat then Response 200 else Response 404, S n);
     session_get := fun _ n => (GetStream "gzip data" true, n);
     writable := fun _ => true;
     gunzip := fun _ => Some "orbit data";
     uncompress_run := fun _ n f => (RunUnavailable, n);
     output_dir := "/data/";
     auto_cleanup := None |}.

End Requests.

(** ** The calendar *)

Section Calendar.

(** [_days_in_month(year, month)] *)
Definition _days_in_month (y m : Z) : Z :=
  if (m =? 2) && _is_leap y then 29 else _DAYS_IN_MONTH m.

(** The dates of the calendar: a month from 1 to 12 and a day of that
    month. *)
Definition is_date (y m d : Z) : bool :=
  (1 <=? m) && (m <=? 12) && (1 <=? d) && (d <=? _days_in_month y m).

(** The last steps of [_ord2ymd]: the month and the day of the day [n] of a
    year (counted from 0), by whether the year is a leap year. *)
Definition month_and_day (n : Z) (leapyear : bool) : Z * Z :=
  let m := Z.shiftr (n + 50) 5 in
  let preceding :=
    _DAYS_BEFORE_MONTH m + (if (2 <? m) && leapyear then 1 else 0) in
  let '(m, preceding) :=
    if n <? preceding
    then (m - 1,
          preceding - (_DAYS_IN_MONTH (m - 1)
                       + (if (m - 1 =? 2) && leapyear then 1 else 0)))
    else (m, preceding) in
  (m, n - preceding + 1).

(** The days before a month and the days of a month, by whether the year
    is a leap year. *)
Definition preceding_days (leapyear : bool) (m : Z) : Z :=
  _DAYS_BEFORE_MONTH m + (if (2 <? m) && leapyear then 1 else 0).

Definition month_length (leapyear : bool) (m : Z) : Z :=
  if (m =? 2) && leapyear then 29 else _DAYS_IN_MONTH m.

(** [f] holds for the [n] integers from [a] on. *)
Definition all_from (f : Z -> bool) (a : Z) (n : N) : bool :=
  snd (N.iter n (fun '(i, b) => (i + 1, b && f i)) (a, true)).

(** The month and the day of the day [n] of a year are a date of that year,
    the day [n] of it. *)
Definition day_of_year_restored (leapyear : bool) (n : Z) : bool :=
  let '(m, d) := month_and_day n leapyear in
  (1 <=? m) && (m <=? 12) && (1 <=? d) && (d <=? month_length leapyear m)
  && (preceding_days leapyear m + d =? n + 1).

(** The day [k mod 31 + 1] of the month [k / 31 + 1], when the month has
    such a day, is found back from its day of the year, which is below the
    length of the year. *)
Definition month_day_restored (leapyear : bool) (k : Z) : bool :=
  let m := k / 31 + 1 in
  let d := k mod 31 + 1 in
  let n := preceding_days leapyear m + d - 1 in
  negb (d <=? month_length leapyear m)
  || (let '(m', d') := month_and_day n leapyear in
      (m' =? m) && (d' =? d) && (0 <=? n)
      && (n <=? (if leapyear then 365 else 364))).

End Calendar.

(** ** What the header scan accepts *)

Section ScanNotions.
Local Open Scope string_scope.

(** A satellite identifier as the scan accepts it: three characters, a
    letter and two digits. *)
Definition sat_id_ok (sat_id : string) : bool :=
  match sat_id with
  | String c0 rest =>
      (String.length sat_id =? 3)%nat && isalpha c0 && str_isdigit rest
  | EmptyString => false
  end.

(** [sat_id[0].upper()] *)
Definition constellation_of (sat_id : string) : string :=
  match sat_id with
  | String c0 _ => String (upper c0) ""
  | EmptyString => ""
  end.

(** The three collections of a scan agree: the constellations are the keys
    of [satellites]; the satellites of all the keys together are
    [all_satellites]; under a key there is at least one identifier, and
    every identifier there is one the scan accepts, of that constellation. *)
Definition scan_consistent (sc : sp3_scan) : Prop :=
  constellations sc = dom (satellites sc)
  /\ (forall sat_id,
        sat_id ∈ all_satellites sc
        <-> exists c ids, satellites sc !! c = Some ids /\ sat_id ∈ ids)
  /\ (forall c ids sat_id,
        satellites sc !! c = Some ids -> sat_id ∈ ids ->
        sat_id_ok sat_id = true /\ constellation_of sat_id = c)
  /\ (forall c ids, satellites sc !! c = Some ids -> ids <> ∅).

(** The sum of the counts that the report gives for the constellations,
    [len(satellites[c])] for every key [c]. *)
Definition listed_satellites (sc : sp3_scan) : nat :=
  map_fold (fun _ ids n => (size ids + n)%nat) 0%nat (satellites sc).

End ScanNotions.

(** ** The configuration ([ConfigManager]) *)

(** The values of a configuration: the JSON values of the file (texts,
    booleans, [null], and the others by their JSON text) and the empty tuple
    that is the default of [jwt_token]. *)
Inductive setting :=
| Text (s : string)
| Flag (b : bool)
| Null
| EmptyTuple
| Other (json : string).

Abbreviation config := (gmap string setting).

Section Configuration.
Local Open Scope string_scope.
Local Open Scope list_scope.







(** [set] *)
Definition config_set (c : config) (key : string) (value : setting) : config :=
  <[key := value]> c.

End Configuration.

(** ** Comparing candidates *)

#[global] Instance candidate_eq_dec : EqDecision candidate.
Proof. solve_decision. Defined.

(** The hours at which the older ultra-rapid names are published. *)
Definition hours8 : list Z := [21; 18; 15; 12; 9; 6; 3; 0]%Z.

Definition first_char (s : string) : option ascii :=
  match s with String c _ => Some c | EmptyString => None end.

(** * Properties *)

(** ** Dates and elapsed time *)

Section TimeFacts.

Lemma timedelta_total (d s us : Z) :
  let t := new_timedelta d s us in
  (days t * 86400 + seconds t) * 1000000 + microseconds t
  = (d * 86400 + s) * 1000000 + us.
Proof.
  cbv zeta. unfold new_timedelta, US_PER_DAY, US_PER_SECOND. cbn [days seconds microseconds].
  set (T := (d * 86400 + s) * 1000000 + us).
  pose proof (Z.div_mod T (86400 * 1000000) ltac:(lia)) as H1.
  pose proof (Z.div_mod (T mod (86400 * 1000000)) 1000000 ltac:(lia)) as H2.
  lia.
Qed.

Lemma sub_total (a b : datetime) :
  (days (sub a b) * 86400 + seconds (sub a b)) * 1000000 + microseconds (sub a b)
  = instant a - instant b.
Proof.
  unfold sub. rewrite timedelta_total. unfold instant, US_PER_SECOND. lia.
Qed.

Lemma sub_days (a b : datetime) :
  days (sub a b) = (instant a - instant b) / US_PER_DAY.
Proof.
  unfold sub, new_timedelta, instant. cbn [days]. f_equal.
  unfold US_PER_SECOND. lia.
Qed.

Lemma hours_elapsed_exact (target_date now : datetime) :
  (hours_elapsed (analyze_data_availability target_date now)
   == elapsed_hours target_date now)%Q.
Proof.
  assert (H : (total_seconds (sub now target_date) / 3600
               == elapsed_hours target_date now)%Q).
  { unfold total_seconds, elapsed_hours. rewrite sub_total.
    unfold Qeq, Qdiv, Qmult, Qinv. cbn. lia. }
  unfold analyze_data_availability.
  repeat match goal with |- context [if ?c then _ else _] => destruct c end;
    cbn [hours_elapsed]; exact H.
Qed.

End TimeFacts.

Section Classification.

Lemma analyze_cases (target_date now : datetime) :
  let a := analyze_data_availability target_date now in
  let h := elapsed_hours target_date now in
  optimal_product a
  = (if Qle_bool 288 h then Some final
     else if Qle_bool 24 h then Some rapid
     else if Qle_bool 3 h then Some ultra_rapid
     else None)
  /\ data_unavailable a = negb (Qle_bool 3 h).
Proof.
  cbv zeta.
  assert (H : (total_seconds (sub now target_date) / 3600
               == elapsed_hours target_date now)%Q).
  { unfold total_seconds, elapsed_hours. rewrite sub_total.
    unfold Qeq, Qdiv, Qmult, Qinv. cbn. lia. }
  assert (Hc : forall c : Q,
             Qle_bool c (total_seconds (sub now target_date) / 3600)
             = Qle_bool c (elapsed_hours target_date now)).
  { intros c. apply Qleb_comp; [reflexivity | exact H]. }
  unfold analyze_data_availability. cbn [availability_thresholds].
  rewrite !Hc.
  change (inject_Z (12 * 24)) with 288%Q. change (inject_Z 24) with 24%Q.
  change (inject_Z 3) with 3%Q.
  destruct (Qle_bool 288 (elapsed_hours target_date now)) eqn:E1;
    [|destruct (Qle_bool 24 (elapsed_hours target_date now)) eqn:E2;
      [|destruct (Qle_bool 3 (elapsed_hours target_date now)) eqn:E3]];
    cbn [optimal_product data_unavailable]; split; try reflexivity.
  - apply Qle_bool_iff in E1.
    assert (E3 : Qle_bool 3 (elapsed_hours target_date now) = true)
      by (apply Qle_bool_iff; lra).
    now rewrite E3.
  - apply Qle_bool_iff in E2.
    assert (E3 : Qle_bool 3 (elapsed_hours target_date now) = true)
      by (apply Qle_bool_iff; lra).
    now rewrite E3.
Qed.

Lemma Qle_bool_false (x y : Q) : Qle_bool x y = false <-> (y < x)%Q.
Proof.
  split; intros H.
  - apply Qnot_le_lt. intros Hle. apply Qle_bool_iff in Hle. congruence.
  - destruct (Qle_bool x y) eqn:E; [|reflexivity].
    apply Qle_bool_iff in E. lra.
Qed.

(** C3.  The class chosen by [analyze_data_availability] is decided by the
    elapsed time [now - target_date] in hours, an exact fraction: final from
    288 hours on, else rapid from 24 hours on, else ultra-rapid from 3 hours
    on, else no class and [data_unavailable] set.  The result is a function
    of the two times alone. *)
Theorem classify_by_thresholds (target_date now : datetime) :
  let a := analyze_data_availability target_date now in
  let h := elapsed_hours target_date now in
  (hours_elapsed a == h)%Q
  /\ date_requested a = target_date
  /\ ((288 <= h)%Q ->
      optimal_product a = Some final /\ data_unavailable a = false)
  /\ ((24 <= h)%Q /\ (h < 288)%Q ->
      optimal_product a = Some rapid /\ data_unavailable a = false)
  /\ ((3 <= h)%Q /\ (h < 24)%Q ->
      optimal_product a = Some ultra_rapid /\ data_unavailable a = false)
  /\ ((h < 3)%Q ->
      optimal_product a = None /\ data_unavailable a = true).
Proof.
  cbv zeta.
  destruct (analyze_cases target_date now) as [Ho Hu]. cbv zeta in Ho, Hu.
  split; [apply hours_elapsed_exact|].
  split.
  { unfold analyze_data_availability.
    repeat match goal with |- context [if ?c then _ else _] => destruct c end;
      reflexivity. }
  rewrite Ho, Hu. clear Ho Hu.
  set (h := elapsed_hours target_date now).
  repeat split.
  - apply Qle_bool_iff in H. now rewrite H.
  - destruct (Qle_bool 3 h) eqn:E; [reflexivity|].
    apply Qle_bool_false in E. lra.
  - destruct H as [H1 H2]. apply Qle_bool_false in H2. apply Qle_bool_iff in H1.
    now rewrite H2, H1.
  - destruct H as [H1 H2]. destruct (Qle_bool 3 h) eqn:E; [reflexivity|].
    apply Qle_bool_false in E. lra.
  - destruct H as [H1 H2].
    assert (H3 : (h < 288)%Q) by lra.
    apply Qle_bool_false in H2, H3. apply Qle_bool_iff in H1.
    now rewrite H3, H2, H1.
  - destruct H as [H1 H2]. apply Qle_bool_iff in H1. now rewrite H1.
  - assert (H2 : (h < 24)%Q) by lra. assert (H3 : (h < 288)%Q) by lra.
    apply Qle_bool_false in H, H2, H3. now rewrite H3, H2, H.
  - apply Qle_bool_false in H. now rewrite H.
Qed.

(** C4.  For a fixed target date, a later clock reading never gives a less
    available class, and never reports the data unavailable once an earlier
    reading found a class. *)
Theorem classify_monotone (target_date now1 now2 : datetime) :
  le now1 now2 ->
  (availability_rank (optimal_product (analyze_data_availability target_date now1))
   <= availability_rank (optimal_product (analyze_data_availability target_date now2)))%nat
  /\ (data_unavailable (analyze_data_availability target_date now1) = false ->
      data_unavailable (analyze_data_availability target_date now2) = false).
Proof.
  intros Hle.
  destruct (analyze_cases target_date now1) as [Ho1 Hu1].
  destruct (analyze_cases target_date now2) as [Ho2 Hu2].
  cbv zeta in *. rewrite Ho1, Ho2, Hu1, Hu2. clear Ho1 Ho2 Hu1 Hu2.
  assert (Hh : (elapsed_hours target_date now1 <= elapsed_hours target_date now2)%Q).
  { unfold elapsed_hours, Qle. cbn. unfold le in Hle. lia. }
  set (h1 := elapsed_hours target_date now1) in *.
  set (h2 := elapsed_hours target_date now2) in *.
  assert (mono : forall c, Qle_bool c h1 = true -> Qle_bool c h2 = true).
  { intros c H. apply Qle_bool_iff. apply Qle_bool_iff in H. lra. }
  split.
  - destruct (Qle_bool 288 h1) eqn:A1.
    { rewrite (mono _ A1). cbn. lia. }
    destruct (Qle_bool 24 h1) eqn:A2.
    { rewrite (mono _ A2). destruct (Qle_bool 288 h2); cbn; lia. }
    destruct (Qle_bool 3 h1) eqn:A3.
    { rewrite (mono _ A3).
      destruct (Qle_bool 288 h2), (Qle_bool 24 h2); cbn; lia. }
    cbn. lia.
  - intros H. apply negb_false_iff in H. now rewrite (mono _ H).
Qed.

Lemma classify_monotone_witness :
  le (mk_datetime 2024 1 1 5 0 0 0) (mk_datetime 2024 1 3 0 0 0 0)
  /\ (availability_rank (optimal_product (analyze_data_availability
        (mk_datetime 2024 1 1 0 0 0 0) (mk_datetime 2024 1 1 5 0 0 0)))
      <= availability_rank (optimal_product (analyze_data_availability
        (mk_datetime 2024 1 1 0 0 0 0) (mk_datetime 2024 1 3 0 0 0 0))))%nat.
Proof.
  assert (H : le (mk_datetime 2024 1 1 5 0 0 0) (mk_datetime 2024 1 3 0 0 0 0))
    by (vm_compute; discriminate).
  split; [exact H|].
  exact (proj1 (classify_monotone (mk_datetime 2024 1 1 0 0 0 0) _ _ H)).
Defined.

Lemma whole_days_since_epoch (d : datetime) :
  (instant d - instant gps_epoch) / US_PER_DAY
  = toordinal d - toordinal gps_epoch + time_of_day d / US_PER_DAY.
Proof.
  unfold instant, time_of_day, US_PER_DAY, US_PER_SECOND.
  change (toordinal gps_epoch) with 722820.
  cbn [second minute hour microsecond gps_epoch].
  set (tod := (second d + minute d * 60 + hour d * 3600) * 1000000 + microsecond d).
  replace ((toordinal d * 86400 + (second d + minute d * 60 + hour d * 3600)) * 1000000
           + microsecond d - ((722820 * 86400 + (0 + 0 * 60 + 0 * 3600)) * 1000000 + 0))
    with (tod + (toordinal d - 722820) * (86400 * 1000000)) by (subst tod; lia).
  rewrite Z.div_add by lia. lia.
Qed.

(** C5.  The GPS week and the day of the week of a date add up to the whole
    days from the epoch 1980-01-06 to the date, and the day of the week is
    between 0 and 6.  The whole days are the difference of the two ordinals
    (plus the days in the time of day, none for a date). *)
Theorem gps_week_day_invariant (d : datetime) :
  let '(gps_week, day_of_week, _) := date_to_gps_week d in
  gps_week * 7 + day_of_week = (instant d - instant gps_epoch) / US_PER_DAY
  /\ (instant d - instant gps_epoch) / US_PER_DAY
     = toordinal d - toordinal gps_epoch + time_of_day d / US_PER_DAY
  /\ 0 <= day_of_week <= 6.
Proof.
  unfold date_to_gps_week. rewrite <- whole_days_since_epoch, <- sub_days.
  pose proof (Z.div_mod (days (sub d gps_epoch)) 7 ltac:(lia)).
  pose proof (Z.mod_pos_bound (days (sub d gps_epoch)) 7 ltac:(lia)).
  lia.
Qed.

(** On a date (midnight), and at any valid time of the day, the whole days
    are the difference of the ordinals. *)
Lemma whole_days_of_valid_time (d : datetime) :
  0 <= time_of_day d < US_PER_DAY ->
  (instant d - instant gps_epoch) / US_PER_DAY = toordinal d - toordinal gps_epoch.
Proof.
  intros H. rewrite whole_days_since_epoch, Z.div_small by exact H. lia.
Qed.

(** The classes at the thresholds, for the target date 2024-01-01: 300
    hours later and exactly 288 hours later the final class, one microsecond
    earlier the rapid class, 10 hours later the ultra-rapid class, one
    microsecond before 3 hours no class. *)
Example classes_at_thresholds :
  let target := mk_datetime 2024 1 1 0 0 0 0 in
  let class now := optimal_product (analyze_data_availability target now) in
  class (mk_datetime 2024 1 13 12 0 0 0) = Some final
  /\ class (mk_datetime 2024 1 13 0 0 0 0) = Some final
  /\ class (mk_datetime 2024 1 12 23 59 59 999999) = Some rapid
  /\ class (mk_datetime 2024 1 2 0 0 0 0) = Some rapid
  /\ class (mk_datetime 2024 1 1 10 0 0 0) = Some ultra_rapid
  /\ class (mk_datetime 2024 1 1 3 0 0 0) = Some ultra_rapid
  /\ class (mk_datetime 2024 1 1 2 59 59 999999) = None
  /\ data_unavailable (analyze_data_availability target
                         (mk_datetime 2024 1 1 2 59 59 999999)) = true.
Proof. cbv zeta. repeat split; vm_compute; reflexivity. Qed.

(** The epoch is day 0 of week 0; the first day of the current format is
    2022-11-27, day 0 of week 2238; dates before the epoch have negative
    weeks and days of the week from 0 to 6 all the same. *)
Example gps_weeks :
  date_to_gps_week gps_epoch = (0, 0, gps_epoch)
  /\ (date_to_gps_week (mk_datetime 2022 11 27 0 0 0 0)).1 = (2238, 0)
  /\ (date_to_gps_week (mk_datetime 2022 11 26 0 0 0 0)).1 = (2237, 6)
  /\ (date_to_gps_week (mk_datetime 1979 12 31 0 0 0 0)).1 = (-1, 1).
Proof. repeat split; vm_compute; reflexivity. Qed.

End Classification.

(** ** The fallback chain and the probe loop *)

Section Coordinator.
Context {X : Type} (E : env X).

(** Only the ultra-rapid names depend on the clock. *)
Lemma names_without_clock (target_date now1 now2 : datetime) (p : product_type) :
  p <> ultra_rapid ->
  generate_combined_sp3_filenames target_date now1 p
  = generate_combined_sp3_filenames target_date now2 p.
Proof.
  intros Hp. unfold generate_combined_sp3_filenames.
  destruct (date_to_gps_week target_date) as [[w d] date_obj].
  assert (Hm : modern_filenames date_obj now1 w d p
               = modern_filenames date_obj now2 w d p)
    by (unfold modern_filenames; destruct p; [reflexivity | reflexivity | congruence]).
  assert (Hl : legacy_filenames date_obj now1 w d p
               = legacy_filenames date_obj now2 w d p)
    by (unfold legacy_filenames; destruct p; [reflexivity | reflexivity | congruence]).
  now rewrite Hm, Hl.
Qed.

Lemma unavailable_iff_no_class (target_date t : datetime) :
  data_unavailable (analyze_data_availability target_date t) = true
  <-> optimal_product (analyze_data_availability target_date t) = None.
Proof.
  unfold analyze_data_availability.
  repeat match goal with |- context [if ?c then _ else _] => destruct c end;
    cbn; split; congruence.
Qed.

Lemma now_keeps_requests (s : state X) :
  trace (now E s).2 = trace s /\ fs (now E s).2 = fs s.
Proof. unfold now. destruct (datetime_now E (ext s)). now cbn. Qed.

(** C1.  [smart_download_sp3] reads the clock and classifies; without a
    class it returns [None] and no request has been sent; with the class [p]
    it attempts the classes of the chain of [p] in order, returns the first
    result that is one, and [None] when every class of the chain failed. *)
Theorem smart_download_follows_chain (target_date : datetime) (s : state X) :
  let (t, s0) := now E s in
  let a := analyze_data_availability target_date t in
  smart_download_sp3 E target_date s
  = match optimal_product a with
    | None => (None, s0)
    | Some p => first_success E target_date (degrade_chain p) s0
    end
  /\ (data_unavailable a = true <-> optimal_product a = None)
  /\ trace s0 = trace s.
Proof.
  pose proof (now_keeps_requests s) as [Ht _].
  unfold smart_download_sp3, mbind, M_bind at 1.
  destruct (now E s) as [t s0]. cbn [snd] in Ht.
  split; [|split; [apply unavailable_iff_no_class | exact Ht]].
  pose proof (unavailable_iff_no_class target_date t) as Hiff.
  destruct (data_unavailable (analyze_data_availability target_date t)).
  - rewrite (proj1 Hiff eq_refl). reflexivity.
  - destruct (optimal_product (analyze_data_availability target_date t)) as [p|];
      [|reflexivity].
    destruct p; cbn [degrade_chain first_success]; unfold mbind, M_bind, mret, M_ret.
    + destruct (download_product_type E target_date final s0) as [r s1].
      now destruct (truthy r).
    + destruct (download_product_type E target_date rapid s0) as [r s1].
      destruct (truthy r); [reflexivity|].
      destruct (download_product_type E target_date final s1) as [r2 s2].
      now destruct (truthy r2).
    + destruct (download_product_type E target_date ultra_rapid s0) as [r s1].
      destruct (truthy r); [reflexivity|].
      destruct (download_product_type E target_date rapid s1) as [r2 s2].
      destruct (truthy r2); [reflexivity|].
      destruct (download_product_type E target_date final s2) as [r3 s3].
      now destruct (truthy r3).
Qed.

(** What a chain of attempts returns: a result that is one comes from a
    class of the chain. *)
Lemma first_success_truthy (target_date : datetime) (chain : list product_type)
    (s : state X) :
  truthy (first_success E target_date chain s).1 = true ->
  exists p s1, In p chain
    /\ (download_product_type E target_date p s1).1
       = (first_success E target_date chain s).1.
Proof.
  revert s. induction chain as [|p rest IH]; intros s; cbn [first_success].
  - cbn. discriminate.
  - unfold mbind, M_bind.
    destruct (download_product_type E target_date p s) as [r s1] eqn:Hd.
    destruct (truthy r) eqn:Hr.
    + intros _. exists p, s. split; [now left|]. now rewrite Hd.
    + intros H. destruct (IH s1 H) as (q & s2 & Hin & Hq).
      exists q, s2. split; [now right | exact Hq].
Qed.

(** A chain of attempts ends with a result that is one, or with [None]. *)
Lemma first_success_none_or_result (target_date : datetime)
    (chain : list product_type) (s : state X) :
  (first_success E target_date chain s).1 = None
  \/ truthy (first_success E target_date chain s).1 = true.
Proof.
  revert s. induction chain as [|p rest IH]; intros s; cbn [first_success].
  - now left.
  - unfold mbind, M_bind.
    destruct (download_product_type E target_date p s) as [r s1].
    destruct (truthy r) eqn:Hr; [now right | apply IH].
Qed.

End Coordinator.

Section Probing.
Context {X : Type} (E : env X).

Lemma decompress_file_requests (p : path) (s : state X) :
  trace (decompress_file E p s).2 = trace s.
Proof.
  unfold decompress_file.
  destruct (with_suffix_empty p) as [q|]; [|reflexivity].
  unfold mbind, M_bind, read_file, write_file, exists_, unlink, mret, M_ret.
  destruct (fs s !! str p); [|reflexivity].
  destruct (writable E (str q)); cbn [negb]; [|reflexivity].
  destruct (gunzip E _); [|reflexivity].
  destruct (auto_cleanup E) as [[|]|]; cbn;
    match goal with |- context [bool_decide ?P] => destruct (bool_decide P) end;
    reflexivity.
Qed.

Lemma decompress_unix_z_requests (p : path) (s : state X) :
  trace (decompress_unix_z E p s).2 = trace s.
Proof.
  unfold decompress_unix_z.
  destruct (with_suffix_empty p) as [q|]; [|reflexivity].
  unfold mbind, M_bind, run_uncompress, exists_, mret, M_ret.
  destruct (uncompress_run E (str p) (ext s) (fs s)) as [[|rc after|after] x];
    try reflexivity.
  cbn. destruct (_ && _); reflexivity.
Qed.

Lemma download_file_requests (file_url filename : string) (s : state X) :
  trace (download_file E file_url filename s).2 = trace s ++ [Get file_url].
Proof.
  unfold download_file, mbind, M_bind at 1, get.
  destruct (session_get E file_url (ext s)) as [[|received complete] x];
    [reflexivity|].
  destruct (writable E _); cbn [negb]; [|reflexivity].
  unfold mbind, M_bind at 1, write_file.
  destruct complete; cbn [negb]; [|reflexivity].
  destruct (endswith filename ".gz").
  { unfold fmap, M_fmap.
    match goal with |- context [decompress_file E ?p ?s0] =>
      pose proof (decompress_file_requests p s0) as H;
      destruct (decompress_file E p s0) end.
    exact H. }
  destruct (endswith filename ".Z"); [|reflexivity].
  unfold fmap, M_fmap.
  match goal with |- context [decompress_unix_z E ?p ?s0] =>
    pose proof (decompress_unix_z_requests p s0) as H;
    destruct (decompress_unix_z E p s0) end.
  exact H.
Qed.

Lemma probe_loop_cons (repository filename : string) (rest : list string)
    (s : state X) :
  probe_loop E repository (filename :: rest) s
  = let url := (repository +:+ filename)%string in
    let (r, x) := session_head E url (ext s) in
    let s1 := mk_state x (fs s) (trace s ++ [Head url r]) in
    match r with
    | HeadRaised => probe_loop E repository rest s1
    | Response status_code =>
        if status_code =? 200 then download_file E url filename s1
        else if status_code =? 404 then probe_loop E repository rest s1
        else if status_code =? 401 then (None, s1)
        else probe_loop E repository rest s1
    end.
Proof.
  cbn [probe_loop]. unfold mbind, M_bind at 1, head. cbv zeta.
  destruct (session_head E _ (ext s)) as [[status_code|] x]; [|reflexivity].
  destruct (status_code =? 200); [reflexivity|].
  destruct (status_code =? 404); [reflexivity|].
  destruct (status_code =? 401); reflexivity.
Qed.

(** The requests of a probe loop: a 401 answer is the last of them and
    leaves no result, and a file is fetched only after a 200 answer. *)
Lemma probe_loop_requests (repository : string) (filenames : list string) :
  forall (s s' : state X) (result : option string),
  probe_loop E repository filenames s = (result, s') ->
  exists evs,
    trace s' = trace s ++ evs
    /\ forall pre url post,
         evs = pre ++ Head url (Response 401) :: post ->
         post = [] /\ result = None /\ Forall (fun e => forall u, e <> Get u) evs.
Proof.
  induction filenames as [|filename rest IH]; intros s s' result Hrun.
  - cbn in Hrun. inversion Hrun; subst. exists []. split; [now rewrite app_nil_r|].
    intros [|? ?] ? ? H; discriminate.
  - rewrite probe_loop_cons in Hrun. cbv zeta in Hrun.
    set (url := (repository +:+ filename)%string) in *.
    destruct (session_head E url (ext s)) as [r x].
    set (s1 := mk_state x (fs s) (trace s ++ [Head url r])) in *.
    assert (continue :
      r <> Response 401 ->
      probe_loop E repository rest s1 = (result, s') ->
      exists evs,
        trace s' = trace s ++ evs
        /\ forall pre url' post,
             evs = pre ++ Head url' (Response 401) :: post ->
             post = [] /\ result = None
             /\ Forall (fun e => forall u, e <> Get u) evs).
    { intros Hr Hrest. destruct (IH _ _ _ Hrest) as (evs & Ht & Hlast).
      exists (Head url r :: evs). split.
      - rewrite Ht. subst s1. cbn [trace]. now rewrite <- app_assoc.
      - intros [|e pre] url' post Heq; inversion Heq; subst.
        + congruence.
        + destruct (Hlast _ _ _ eq_refl) as (? & ? & ?).
          repeat split; try assumption. constructor; [discriminate | assumption]. }
    destruct r as [status_code|]; [|apply continue; [discriminate | exact Hrun]].
    destruct (status_code =? 200) eqn:E200.
    { pose proof (download_file_requests url filename s1) as Hd.
      rewrite Hrun in Hd. cbn [snd] in Hd.
      exists [Head url (Response status_code); Get url]. split.
      - rewrite Hd. subst s1. cbn [trace]. now rewrite <- app_assoc.
      - apply Z.eqb_eq in E200. subst status_code.
        intros [|e [|e' [|? ?]]] url' post Heq; inversion Heq. }
    destruct (status_code =? 404) eqn:E404.
    { apply continue; [|exact Hrun]. apply Z.eqb_eq in E404. subst. discriminate. }
    destruct (status_code =? 401) eqn:E401.
    { inversion Hrun; subst.
      exists [Head url (Response status_code)]. split; [reflexivity|].
      intros [|e [|? ?]] url' post Heq; inversion Heq; subst.
      repeat split. constructor; [discriminate | constructor]. }
    apply continue; [|exact Hrun]. apply Z.eqb_neq in E401. congruence.
Qed.

(** C2 (as amended).  In the probe loop of one class a 401 answer ends the
    loop at once: it is the last request of that class, nothing is fetched,
    and the attempt of the class returns [None], the result of any failed
    class. *)
Theorem auth_failure_ends_class_attempt
    (repository : string) (filenames : list string) (s s' : state X)
    (result : option string) (evs pre post : list event) (url : string) :
  probe_loop E repository filenames s = (result, s') ->
  trace s' = trace s ++ evs ->
  evs = pre ++ Head url (Response 401) :: post ->
  post = [] /\ result = None /\ Forall (fun e => forall u, e <> Get u) evs.
Proof.
  intros Hrun Ht Hevs.
  destruct (probe_loop_requests repository filenames s s' result Hrun)
    as (evs' & Ht' & Hlast).
  assert (evs' = evs) by (rewrite Ht in Ht'; now apply app_inv_head in Ht').
  subst evs'. exact (Hlast _ _ _ Hevs).
Qed.

End Probing.

Section ProbingExamples.
Local Open Scope string_scope.

Lemma auth_failure_ends_class_attempt_witness :
  probe_loop world_401 "r/" ["a"; "b"] start
  = (None, mk_state tt ∅ [Head "r/a" (Response 401)])
  /\ ([] : list event) = []
  /\ (None : option string) = None
  /\ Forall (fun e => forall u, e <> Get u) [Head "r/a" (Response 401)].
Proof.
  split; [reflexivity|].
  apply (auth_failure_ends_class_attempt world_401 "r/" ["a"; "b"] start
           (mk_state tt ∅ [Head "r/a" (Response 401)]) None
           [Head "r/a" (Response 401)] [] [] "r/a");
    reflexivity.
Defined.

(** C2 (as stated) fails: with the credential rejected on every request, the
    ultra-rapid attempt ends at its first probe, and the download goes on to
    probe the rapid and the final class. *)
Lemma auth_failure_does_not_end_download :
  let run := smart_download_sp3 world_401 (mk_datetime 2024 1 1 0 0 0 0) start in
  run.1 = None
  /\ trace run.2
     = [ Head "https://cddis.nasa.gov/archive/gnss/products/2295/IGS0OPSULT_20240010600_02D_01S_ORB.SP3.gz"
              (Response 401);
         Head "https://cddis.nasa.gov/archive/gnss/products/2295/IGS0OPSRAP_20240010000_01D_01S_ORB.SP3.gz"
              (Response 401);
         Head "https://cddis.nasa.gov/archive/gnss/products/2295/IGS0OPSFIN_20240010000_01D_01S_ORB.SP3.gz"
              (Response 401) ]
  /\ ~ auth_failure_is_last (trace run.2).
Proof.
  cbv zeta.
  assert (Ht : trace (smart_download_sp3 world_401 (mk_datetime 2024 1 1 0 0 0 0) start).2
     = [ Head "https://cddis.nasa.gov/archive/gnss/products/2295/IGS0OPSULT_20240010600_02D_01S_ORB.SP3.gz"
              (Response 401);
         Head "https://cddis.nasa.gov/archive/gnss/products/2295/IGS0OPSRAP_20240010000_01D_01S_ORB.SP3.gz"
              (Response 401);
         Head "https://cddis.nasa.gov/archive/gnss/products/2295/IGS0OPSFIN_20240010000_01D_01S_ORB.SP3.gz"
              (Response 401) ]) by (vm_compute; reflexivity).
  split; [vm_compute; reflexivity|]. split; [exact Ht|].
  rewrite Ht. intros H.
  specialize (H [] _ _ eq_refl). discriminate.
Qed.

End ProbingExamples.

(** ** Decompression *)

Section Decompression.
Context {X : Type} (E : env X).

(** C9.  When the [uncompress] program is unavailable or its invocation
    fails, [decompress_unix_z] returns the path of the compressed file; it
    removes nothing itself, so the files are as the program left them, and
    untouched when the program could not be started. *)
Theorem unix_z_failure_keeps_compressed
    (compressed_path decompressed_path : path) (s : state X)
    (r : run_result) (x : X) :
  with_suffix_empty compressed_path = Some decompressed_path ->
  uncompress_run E (str compressed_path) (ext s) (fs s) = (r, x) ->
  uncompress_failed r (str decompressed_path) ->
  decompress_unix_z E compressed_path s
  = (str compressed_path, mk_state x (files_left r (fs s)) (trace s))
  /\ (r = RunUnavailable ->
      fs (decompress_unix_z E compressed_path s).2 = fs s).
Proof.
  intros Hq Hrun Hfail.
  assert (H : decompress_unix_z E compressed_path s
              = (str compressed_path, mk_state x (files_left r (fs s)) (trace s))).
  { unfold decompress_unix_z. rewrite Hq.
    unfold mbind, M_bind, run_uncompress, exists_, mret, M_ret. rewrite Hrun.
    destruct r as [|returncode after|after]; cbn [files_left]; try reflexivity.
    cbn [fs]. cbn in Hfail.
    destruct (returncode =? 0) eqn:Hrc; [|reflexivity].
    apply Z.eqb_eq in Hrc. destruct Hfail as [Hne|Hnone]; [contradiction|].
    rewrite Hnone. reflexivity. }
  split; [exact H|]. intros ->. now rewrite H.
Qed.

(** C10.  When gzip decompression raises an error, [decompress_file] returns
    the path of the compressed file, which is neither removed nor, when the
    two paths differ, changed. *)
Theorem gzip_failure_keeps_compressed
    (compressed_path decompressed_path : path) (s : state X) :
  with_suffix_empty compressed_path = Some decompressed_path ->
  gzip_raises E compressed_path decompressed_path s ->
  (decompress_file E compressed_path s).1 = str compressed_path
  /\ trace (decompress_file E compressed_path s).2 = trace s
  /\ (str decompressed_path <> str compressed_path ->
      fs (decompress_file E compressed_path s).2 !! str compressed_path
      = fs s !! str compressed_path).
Proof.
  intros Hq Hraise. split; [|split; [apply decompress_file_requests|]].
  - unfold decompress_file. rewrite Hq.
    unfold mbind, M_bind, read_file, write_file, mret, M_ret.
    unfold gzip_raises in Hraise.
    destruct (fs s !! str compressed_path) as [data|]; [|reflexivity].
    destruct (writable E (str decompressed_path)); cbn [negb]; [|reflexivity].
    destruct Hraise as [Hw|Hg]; [discriminate|]. now rewrite Hg.
  - intros Hne. unfold decompress_file. rewrite Hq.
    unfold mbind, M_bind, read_file, write_file, mret, M_ret.
    unfold gzip_raises in Hraise.
    destruct (fs s !! str compressed_path) as [data|] eqn:Hd;
      [|cbn; now rewrite Hd].
    destruct (writable E (str decompressed_path)); cbn [negb];
      [|cbn; now rewrite Hd].
    destruct Hraise as [Hw|Hg]; [discriminate|]. rewrite Hg. cbn.
    rewrite lookup_insert_ne by exact Hne. exact Hd.
Qed.


End Decompression.

Section DecompressionExamples.
Local Open Scope string_scope.

Lemma unix_z_failure_keeps_compressed_witness :
  with_suffix_empty (mk_path "/data/" "igu22950_18.sp3.Z")
  = Some (mk_path "/data/" "igu22950_18.sp3")
  /\ uncompress_failed RunUnavailable "/data/igu22950_18.sp3"
  /\ decompress_unix_z world_no_tools (mk_path "/data/" "igu22950_18.sp3.Z")
       (mk_state tt {[ "/data/igu22950_18.sp3.Z" := "compressed" ]} [])
     = ("/data/igu22950_18.sp3.Z",
        mk_state tt {[ "/data/igu22950_18.sp3.Z" := "compressed" ]} []).
Proof.
  split; [reflexivity|]. split; [exact I|].
  exact (proj1 (unix_z_failure_keeps_compressed world_no_tools
           (mk_path "/data/" "igu22950_18.sp3.Z")
           (mk_path "/data/" "igu22950_18.sp3")
           (mk_state tt {[ "/data/igu22950_18.sp3.Z" := "compressed" ]} [])
           RunUnavailable tt eq_refl eq_refl I)).
Defined.

Lemma gzip_failure_keeps_compressed_witness :
  with_suffix_empty (mk_path "/data/" "IGS0OPSFIN_20240010000_01D_15M_ORB.SP3.gz")
  = Some (mk_path "/data/" "IGS0OPSFIN_20240010000_01D_15M_ORB.SP3")
  /\ gzip_raises world_no_tools
       (mk_path "/data/" "IGS0OPSFIN_20240010000_01D_15M_ORB.SP3.gz")
       (mk_path "/data/" "IGS0OPSFIN_20240010000_01D_15M_ORB.SP3")
       (mk_state tt {[ "/data/IGS0OPSFIN_20240010000_01D_15M_ORB.SP3.gz" := "junk" ]} [])
  /\ (decompress_file world_no_tools
        (mk_path "/data/" "IGS0OPSFIN_20240010000_01D_15M_ORB.SP3.gz")
        (mk_state tt {[ "/data/IGS0OPSFIN_20240010000_01D_15M_ORB.SP3.gz" := "junk" ]} [])).1
     = "/data/IGS0OPSFIN_20240010000_01D_15M_ORB.SP3.gz".
Proof.
  assert (Hr : gzip_raises world_no_tools
       (mk_path "/data/" "IGS0OPSFIN_20240010000_01D_15M_ORB.SP3.gz")
       (mk_path "/data/" "IGS0OPSFIN_20240010000_01D_15M_ORB.SP3")
       (mk_state tt {[ "/data/IGS0OPSFIN_20240010000_01D_15M_ORB.SP3.gz" := "junk" ]} []))
    by (right; reflexivity).
  split; [reflexivity|]. split; [exact Hr|].
  exact (proj1 (gzip_failure_keeps_compressed world_no_tools
           (mk_path "/data/" "IGS0OPSFIN_20240010000_01D_15M_ORB.SP3.gz")
           (mk_path "/data/" "IGS0OPSFIN_20240010000_01D_15M_ORB.SP3")
           _ eq_refl Hr)).
Defined.

(** In a world without working decompressors the whole download still
    succeeds, with the compressed file as its result. *)
Example download_without_tools :
  (smart_download_sp3 world_no_tools (mk_datetime 2024 1 1 0 0 0 0) start).1
  = Some "/data/IGS0OPSULT_20240010600_02D_01S_ORB.SP3.gz"
  /\ (download_file world_no_tools "u" "igu22950_18.sp3.Z" start).1
     = Some "/data/igu22950_18.sp3.Z".
Proof. split; vm_compute; reflexivity. Qed.

End DecompressionExamples.

(** ** The header scan *)

Section HeaderScan.
Local Open Scope string_scope.

(** C8 (as stated) fails: in the header line of the scenario the identifiers
    start at column 8, the scan reads from column 9, finds none, and the
    analysis answers [False]. *)
Lemma scenario_header_finds_no_satellite :
  let r := analyze_sp3_file {[ "orbit.sp3" := sp3_text header_col8 ]} "orbit.sp3" in
  r.1 = false
  /\ total_satellites <$> r.2 = Some 0%nat
  /\ constellations <$> r.2 = Some ∅.
Proof. cbv zeta. repeat split; vm_compute; reflexivity. Qed.

(** C8 (as amended).  With the identifiers starting at column 9, as in the
    header line [+   32   G01G02R01R02...], the analysis counts 4 satellites
    in the constellations G and R and answers [True]. *)
Theorem header_at_column_9_counts_satellites :
  let r := analyze_sp3_file {[ "orbit.sp3" := sp3_text header_col9 ]} "orbit.sp3" in
  r.1 = true
  /\ total_satellites <$> r.2 = Some 4%nat
  /\ constellations <$> r.2 = Some {[ "G"; "R" ]}
  /\ (fun sc => size <$> satellites sc) <$> r.2
     = Some {[ "G" := 2%nat; "R" := 2%nat ]}.
Proof. cbv zeta. repeat split; vm_compute; reflexivity. Qed.

End HeaderScan.

(** ** Candidate names *)

Section LegacyFallback.
Local Open Scope string_scope.
Local Open Scope list_scope.

Lemma filter_empty_false {A} (f : A -> bool) (l : list A) (x : A) :
  List.filter f l = [] -> In x l -> f x = false.
Proof.
  intros Hnil Hin. destruct (f x) eqn:Hfx; [|reflexivity].
  assert (Hx : In x (List.filter f l)) by (apply filter_In; now split).
  rewrite Hnil in Hx. destruct Hx.
Qed.

Lemma some_inv {A} (a b : A) : Some a = Some b -> a = b.
Proof. congruence. Qed.

(** Small computation steps, as equations to rewrite with. *)
Lemma is_empty_nil {A} : is_empty (@nil A) = true.
Proof. reflexivity. Qed.

Lemma is_empty_cons {A} (x : A) (l : list A) : is_empty (x :: l) = false.
Proof. reflexivity. Qed.

Lemma bind_some {A B} (x : A) (f : A -> option B) : Some x ≫= f = f x.
Proof. reflexivity. Qed.

Lemma bind_none {A B} (f : A -> option B) : None ≫= f = None.
Proof. reflexivity. Qed.

Lemma map_nil_eq {A B} (f : A -> B) : map f [] = [].
Proof. reflexivity. Qed.

Lemma hourly_ultra_names_nil (year doy : Z) : hourly_ultra_names year doy [] = [].
Proof. reflexivity. Qed.

Lemma igu_names_nil (w d : Z) : igu_names w d [] = [].
Proof. reflexivity. Qed.

(** The parts of a generated result. *)
Lemma generated_parts (target_date now : datetime) (p : product_type)
    (filenames : list string) (gps_week : Z) (use_new_format : bool) :
  generate_combined_sp3_filenames target_date now p
  = Some (filenames, gps_week, use_new_format) ->
  let w := (days (sub target_date gps_epoch) / 7)%Z in
  let d := (days (sub target_date gps_epoch) mod 7)%Z in
  gps_week = w /\ use_new_format = (2238 <=? w)%Z
  /\ (if use_new_format
      then modern_filenames target_date now w d p
      else legacy_filenames target_date now w d p) = Some filenames.
Proof.
  cbv zeta. unfold generate_combined_sp3_filenames, date_to_gps_week.
  generalize (days (sub target_date gps_epoch) / 7)%Z
             (days (sub target_date gps_epoch) mod 7)%Z.
  intros w d.
  generalize (modern_filenames target_date now w d p)
             (legacy_filenames target_date now w d p).
  intros m l H.
  destruct (2238 <=? w)%Z.
  - destruct m as [f|]; [|discriminate]. cbn in H. injection H as <- <- <-. auto.
  - destruct l as [f|]; [|discriminate]. cbn in H. injection H as <- <- <-. auto.
Qed.

Lemma hours_out_none (current_hour : Z) :
  hours_out current_hour [21; 18; 15; 12; 9; 6; 3; 0]%Z = [] ->
  (current_hour - 3 < 0)%Z.
Proof.
  intros H. apply Z.leb_gt.
  exact (filter_empty_false (fun h => (h <=? current_hour - 3)%Z) _ 0%Z H
           ltac:(cbn; tauto)).
Qed.

Lemma hours_out_early (current_hour : Z) :
  (current_hour - 3 < 0)%Z -> hours_out current_hour [18; 12; 6; 0]%Z = [].
Proof.
  intros H. unfold hours_out. cbn [List.filter].
  repeat match goal with
         | |- context [(?h <=? ?c)%Z] => destruct (Z.leb_spec h c); [lia|]
         end.
  reflexivity.
Qed.

(** C7 (as amended).  In the current format, for an ultra-rapid request for
    today's date at an hour that leaves no hour of the older format, the
    names of the older format are those of the hours 21, 18, 15 and 12 of
    the day before, with the GPS week and the day of the week of that day;
    they close the list, after the ultra-rapid names of the evening
    before. *)
Theorem yesterday_legacy_hours_modern
    (target_date now : datetime) (filenames : list string) (gps_week : Z) :
  generate_combined_sp3_filenames target_date now ultra_rapid
  = Some (filenames, gps_week, true) ->
  date_eqb (date target_date) (date now) = true ->
  hours_out (hour now) [21; 18; 15; 12; 9; 6; 3; 0]%Z = [] ->
  exists yesterday gps_week_y day_of_week_y,
    sub_one_day target_date = Some yesterday
    /\ date_to_gps_week yesterday = (gps_week_y, day_of_week_y, yesterday)
    /\ filenames
       = yesterday_ultra_names (year target_date) (tm_yday yesterday)
         ++ igu_names gps_week_y day_of_week_y [21; 18; 15; 12]%Z.
Proof.
  intros Hgen Htoday Hnone.
  pose proof (hours_out_early _ (hours_out_none _ Hnone)) as Hnone6.
  apply generated_parts in Hgen as (_ & _ & Hgen). cbv zeta in Hgen.
  revert Hgen.
  generalize (days (sub target_date gps_epoch) / 7)%Z
             (days (sub target_date gps_epoch) mod 7)%Z.
  intros w d Hgen.
  unfold modern_filenames in Hgen.
  rewrite Htoday, Hnone, Hnone6, map_nil_eq, !is_empty_nil in Hgen.
  destruct (sub_one_day target_date) as [yesterday|] eqn:Hy;
    [|rewrite bind_none in Hgen; discriminate Hgen].
  rewrite !bind_some in Hgen.
  exists yesterday, (days (sub yesterday gps_epoch) / 7)%Z,
         (days (sub yesterday gps_epoch) mod 7)%Z.
  split; [reflexivity|]. split; [reflexivity|].
  unfold date_to_gps_week in Hgen. rewrite !bind_some in Hgen.
  apply some_inv in Hgen. rewrite <- Hgen.
  now rewrite hourly_ultra_names_nil, igu_names_nil, !app_nil_r.
Qed.

End LegacyFallback.

Section StringFacts.
Local Open Scope string_scope.
#[local] Arguments String.append !_ _ / : simpl nomatch.

Lemma string_forall_app (f : ascii -> bool) (a b : string) :
  string_forall f (a +:+ b) = string_forall f a && string_forall f b.
Proof.
  induction a as [|c a IH]; [reflexivity|].
  simpl. rewrite IH. now rewrite andb_assoc.
Qed.

Lemma append_assoc (a b c : string) : (a +:+ b) +:+ c = a +:+ (b +:+ c).
Proof. induction a as [|x a IH]; [reflexivity|]. simpl. now rewrite IH. Qed.

Lemma append_inv_head (a x y : string) : a +:+ x = a +:+ y -> x = y.
Proof.
  induction a as [|c a IH]; [trivial|]. simpl. intros H. injection H as H. auto.
Qed.

Lemma plain_char_facts (c : ascii) :
  plain_char c = true ->
  c <> "_"%char /\ c <> "S"%char /\ c <> "M"%char /\ c <> "."%char.
Proof.
  destruct c as [[] [] [] [] [] [] [] []]; cbn; intros H;
    try discriminate H; repeat split; discriminate.
Qed.

Lemma plain_no_underscore (s : string) : plain s = true -> no_underscore s = true.
Proof.
  unfold plain, no_underscore.
  induction s as [|c s IH]; [reflexivity|]. simpl.
  intros H. apply andb_true_iff in H as [Hc Hs].
  rewrite (IH Hs), andb_true_r.
  destruct (plain_char_facts c Hc) as (Hu & _).
  apply negb_true_iff, Ascii.eqb_neq, Hu.
Qed.

Lemma plain_uint (u : Decimal.uint) : plain (NilEmpty.string_of_uint u) = true.
Proof. induction u; cbn; trivial. Qed.

Lemma plain_str_int (n : Z) : plain (str_int n) = true.
Proof.
  unfold str_int. destruct (Z.to_int n) as [u|u]; cbn; apply plain_uint.
Qed.

Lemma plain_zeros (k : nat) : plain (zeros k) = true.
Proof. induction k; cbn; trivial. Qed.

Lemma plain_format_0d (w : nat) (n : Z) : plain (format_0d w n) = true.
Proof.
  unfold format_0d. destruct (n <? 0)%Z.
  - change (plain (String "-" ?s)) with (plain s). cbn.
    unfold plain. rewrite string_forall_app.
    now rewrite (plain_zeros _), (plain_str_int _).
  - unfold plain. rewrite string_forall_app.
    now rewrite (plain_zeros _), (plain_str_int _).
Qed.

End StringFacts.

Section TagFacts.
Local Open Scope string_scope.
#[local] Arguments String.append !_ _ / : simpl nomatch.

Lemma contains_skip (p0 : ascii) (pat a rest : string) :
  string_forall (fun c => negb (Ascii.eqb c p0)) a = true ->
  contains (String p0 pat) (a +:+ rest) = contains (String p0 pat) rest.
Proof.
  induction a as [|c a IH]; [reflexivity|]. simpl.
  intros H. apply andb_true_iff in H as [Hc Ha].
  apply negb_true_iff, Ascii.eqb_neq in Hc.
  destruct (ascii_dec p0 c) as [->|_]; [contradiction|].
  simpl. now apply IH.
Qed.

Lemma contains_skip_plain (pat a rest : string) :
  plain a = true ->
  contains (String "_" pat) (a +:+ rest) = contains (String "_" pat) rest.
Proof. intros H. apply contains_skip. now apply plain_no_underscore. Qed.

(** The pattern of an interval, [_ddL_] with two digits and the letter [S]
    or [M], does not start inside formatted numbers that a character other
    than a digit and the letter follows. *)
Lemma prefix_tag (a b l x : ascii) (P X : string) :
  plain P = true ->
  plain_char a = true -> plain_char b = true ->
  l = "S"%char \/ l = "M"%char ->
  plain_char x = false -> x <> l ->
  String.prefix (String a (String b (String l (String "_" ""))))
                (P +:+ String x X) = false.
Proof.
  intros HP Ha Hb Hl Hx Hxl.
  destruct P as [|c1 [|c2 [|c3 P]]]; simpl.
  - destruct (ascii_dec a x) as [->|_]; [congruence | reflexivity].
  - destruct (ascii_dec a c1) as [_|_]; [|reflexivity].
    destruct (ascii_dec b x) as [->|_]; [congruence | reflexivity].
  - destruct (ascii_dec a c1) as [_|_]; [|reflexivity].
    destruct (ascii_dec b c2) as [_|_]; [|reflexivity].
    destruct (ascii_dec l x) as [->|_]; [congruence | reflexivity].
  - destruct (ascii_dec a c1) as [_|_]; [|reflexivity].
    destruct (ascii_dec b c2) as [_|_]; [|reflexivity].
    destruct (ascii_dec l c3) as [->|_]; [|reflexivity].
    unfold plain in HP. simpl in HP.
    apply andb_true_iff in HP as [_ HP]. apply andb_true_iff in HP as [_ HP].
    apply andb_true_iff in HP as [HP _].
    destruct (plain_char_facts c3 HP) as (_ & HS & HM & _).
    destruct Hl; congruence.
Qed.

Section OneTag.
Variables a b l : ascii.
Hypothesis Ha : plain_char a = true.
Hypothesis Hb : plain_char b = true.
Hypothesis Hl : l = "S"%char \/ l = "M"%char.

Lemma contains_tag_modern (code : string) (year doy : Z) (hour span interval : string) :
  no_underscore code = true -> plain hour = true ->
  contains (String "_" (String a (String b (String l (String "_" "")))))
           (modern_name code year doy hour span interval)
  = contains (String "_" (String a (String b (String l (String "_" "")))))
           ("00_" +:+ span +:+ "_" +:+ interval +:+ "_ORB.SP3.gz").
Proof.
  intros Hcode Hhour. unfold modern_name.
  rewrite contains_skip by exact Hcode.
  set (T := span +:+ "_" +:+ interval +:+ "_ORB.SP3.gz").
  change ("00_" +:+ T) with ("00" +:+ String "_" T).
  change ("_" +:+ ?R) with (String "_" R).
  set (R := str_int year +:+ format_0d 3 doy +:+ hour +:+ "00" +:+ String "_" T).
  assert (HR : R = (str_int year +:+ format_0d 3 doy +:+ hour +:+ "00")
                   +:+ String "_" T).
  { subst R. now rewrite !append_assoc. }
  assert (Hplain : plain (str_int year +:+ format_0d 3 doy +:+ hour +:+ "00") = true).
  { unfold plain. rewrite !string_forall_app.
    fold (plain (str_int year)). fold (plain (format_0d 3 doy)). fold (plain hour).
    now rewrite plain_str_int, plain_format_0d, Hhour. }
  assert (Hpre : String.prefix (String a (String b (String l (String "_" "")))) R
                 = false).
  { rewrite HR. apply prefix_tag; try assumption; [reflexivity | ].
    destruct Hl as [-> | ->]; discriminate. }
  change (contains (String "_" ?p) (String "_" R))
    with (String.prefix (String "_" p) (String "_" R) || contains (String "_" p) R).
  simpl String.prefix. rewrite Hpre. simpl orb.
  subst R.
  rewrite !contains_skip_plain
    by (apply plain_str_int || apply plain_format_0d || exact Hhour).
  reflexivity.
Qed.

Lemma contains_tag_legacy_hourly (center : string) (gps_week day_of_week hour : Z) :
  no_underscore center = true ->
  contains (String "_" (String a (String b (String l (String "_" "")))))
           (legacy_hourly_name center gps_week day_of_week hour) = false.
Proof.
  intros Hc. unfold legacy_hourly_name.
  rewrite contains_skip by exact Hc.
  rewrite !contains_skip_plain by (apply plain_str_int || apply plain_format_0d).
  change ("_" +:+ ?R) with (String "_" R).
  set (R := format_0d 2 hour +:+ ".sp3.Z").
  change (contains (String "_" ?p) (String "_" R))
    with (String.prefix (String "_" p) (String "_" R) || contains (String "_" p) R).
  simpl String.prefix.
  assert (Hpre : String.prefix (String a (String b (String l (String "_" "")))) R
                 = false).
  { subst R. change (".sp3.Z") with (String "." "sp3.Z").
    apply prefix_tag; try assumption; [apply plain_format_0d | reflexivity | ].
    destruct Hl as [-> | ->]; discriminate. }
  rewrite Hpre. simpl orb. subst R.
  rewrite contains_skip_plain by apply plain_format_0d.
  reflexivity.
Qed.

Lemma contains_tag_legacy_daily (center : string) (gps_week day_of_week : Z) :
  no_underscore center = true ->
  contains (String "_" (String a (String b (String l (String "_" "")))))
           (legacy_daily_name center gps_week day_of_week) = false.
Proof.
  intros Hc. unfold legacy_daily_name.
  rewrite contains_skip by exact Hc.
  rewrite !contains_skip_plain by (apply plain_str_int || apply plain_format_0d).
  reflexivity.
Qed.

End OneTag.

End TagFacts.

Section CandidateFacts.
Local Open Scope string_scope.
Local Open Scope list_scope.
#[local] Arguments String.append !_ _ / : simpl nomatch.

Lemma member_cases (x : string) (l : list string) :
  member x l = true -> In x l.
Proof.
  unfold member. intros H. apply existsb_exists in H as (y & Hin & Heq).
  apply String.eqb_eq in Heq. now subst.
Qed.

Lemma well_formed_parts (c : candidate) :
  well_formed c = true ->
  no_underscore (c_code c) = true /\ plain (c_hour c) = true
  /\ In (c_span c) ["01D"; "02D"] /\ In (c_interval c) time_intervals
  /\ String.length (c_hour c) = 2%nat.
Proof.
  unfold well_formed. intros H.
  apply andb_true_iff in H as [H H4]. apply andb_true_iff in H as [H H3].
  apply andb_true_iff in H as [H1 H2]. apply andb_true_iff in H2 as [H2 H5].
  apply Nat.eqb_eq in H5.
  repeat split; auto using member_cases.
Qed.

Lemma interval_match_render (year doy : Z) (c : candidate) :
  well_formed c = true ->
  interval_match (render year doy c) = Some (c_interval c).
Proof.
  intros Hwf.
  destruct (well_formed_parts c Hwf) as (Hcode & Hhour & Hspan & Hint & _).
  unfold interval_match, time_intervals, render. simpl List.find.
  rewrite !contains_tag_modern
    by (exact Hcode || exact Hhour || reflexivity || (left; reflexivity)
        || (right; reflexivity)).
  destruct c as [code hour span interval]. cbn [c_span c_interval] in *.
  cbn in Hspan, Hint.
  destruct Hspan as [<- | [<- | []]];
    destruct Hint as [<- | [<- | [<- | [<- | []]]]]; reflexivity.
Qed.

Lemma interval_match_legacy_hourly (center : string) (gps_week day_of_week hour : Z) :
  no_underscore center = true ->
  interval_match (legacy_hourly_name center gps_week day_of_week hour) = None.
Proof.
  intros Hc. unfold interval_match, time_intervals. simpl List.find.
  rewrite !contains_tag_legacy_hourly
    by (exact Hc || reflexivity || (left; reflexivity) || (right; reflexivity)).
  reflexivity.
Qed.

Lemma interval_match_legacy_daily (center : string) (gps_week day_of_week : Z) :
  no_underscore center = true ->
  interval_match (legacy_daily_name center gps_week day_of_week) = None.
Proof.
  intros Hc. unfold interval_match, time_intervals. simpl List.find.
  rewrite !contains_tag_legacy_daily
    by (exact Hc || reflexivity || (left; reflexivity) || (right; reflexivity)).
  reflexivity.
Qed.

Lemma before_underscore_app (a r : string) :
  no_underscore a = true -> before_underscore (a +:+ String "_" r) = a.
Proof.
  unfold no_underscore. induction a as [|c a IH]; [reflexivity|]. simpl.
  intros H. apply andb_true_iff in H as [Hc Ha].
  apply negb_true_iff in Hc. rewrite Hc. now rewrite IH.
Qed.

Lemma after_underscore_app (a r : string) :
  no_underscore a = true -> after_underscore (a +:+ String "_" r) = r.
Proof.
  unfold no_underscore. induction a as [|c a IH]; [reflexivity|]. simpl.
  intros H. apply andb_true_iff in H as [Hc Ha].
  apply negb_true_iff in Hc. rewrite Hc. now apply IH.
Qed.

Lemma center_code_render (year doy : Z) (c : candidate) :
  well_formed c = true -> center_code (render year doy c) = c_code c.
Proof.
  intros Hwf. destruct (well_formed_parts c Hwf) as (Hcode & _).
  unfold center_code, render, modern_name.
  change ("_" +:+ ?R) with (String "_" R).
  now apply before_underscore_app.
Qed.

Lemma epoch_field_render (year doy : Z) (c : candidate) :
  well_formed c = true ->
  epoch_field (render year doy c)
  = str_int year +:+ format_0d 3 doy +:+ c_hour c +:+ "00".
Proof.
  intros Hwf. destruct (well_formed_parts c Hwf) as (Hcode & Hhour & _).
  unfold epoch_field, render, modern_name.
  change ("_" +:+ ?R) with (String "_" R).
  rewrite after_underscore_app by exact Hcode.
  change ("00_" +:+ ?T) with ("00" +:+ String "_" T).
  match goal with
  | |- before_underscore (?a +:+ ?b +:+ ?h +:+ ?z +:+ ?r) = _ =>
      replace (a +:+ b +:+ h +:+ z +:+ r) with ((a +:+ b +:+ h +:+ z) +:+ r)
        by now rewrite !append_assoc
  end.
  apply before_underscore_app, plain_no_underscore.
  unfold plain. rewrite !string_forall_app.
  fold (plain (str_int year)). fold (plain (format_0d 3 doy)). fold (plain (c_hour c)).
  now rewrite plain_str_int, plain_format_0d, Hhour.
Qed.

Lemma same_epoch_same_hour (year doy : Z) (c1 c2 : candidate) :
  well_formed c1 = true -> well_formed c2 = true ->
  epoch_field (render year doy c1) = epoch_field (render year doy c2) ->
  c_hour c1 = c_hour c2.
Proof.
  intros H1 H2.
  assert (Hlen : String.length (c_hour c1) = String.length (c_hour c2)).
  { destruct (well_formed_parts c1 H1) as (_ & _ & _ & _ & ->).
    now destruct (well_formed_parts c2 H2) as (_ & _ & _ & _ & ->). }
  rewrite !epoch_field_render by assumption.
  intros H. do 2 apply append_inv_head in H.
  revert Hlen H. generalize (c_hour c1) (c_hour c2).
  induction s as [|x s IH]; intros [|y t] Hlen H; try discriminate Hlen.
  - reflexivity.
  - simpl in H. injection H as -> H. f_equal. apply IH; [|exact H].
    now injection Hlen.
Qed.

End CandidateFacts.

Section Ordering.
Local Open Scope string_scope.
Local Open Scope list_scope.

Lemma ordered_by_lookup {A} (ok : A -> A -> bool) (l : list A) :
  ordered_by ok l = true ->
  forall (i j : nat) (x y : A),
    l !! i = Some x -> l !! j = Some y -> (i < j)%nat -> ok x y = true.
Proof.
  induction l as [|z l IH]; intros Hord i j x y Hi Hj Hlt.
  - destruct i; discriminate.
  - cbn [ordered_by] in Hord. apply andb_true_iff in Hord as [Hz Hl].
    destruct j as [|j]; [lia|]. cbn in Hj.
    destruct i as [|i].
    + cbn in Hi. injection Hi as ->.
      rewrite forallb_forall in Hz. apply Hz.
      apply list_elem_of_In. eapply list_elem_of_lookup_2. exact Hj.
    + cbn in Hi. apply (IH Hl i j); [assumption | assumption | lia].
Qed.

Lemma lookup_map_Some {A B} (f : A -> B) (l : list A) (i : nat) (y : B) :
  map f l !! i = Some y -> exists x, l !! i = Some x /\ y = f x.
Proof.
  revert i. induction l as [|z l IH]; intros [|i] H; try discriminate.
  - cbn in H. injection H as <-. now exists z.
  - cbn in H. now apply IH.
Qed.

Lemma interval_rank_lt_irrefl (a : string) :
  ~ (interval_rank a < interval_rank a)%nat.
Proof. lia. Qed.

(** In a shaped list, a candidate with an interval of higher priority comes
    before one with an interval of lower priority; with [hourly], when the
    two have the same epoch. *)
Lemma shaped_priority (hourly : bool) (names : list string) :
  shaped hourly names ->
  forall (i j : nat) (a b Ia Ib : string),
    names !! i = Some a -> names !! j = Some b ->
    hourly = false \/ epoch_field a = epoch_field b ->
    interval_match a = Some Ia -> interval_match b = Some Ib ->
    (interval_rank Ia < interval_rank Ib)%nat ->
    (i < j)%nat.
Proof.
  intros (year & doy & cs & rest & -> & Hwf & Hord & Hrest)
         i j a b Ia Ib Hi Hj Hsame Ha Hb Hrank.
  assert (candidate_at : forall k f I,
            (map (render year doy) cs ++ rest) !! k = Some f ->
            interval_match f = Some I ->
            exists c, cs !! k = Some c /\ f = render year doy c
                      /\ well_formed c = true /\ I = c_interval c).
  { intros k f I Hk HI. apply lookup_app_Some in Hk as [Hk | [_ Hk]].
    - apply lookup_map_Some in Hk as (c & Hc & ->).
      assert (Hc' : well_formed c = true).
      { rewrite forallb_forall in Hwf. apply Hwf.
        apply list_elem_of_In. eapply list_elem_of_lookup_2. exact Hc. }
      exists c. repeat split; try assumption.
      rewrite interval_match_render in HI by assumption. congruence.
    - pose proof (Forall_lookup_1 _ _ _ _ Hrest Hk) as Hnone.
      change (interval_match f = None) in Hnone. congruence. }
  destruct (candidate_at i a Ia Hi Ha) as (ca & Hca & -> & Hwa & ->).
  destruct (candidate_at j b Ib Hj Hb) as (cb & Hcb & -> & Hwb & ->).
  destruct (Nat.lt_trichotomy i j) as [Hlt | [-> | Hgt]]; [exact Hlt | |].
  - rewrite Hca in Hcb. injection Hcb as ->. lia.
  - pose proof (ordered_by_lookup _ _ Hord j i cb ca Hcb Hca Hgt) as Hok.
    unfold priority_kept in Hok. apply orb_true_iff in Hok as [Hok | Hok].
    + apply andb_true_iff in Hok as [Hh Hne].
      apply negb_true_iff, String.eqb_neq in Hne.
      destruct Hsame as [Hf | Hepoch]; [congruence|].
      exfalso. apply Hne. symmetry.
      exact (same_epoch_same_hour year doy ca cb Hwa Hwb Hepoch).
    + apply Nat.leb_le in Hok. lia.
Qed.

End Ordering.

Section GeneratedLists.
Local Open Scope string_scope.
Local Open Scope list_scope.

Lemma hourly_ultra_names_render (year doy : Z) (hours : list string) :
  hourly_ultra_names year doy hours
  = map (render year doy) (ultra_rapid_candidates hours).
Proof.
  induction hours as [|h hours IH]; [reflexivity|].
  unfold hourly_ultra_names, ultra_rapid_candidates. cbn [flat_map].
  rewrite List.map_app.
  fold (ultra_rapid_candidates hours). fold (hourly_ultra_names year doy hours).
  rewrite <- IH. reflexivity.
Qed.

Lemma yesterday_ultra_names_render (year doy : Z) :
  yesterday_ultra_names year doy = map (render year doy) yesterday_candidates.
Proof. reflexivity. Qed.

Lemma modern_final_names_render (year doy : Z) :
  modern_final_names year doy = map (render year doy) final_candidates.
Proof. reflexivity. Qed.

Lemma modern_rapid_names_render (year doy : Z) :
  modern_rapid_names year doy = map (render year doy) rapid_candidates.
Proof. reflexivity. Qed.

Lemma ultra_rapid_candidates_checked (current_hour : Z) :
  let hours := map (format_0d 2) (hours_out current_hour [18; 12; 6; 0]%Z) in
  forallb well_formed (ultra_rapid_candidates hours) = true
  /\ ordered_by (priority_kept true) (ultra_rapid_candidates hours) = true.
Proof.
  cbv zeta. unfold hours_out. cbn [List.filter].
  destruct (18 <=? _)%Z, (12 <=? _)%Z, (6 <=? _)%Z, (0 <=? _)%Z;
    split; vm_compute; reflexivity.
Qed.

Lemma Forall_map_all {A B} (P : B -> Prop) (f : A -> B) (l : list A) :
  (forall x, P (f x)) -> Forall P (map f l).
Proof. intros H. induction l; cbn; constructor; auto. Qed.

Lemma igu_names_untagged (w d : Z) (hours : list Z) :
  Forall (fun f => interval_match f = None) (igu_names w d hours).
Proof.
  apply Forall_map_all. intros h.
  now apply interval_match_legacy_hourly.
Qed.

Lemma other_ultra_names_untagged (w d : Z) :
  Forall (fun f => interval_match f = None) (other_ultra_names w d).
Proof.
  unfold other_ultra_names. cbn [flat_map map app].
  repeat (constructor; [now apply interval_match_legacy_hourly|]).
  constructor.
Qed.

End GeneratedLists.

Section GeneratedShape.
Local Open Scope string_scope.
Local Open Scope list_scope.

Lemma unshaped_rest (hourly : bool) (names : list string) :
  Forall (fun f => interval_match f = None) names -> shaped hourly names.
Proof.
  intros H. exists 0%Z, 0%Z, [], names. repeat split; try reflexivity. exact H.
Qed.

Lemma shaped_intro (hourly : bool) (year doy : Z) (cs : list candidate)
    (rest : list string) :
  forallb well_formed cs = true ->
  ordered_by (priority_kept hourly) cs = true ->
  Forall (fun f => interval_match f = None) rest ->
  shaped hourly (map (render year doy) cs ++ rest).
Proof. intros H1 H2 H3. exists year, doy, cs, rest. now repeat split. Qed.

Ltac untagged :=
  repeat first [ apply igu_names_untagged
               | apply other_ultra_names_untagged
               | apply Forall_nil_2
               | apply Forall_app_2 ].

Lemma modern_shaped (target_date now : datetime) (w d : Z) (p : product_type)
    (filenames : list string) :
  modern_filenames target_date now w d p = Some filenames ->
  shaped (is_ultra_rapid p) filenames.
Proof.
  intros Hgen. destruct p; unfold modern_filenames in Hgen.
  - apply some_inv in Hgen. rewrite <- Hgen, modern_final_names_render.
    rewrite <- (app_nil_r (map _ _)).
    apply shaped_intro; [vm_compute; reflexivity | vm_compute; reflexivity |].
    constructor.
  - apply some_inv in Hgen. rewrite <- Hgen, modern_rapid_names_render.
    rewrite <- (app_nil_r (map _ _)).
    apply shaped_intro; [vm_compute; reflexivity | vm_compute; reflexivity |].
    constructor.
  - destruct (date_eqb (date target_date) (date now)).
    + pose proof (ultra_rapid_candidates_checked (hour now)) as [Hwf Hord].
      cbv zeta in Hwf, Hord.
      revert Hgen Hwf Hord.
      generalize (map (format_0d 2) (hours_out (hour now) [18; 12; 6; 0]%Z)).
      generalize (hours_out (hour now) [21; 18; 15; 12; 9; 6; 3; 0]%Z).
      intros lh hs Hgen Hwf Hord.
      destruct hs as [|h0 hl].
      * rewrite is_empty_nil in Hgen.
        destruct (sub_one_day target_date) as [yesterday|];
          [|rewrite bind_none in Hgen; discriminate Hgen].
        rewrite !bind_some in Hgen. unfold date_to_gps_week in Hgen.
        rewrite !bind_some, hourly_ultra_names_nil, app_nil_r in Hgen.
        rewrite yesterday_ultra_names_render in Hgen.
        destruct lh as [|z l].
        -- rewrite is_empty_nil, !bind_some in Hgen.
           apply some_inv in Hgen. rewrite <- Hgen, <- !app_assoc.
           apply shaped_intro;
             [vm_compute; reflexivity | vm_compute; reflexivity | untagged].
        -- rewrite is_empty_cons, !bind_some in Hgen.
           apply some_inv in Hgen. rewrite <- Hgen.
           apply shaped_intro;
             [vm_compute; reflexivity | vm_compute; reflexivity | untagged].
      * rewrite is_empty_cons, !bind_some in Hgen.
        rewrite (app_nil_l (hourly_ultra_names _ _ _)) in Hgen.
        rewrite hourly_ultra_names_render in Hgen.
        destruct lh as [|z l].
        -- rewrite is_empty_nil in Hgen.
           destruct (sub_one_day target_date) as [yesterday|];
             [|rewrite bind_none in Hgen; discriminate Hgen].
           rewrite !bind_some in Hgen. unfold date_to_gps_week in Hgen.
           rewrite !bind_some in Hgen.
           apply some_inv in Hgen. rewrite <- Hgen, <- !app_assoc.
           apply shaped_intro; [assumption | assumption | untagged].
        -- rewrite is_empty_cons, !bind_some in Hgen.
           apply some_inv in Hgen. rewrite <- Hgen.
           apply shaped_intro; [assumption | assumption | untagged].
    + rewrite !bind_some in Hgen.
      rewrite (app_nil_l (hourly_ultra_names _ _ _)) in Hgen.
      rewrite hourly_ultra_names_render in Hgen.
      apply some_inv in Hgen. rewrite <- Hgen.
      apply shaped_intro;
        [vm_compute; reflexivity | vm_compute; reflexivity | untagged].
Qed.


Lemma legacy_shaped (target_date now : datetime) (w d : Z) (p : product_type)
    (filenames : list string) (hourly : bool) :
  legacy_filenames target_date now w d p = Some filenames ->
  shaped hourly filenames.
Proof.
  intros Hgen. apply unshaped_rest.
  destruct p; unfold legacy_filenames in Hgen.
  - apply some_inv in Hgen. rewrite <- Hgen. cbn [map app].
    repeat (constructor; [now apply interval_match_legacy_daily|]).
    constructor.
  - apply some_inv in Hgen. rewrite <- Hgen. cbn [map app].
    repeat (constructor; [now apply interval_match_legacy_daily|]).
    constructor.
  - destruct (date_eqb (date target_date) (date now));
      [destruct (_ =? 0)%nat;
         [destruct (sub_one_day target_date);
            [|rewrite bind_none in Hgen; discriminate Hgen]|]|];
      rewrite ?bind_some in Hgen; unfold date_to_gps_week in Hgen;
      rewrite ?bind_some in Hgen;
      apply some_inv in Hgen; rewrite <- Hgen; untagged.
Qed.

Lemma generated_shaped (target_date now : datetime) (p : product_type)
    (filenames : list string) (gps_week : Z) (use_new_format : bool) :
  generate_combined_sp3_filenames target_date now p
  = Some (filenames, gps_week, use_new_format) ->
  shaped (is_ultra_rapid p) filenames.
Proof.
  intros Hgen. apply generated_parts in Hgen as (_ & _ & Hgen).
  cbv zeta in Hgen. destruct use_new_format.
  - exact (modern_shaped _ _ _ _ _ _ Hgen).
  - exact (legacy_shaped _ _ _ _ _ _ _ Hgen).
Qed.

(** C6 (as amended).  On a generated list, of two candidates of one analysis
    centre the one with the interval of higher priority (01S, then 30S, 05M,
    15M) comes first: for every pair on a final or rapid list, and on an
    ultra-rapid list for every pair of the same epoch (the same update
    hour). *)
Theorem interval_priority_kept
    (target_date now : datetime) (p : product_type)
    (filenames : list string) (gps_week : Z) (use_new_format : bool)
    (i j : nat) (a b Ia Ib : string) :
  generate_combined_sp3_filenames target_date now p
  = Some (filenames, gps_week, use_new_format) ->
  filenames !! i = Some a -> filenames !! j = Some b ->
  center_code a = center_code b ->
  p <> ultra_rapid \/ epoch_field a = epoch_field b ->
  interval_match a = Some Ia -> interval_match b = Some Ib ->
  (interval_rank Ia < interval_rank Ib)%nat ->
  (i < j)%nat.
Proof.
  intros Hgen Hi Hj _ Hsame Ha Hb Hrank.
  apply (shaped_priority (is_ultra_rapid p) filenames
           (generated_shaped _ _ _ _ _ _ Hgen) i j a b Ia Ib);
    try assumption.
  destruct Hsame as [Hp | He]; [left | now right].
  destruct p; try reflexivity. congruence.
Qed.

End GeneratedShape.

Section GeneratedExamples.
Local Open Scope string_scope.
Local Open Scope list_scope.

Lemma interval_priority_kept_witness :
  exists filenames,
    generate_combined_sp3_filenames (mk_datetime 2024 1 1 0 0 0 0)
      (mk_datetime 2024 1 20 0 0 0 0) final
    = Some (filenames, 2295%Z, true)
    /\ filenames !! 0%nat = Some "IGS0OPSFIN_20240010000_01D_01S_ORB.SP3.gz"
    /\ filenames !! 4%nat = Some "IGS0OPSFIN_20240010000_01D_30S_ORB.SP3.gz"
    /\ (0 < 4)%nat.
Proof.
  eexists. split; [vm_compute; reflexivity|].
  split; [reflexivity|]. split; [reflexivity|].
  eapply (interval_priority_kept (mk_datetime 2024 1 1 0 0 0 0)
            (mk_datetime 2024 1 20 0 0 0 0) final _ 2295%Z true 0 4
            "IGS0OPSFIN_20240010000_01D_01S_ORB.SP3.gz"
            "IGS0OPSFIN_20240010000_01D_30S_ORB.SP3.gz" "01S" "30S");
    [vm_compute; reflexivity | reflexivity | reflexivity | reflexivity
    | left; discriminate | vm_compute; reflexivity | vm_compute; reflexivity
    | vm_compute; lia].
Defined.

(** C6 (as stated) fails on an ultra-rapid list: the hours come first, the
    intervals second, so the 15M candidate of a centre for the hour 18 comes
    before the 01S candidate of the same centre for the hour 12. *)
Lemma ultra_rapid_hours_before_intervals :
  exists filenames,
    generate_combined_sp3_filenames (mk_datetime 2024 1 1 0 0 0 0)
      (mk_datetime 2024 1 20 0 0 0 0) ultra_rapid
    = Some (filenames, 2295%Z, true)
    /\ filenames !! 28%nat = Some "IGS0OPSULT_20240011200_02D_01S_ORB.SP3.gz"
    /\ filenames !! 21%nat = Some "IGS0OPSULT_20240011800_02D_15M_ORB.SP3.gz"
    /\ center_code "IGS0OPSULT_20240011200_02D_01S_ORB.SP3.gz"
       = center_code "IGS0OPSULT_20240011800_02D_15M_ORB.SP3.gz"
    /\ interval_match "IGS0OPSULT_20240011200_02D_01S_ORB.SP3.gz" = Some "01S"
    /\ interval_match "IGS0OPSULT_20240011800_02D_15M_ORB.SP3.gz" = Some "15M"
    /\ (interval_rank "01S" < interval_rank "15M")%nat
    /\ ~ (28 < 21)%nat.
Proof.
  eexists. split; [vm_compute; reflexivity|].
  repeat split; try (vm_compute; reflexivity); vm_compute; lia.
Qed.

Lemma yesterday_legacy_hours_modern_witness :
  date_eqb (date (mk_datetime 2024 1 1 0 0 0 0)) (date (mk_datetime 2024 1 1 2 0 0 0))
  = true
  /\ hours_out (hour (mk_datetime 2024 1 1 2 0 0 0)) [21; 18; 15; 12; 9; 6; 3; 0]%Z = []
  /\ exists filenames,
       generate_combined_sp3_filenames (mk_datetime 2024 1 1 0 0 0 0)
         (mk_datetime 2024 1 1 2 0 0 0) ultra_rapid
       = Some (filenames, 2295%Z, true)
       /\ exists yesterday gps_week_y day_of_week_y,
            sub_one_day (mk_datetime 2024 1 1 0 0 0 0) = Some yesterday
            /\ date_to_gps_week yesterday = (gps_week_y, day_of_week_y, yesterday)
            /\ filenames
               = yesterday_ultra_names 2024 (tm_yday yesterday)
                 ++ igu_names gps_week_y day_of_week_y [21; 18; 15; 12]%Z.
Proof.
  split; [reflexivity|]. split; [reflexivity|].
  eexists. split; [vm_compute; reflexivity|].
  refine (yesterday_legacy_hours_modern (mk_datetime 2024 1 1 0 0 0 0)
            (mk_datetime 2024 1 1 2 0 0 0) _ 2295%Z _ _ _);
    [vm_compute; reflexivity | reflexivity | reflexivity].
Defined.

(** C7 (as stated) fails: the names of the older format that stand in for
    today's are four, for the hours 21, 18, 15 and 12 of the day before, not
    the two of the hours 21 and 18. *)
Lemma yesterday_legacy_hours_are_four :
  exists filenames,
    generate_combined_sp3_filenames (mk_datetime 2024 1 1 0 0 0 0)
      (mk_datetime 2024 1 1 2 0 0 0) ultra_rapid
    = Some (filenames, 2295%Z, true)
    /\ List.filter (contains "igu") filenames
       = [ "igu22950_21.sp3.Z"; "igu22950_18.sp3.Z";
           "igu22950_15.sp3.Z"; "igu22950_12.sp3.Z" ]
    /\ List.filter (contains "igu") filenames
       <> igu_names 2295 0 [21; 18]%Z.
Proof.
  eexists. split; [vm_compute; reflexivity|].
  split; [vm_compute; reflexivity|].
  vm_compute. discriminate.
Qed.

End GeneratedExamples.


(** * Further properties *)

(** ** The probe loop *)

Lemma probes_head (u : string) (r : head_result) (evs : list event) :
  probes (Head u r :: evs) = (u, r) :: probes evs.
Proof. reflexivity. Qed.

Lemma probes_get (u : string) (evs : list event) :
  probes (Get u :: evs) = probes evs.
Proof. reflexivity. Qed.

Lemma fetched_head (u : string) (r : head_result) (evs : list event) :
  fetched (Head u r :: evs) = fetched evs.
Proof. reflexivity. Qed.

Lemma fetched_get (u : string) (evs : list event) :
  fetched (Get u :: evs) = u :: fetched evs.
Proof. reflexivity. Qed.

Ltac requests :=
  rewrite ?probes_head, ?probes_get, ?fetched_head, ?fetched_get;
  change (probes []) with (@nil (string * head_result));
  change (fetched []) with (@nil string).

Section ProbeLoop.
Context {X : Type} (E : env X).
Local Open Scope list_scope.

Lemma probe_loop_trace (repository : string) (filenames : list string) :
  forall (s s' : state X) (result : option string),
  probe_loop E repository filenames s = (result, s') ->
  exists evs,
    trace s' = trace s ++ evs
    /\ probe_trace repository filenames evs
    /\ (result <> None -> fetched evs <> []).
Proof.
  induction filenames as [|filename rest IH]; intros s s' result Hrun.
  - cbn in Hrun. inversion Hrun; subst. exists [].
    split; [now rewrite app_nil_r|]. split; [constructor | congruence].
  - rewrite probe_loop_cons in Hrun. cbv zeta in Hrun.
    set (url := (repository +:+ filename)%string) in *.
    destruct (session_head E url (ext s)) as [r x].
    set (s1 := mk_state x (fs s) (trace s ++ [Head url r])) in *.
    assert (continue :
      ends_loop r = false ->
      probe_loop E repository rest s1 = (result, s') ->
      exists evs,
        trace s' = trace s ++ evs
        /\ probe_trace repository (filename :: rest) evs
        /\ (result <> None -> fetched evs <> [])).
    { intros Hr Hrest. destruct (IH _ _ _ Hrest) as (evs & Ht & Hshape & Hres).
      exists (Head url r :: evs). split; [|split].
      - rewrite Ht. subst s1. cbn [trace]. now rewrite <- app_assoc.
      - now apply probe_trace_next.
      - exact Hres. }
    destruct r as [status_code|]; [|now apply continue].
    destruct (status_code =? 200) eqn:E200.
    { pose proof (download_file_requests E url filename s1) as Hd.
      rewrite Hrun in Hd. cbn [snd] in Hd.
      apply Z.eqb_eq in E200. subst status_code.
      exists [Head url (Response 200); Get url]. split; [|split].
      - rewrite Hd. subst s1. cbn [trace]. now rewrite <- app_assoc.
      - apply probe_trace_found.
      - intros _. discriminate. }
    destruct (status_code =? 404) eqn:E404.
    { apply continue; [|exact Hrun]. apply Z.eqb_eq in E404. now subst. }
    destruct (status_code =? 401) eqn:E401.
    { inversion Hrun; subst. apply Z.eqb_eq in E401. subst status_code.
      exists [Head url (Response 401)]. split; [reflexivity|].
      split; [apply probe_trace_auth | congruence]. }
    apply continue; [|exact Hrun]. cbn. now rewrite E200, E401.
Qed.

Lemma requests_between_app (s s' : state X) (evs : list event) :
  trace s' = trace s ++ evs -> requests_between s s' = evs.
Proof. unfold requests_between. intros ->. apply drop_app_length. Qed.

Lemma probe_trace_order (repository : string) (filenames : list string)
    (evs : list event) :
  probe_trace repository filenames evs ->
  (length (probes evs) <= length filenames)%nat
  /\ (probes evs).*1
     = map (String.append repository) (take (length (probes evs)) filenames).
Proof.
  induction 1 as [|filename rest r evs Hr Hshape [IHlen IHeq]| |];
    requests; cbn.
  - split; [lia | reflexivity].
  - split; [lia|]. f_equal. exact IHeq.
  - split; [lia | reflexivity].
  - split; [lia | reflexivity].
Qed.

Lemma probe_trace_stop (repository : string) (filenames : list string)
    (evs : list event) :
  probe_trace repository filenames evs ->
  forall (i : nat) (u : string) (r : head_result),
    probes evs !! i = Some (u, r) -> ends_loop r = true ->
    S i = length (probes evs).
Proof.
  induction 1 as [|filename rest r0 evs Hr Hshape IH| |];
    requests; intros i u r Hi Hend.
  - destruct i; discriminate.
  - destruct i as [|i]; cbn in Hi.
    + injection Hi as <- <-. congruence.
    + cbn. f_equal. eapply IH; eassumption.
  - destruct i as [|[|i]]; cbn in Hi; try discriminate. reflexivity.
  - destruct i as [|[|i]]; cbn in Hi; try discriminate. reflexivity.
Qed.

Lemma probe_trace_exhausted (repository : string) (filenames : list string)
    (evs : list event) :
  probe_trace repository filenames evs ->
  Forall (fun pr => ends_loop pr.2 = false) (probes evs) ->
  length (probes evs) = length filenames /\ fetched evs = [].
Proof.
  induction 1 as [|filename rest r0 evs Hr Hshape IH| |];
    requests; cbn; intros Hall.
  - now split.
  - apply Forall_cons in Hall as [_ Hall]. destruct (IH Hall) as [-> ->].
    now split.
  - apply Forall_cons in Hall as [Hall _]. discriminate Hall.
  - apply Forall_cons in Hall as [Hall _]. discriminate Hall.
Qed.

Lemma probe_trace_fetch (repository : string) (filenames : list string)
    (evs : list event) :
  probe_trace repository filenames evs ->
  fetched evs = []
  \/ exists u, fetched evs = [u] /\ last (probes evs) = Some (u, Response 200).
Proof.
  induction 1 as [|filename rest r0 evs Hr Hshape IH| |]; requests; cbn.
  - now left.
  - destruct IH as [IH | (u & Hf & Hl)]; [now left|].
    right. exists u. split; [exact Hf|].
    destruct (probes evs) as [|pr l] eqn:Hp; [discriminate Hl|].
    exact Hl.
  - now left.
  - right. eexists. split; reflexivity.
Qed.

(** X1.  The probe loop probes the candidates in the order of the list, one
    after the other from the first: the URLs probed are those of the first
    [k] candidates, each below the repository, none skipped and none
    repeated. *)
Theorem probes_follow_candidates (repository : string) (filenames : list string)
    (s : state X) :
  let evs := requests_between s (probe_loop E repository filenames s).2 in
  let k := length (probes evs) in
  (k <= length filenames)%nat
  /\ (probes evs).*1 = map (String.append repository) (take k filenames).
Proof.
  cbv zeta. destruct (probe_loop E repository filenames s) as [r s'] eqn:Hrun.
  destruct (probe_loop_trace _ _ _ _ _ Hrun) as (evs & Ht & Hshape & _).
  cbn [snd]. rewrite (requests_between_app _ _ _ Ht).
  now apply probe_trace_order.
Qed.

(** X2.  The first answer 200 or 401 ends the probe loop: an answer with one
    of these codes is the answer to the last probe of the loop. *)
Theorem first_decisive_answer_ends_loop (repository : string)
    (filenames : list string) (s : state X) :
  let evs := requests_between s (probe_loop E repository filenames s).2 in
  forall (i : nat) (u : string) (code : Z),
    probes evs !! i = Some (u, Response code) ->
    code = 200 \/ code = 401 ->
    S i = length (probes evs).
Proof.
  cbv zeta. destruct (probe_loop E repository filenames s) as [r s'] eqn:Hrun.
  destruct (probe_loop_trace _ _ _ _ _ Hrun) as (evs & Ht & Hshape & _).
  cbn [snd]. rewrite (requests_between_app _ _ _ Ht).
  intros i u code Hi Hcode.
  apply (probe_trace_stop _ _ _ Hshape i u (Response code) Hi).
  cbn. destruct Hcode as [-> | ->]; reflexivity.
Qed.

(** X3.  When no probe is answered 200 or 401 (every answer is a 404,
    another status or an exception), the loop probes every candidate of the
    list, fetches nothing and returns [None]. *)
Theorem soft_failures_exhaust_candidates (repository : string)
    (filenames : list string) (s : state X) :
  let run := probe_loop E repository filenames s in
  let evs := requests_between s run.2 in
  Forall (fun pr => ends_loop pr.2 = false) (probes evs) ->
  length (probes evs) = length filenames
  /\ fetched evs = [] /\ run.1 = None.
Proof.
  cbv zeta. destruct (probe_loop E repository filenames s) as [r s'] eqn:Hrun.
  destruct (probe_loop_trace _ _ _ _ _ Hrun) as (evs & Ht & Hshape & Hres).
  cbn [fst snd]. rewrite (requests_between_app _ _ _ Ht).
  intros Hall. destruct (probe_trace_exhausted _ _ _ Hshape Hall) as [Hlen Hf].
  repeat split; try assumption.
  destruct r as [p|]; [|reflexivity]. exfalso. apply Hres; [discriminate|exact Hf].
Qed.

(** X4.  A probe loop fetches at most one file, the one of its last probe and
    only when that probe was answered 200; it returns a result only after
    such a fetch. *)
Theorem fetch_follows_found_probe (repository : string)
    (filenames : list string) (s : state X) :
  let run := probe_loop E repository filenames s in
  let evs := requests_between s run.2 in
  (fetched evs = []
   \/ exists u, fetched evs = [u] /\ last (probes evs) = Some (u, Response 200))
  /\ (fetched evs = [] -> run.1 = None).
Proof.
  cbv zeta. destruct (probe_loop E repository filenames s) as [r s'] eqn:Hrun.
  destruct (probe_loop_trace _ _ _ _ _ Hrun) as (evs & Ht & Hshape & Hres).
  cbn [fst snd]. rewrite (requests_between_app _ _ _ Ht).
  split; [now apply (probe_trace_fetch repository filenames)|].
  intros Hf. destruct r as [p|]; [|reflexivity].
  exfalso. apply Hres; [discriminate | exact Hf].
Qed.

End ProbeLoop.

Section ProbeLoopExamples.
Local Open Scope string_scope.
Local Open Scope list_scope.

Lemma first_decisive_answer_ends_loop_witness :
  probes (requests_between (mk_state 0%nat ∅ [])
            (probe_loop world_third "r/" ["a"; "b"; "c.gz"; "d"]
                        (mk_state 0%nat ∅ [])).2) !! 2%nat
  = Some ("r/c.gz", Response 200)
  /\ 3%nat = length (probes (requests_between (mk_state 0%nat ∅ [])
            (probe_loop world_third "r/" ["a"; "b"; "c.gz"; "d"]
                        (mk_state 0%nat ∅ [])).2)).
Proof.
  split; [vm_compute; reflexivity|].
  apply (first_decisive_answer_ends_loop world_third "r/" ["a"; "b"; "c.gz"; "d"]
           (mk_state 0%nat ∅ []) 2 "r/c.gz" 200);
    [vm_compute; reflexivity | now left].
Defined.

Lemma soft_failures_exhaust_candidates_witness :
  let run := probe_loop world_third "r/" ["a"; "b"] (mk_state 0%nat ∅ []) in
  Forall (fun pr => ends_loop pr.2 = false)
         (probes (requests_between (mk_state 0%nat ∅ []) run.2))
  /\ length (probes (requests_between (mk_state 0%nat ∅ []) run.2)) = 2%nat
  /\ run.1 = None.
Proof.
  cbv zeta.
  assert (H : Forall (fun pr => ends_loop pr.2 = false)
                (probes (requests_between (mk_state 0%nat ∅ [])
                   (probe_loop world_third "r/" ["a"; "b"] (mk_state 0%nat ∅ [])).2)))
    by (vm_compute; repeat constructor).
  split; [exact H|].
  pose proof (soft_failures_exhaust_candidates world_third "r/" ["a"; "b"]
                (mk_state 0%nat ∅ []) H) as (H1 & _ & H3).
  split; [exact H1 | exact H3].
Defined.

(** A run where the third candidate is found: three probes, one fetch, and
    the decompressed file as the result. *)
Example third_candidate_found :
  let run := probe_loop world_third "r/" ["a"; "b"; "c.gz"; "d"]
                        (mk_state 0%nat ∅ []) in
  run.1 = Some "/data/c"
  /\ trace run.2 = [ Head "r/a" (Response 404); Head "r/b" (Response 404);
                     Head "r/c.gz" (Response 200); Get "r/c.gz" ]
  /\ fs run.2 = {[ "/data/c" := "orbit data" ]}.
Proof. cbv zeta. repeat split; vm_compute; reflexivity. Qed.

End ProbeLoopExamples.

(** ** The lists of candidate names *)

Section SuffixFacts.
Local Open Scope string_scope.
#[local] Arguments String.append !_ _ / : simpl nomatch.

Lemma append_nil_r (a : string) : a +:+ "" = a.
Proof. induction a as [|x a IH]; [reflexivity|]. simpl. now rewrite IH. Qed.

Lemma rev_app_append (a b : string) : String.rev_app a b = String.rev a +:+ b.
Proof.
  revert b. induction a as [|x a IH]; intros b; [reflexivity|].
  unfold String.rev. cbn [String.rev_app].
  rewrite (IH (String x b)), (IH (String x "")), append_assoc. reflexivity.
Qed.

Lemma rev_append (a b : string) :
  String.rev (a +:+ b) = String.rev b +:+ String.rev a.
Proof.
  induction a as [|x a IH].
  - simpl. now rewrite append_nil_r.
  - simpl. unfold String.rev at 1 3. cbn [String.rev_app].
    rewrite !rev_app_append, IH, append_assoc. reflexivity.
Qed.

Lemma prefix_append (a b : string) : String.prefix a (a +:+ b) = true.
Proof.
  induction a as [|x a IH]; [now destruct b|].
  simpl. destruct (ascii_dec x x); [exact IH | congruence].
Qed.

Lemma prefix_append_r (a b c : string) :
  String.prefix a b = true -> String.prefix a (b +:+ c) = true.
Proof.
  revert b. induction a as [|x a IH]; intros b H.
  - now destruct (b +:+ c).
  - destruct b as [|y b]; [discriminate H|].
    simpl in *. destruct (ascii_dec x y); [now apply IH | discriminate H].
Qed.

(** [(a + b).endswith(suf)] when [b.endswith(suf)]. *)
Lemma endswith_append (a b suf : string) :
  endswith b suf = true -> endswith (a +:+ b) suf = true.
Proof.
  unfold endswith. intros H. rewrite rev_append. now apply prefix_append_r.
Qed.

Lemma endswith_refl (suf : string) : endswith suf suf = true.
Proof.
  unfold endswith. rewrite <- (append_nil_r (String.rev suf)) at 2.
  apply prefix_append.
Qed.

Lemma modern_name_gz (code : string) (year doy : Z) (hour span interval : string) :
  endswith (modern_name code year doy hour span interval) ".gz" = true.
Proof.
  unfold modern_name. repeat apply endswith_append. reflexivity.
Qed.

Lemma legacy_daily_name_Z (center : string) (w d : Z) :
  endswith (legacy_daily_name center w d) ".Z" = true.
Proof.
  unfold legacy_daily_name. repeat apply endswith_append. reflexivity.
Qed.

Lemma legacy_hourly_name_Z (center : string) (w d h : Z) :
  endswith (legacy_hourly_name center w d h) ".Z" = true.
Proof.
  unfold legacy_hourly_name. repeat apply endswith_append. reflexivity.
Qed.

Lemma contains_prefix (sub s : string) :
  String.prefix sub s = true -> contains sub s = true.
Proof. intros H. destruct s; cbn [contains]; now rewrite H. Qed.

Lemma igu_name_contains_igu (w d h : Z) :
  contains "igu" (legacy_hourly_name "igu" w d h) = true.
Proof. apply contains_prefix. unfold legacy_hourly_name. apply prefix_append. Qed.

End SuffixFacts.

Section GeneratedParts.
Local Open Scope string_scope.
Local Open Scope list_scope.

Lemma Forall_flat_map_all {A B} (P : B -> Prop) (f : A -> list B) (l : list A) :
  (forall x, Forall P (f x)) -> Forall P (flat_map f l).
Proof.
  intros H. induction l as [|x l IH]; cbn [flat_map]; [constructor|].
  apply Forall_app_2; [apply H | exact IH].
Qed.

Lemma hours_out_length (current_hour : Z) (hours : list Z) :
  (length (hours_out current_hour hours) <= length hours)%nat.
Proof. apply List.filter_length_le. Qed.

Lemma hourly_ultra_names_length (year doy : Z) (hours : list string) :
  length (hourly_ultra_names year doy hours) = (28 * length hours)%nat.
Proof.
  unfold hourly_ultra_names.
  rewrite (flat_map_constant_length (c := 28)); [lia|].
  intros h _. reflexivity.
Qed.

Lemma yesterday_ultra_names_length (year doy : Z) :
  length (yesterday_ultra_names year doy) = 24%nat.
Proof. reflexivity. Qed.

Lemma other_ultra_names_length (w d : Z) :
  length (other_ultra_names w d) = 8%nat.
Proof. reflexivity. Qed.

Lemma igu_names_length (w d : Z) (hours : list Z) :
  length (igu_names w d hours) = length hours.
Proof. unfold igu_names. apply length_map. Qed.

Lemma filter_igu_names (w d : Z) (hours : list Z) :
  List.filter (contains "igu") (igu_names w d hours) = igu_names w d hours.
Proof.
  induction hours as [|h hours IH]; [reflexivity|].
  unfold igu_names in *. cbn [map List.filter].
  rewrite igu_name_contains_igu. now rewrite IH.
Qed.

(** The blocks of an ultra-rapid list of the current format: the names of
    the evening before (when no hour is out today), the names of the hours
    out, then the names of the older format, of the day before (when none is
    out today) and of the day itself. *)
Lemma modern_ultra_parts (date_obj now : datetime) (w d : Z)
    (filenames : list string) :
  modern_filenames date_obj now w d ultra_rapid = Some filenames ->
  exists (evening : list string) (hours : list string) (before : list string)
         (legacy_hours : list Z),
    filenames
    = evening ++ hourly_ultra_names (year date_obj) (tm_yday date_obj) hours
      ++ before ++ igu_names w d legacy_hours
    /\ (evening = [] /\ hours <> []
        \/ hours = [] /\ exists doy, evening = yesterday_ultra_names (year date_obj) doy)
    /\ (before = []
        \/ legacy_hours = []
           /\ exists w' d', before = igu_names w' d' [21; 18; 15; 12]%Z)
    /\ (length hours <= 4)%nat /\ (length legacy_hours <= 8)%nat.
Proof.
  intros Hgen. unfold modern_filenames in Hgen.
  destruct (date_eqb (date date_obj) (date now)).
  - pose proof (hours_out_length (hour now) [18; 12; 6; 0]%Z) as Hlen4.
    pose proof (hours_out_length (hour now) [21; 18; 15; 12; 9; 6; 3; 0]%Z) as Hlen8.
    rewrite <- (length_map (format_0d 2)) in Hlen4.
    revert Hgen Hlen4 Hlen8.
    generalize (map (format_0d 2) (hours_out (hour now) [18; 12; 6; 0]%Z)).
    generalize (hours_out (hour now) [21; 18; 15; 12; 9; 6; 3; 0]%Z).
    intros lh hs Hgen Hlen4 Hlen8.
    change (length [18; 12; 6; 0]%Z) with 4%nat in Hlen4.
    change (length [21; 18; 15; 12; 9; 6; 3; 0]%Z) with 8%nat in Hlen8.
    destruct hs as [|h0 hl].
    + rewrite is_empty_nil in Hgen.
      destruct (sub_one_day date_obj) as [yesterday|];
        [|rewrite bind_none in Hgen; discriminate Hgen].
      rewrite !bind_some in Hgen. unfold date_to_gps_week in Hgen.
      rewrite !bind_some in Hgen.
      destruct lh as [|z l].
      * rewrite is_empty_nil, !bind_some in Hgen.
        apply some_inv in Hgen. rewrite <- Hgen, <- !app_assoc.
        eexists _, [], _, [].
        split; [reflexivity|].
        split; [right; split; [reflexivity | eexists; reflexivity]|].
        split; [right; split; [reflexivity | eexists _, _; reflexivity]|].
        split; [exact Hlen4 | exact Hlen8].
      * rewrite is_empty_cons, !bind_some in Hgen.
        apply some_inv in Hgen. rewrite <- Hgen, <- !app_assoc.
        eexists _, [], [], (z :: l).
        split; [reflexivity|].
        split; [right; split; [reflexivity | eexists; reflexivity]|].
        split; [now left|].
        split; [exact Hlen4 | exact Hlen8].
    + rewrite is_empty_cons, !bind_some in Hgen.
      destruct lh as [|z l].
      * rewrite is_empty_nil in Hgen.
        destruct (sub_one_day date_obj) as [yesterday|];
          [|rewrite bind_none in Hgen; discriminate Hgen].
        rewrite !bind_some in Hgen. unfold date_to_gps_week in Hgen.
        rewrite !bind_some in Hgen.
        apply some_inv in Hgen. rewrite <- Hgen, <- !app_assoc.
        eexists [], (h0 :: hl), _, [].
        split; [reflexivity|].
        split; [left; split; [reflexivity | discriminate]|].
        split; [right; split; [reflexivity | eexists _, _; reflexivity]|].
        split; [exact Hlen4 | exact Hlen8].
      * rewrite is_empty_cons, !bind_some in Hgen.
        apply some_inv in Hgen. rewrite <- Hgen, <- !app_assoc.
        eexists [], (h0 :: hl), [], (z :: l).
        split; [reflexivity|].
        split; [left; split; [reflexivity | discriminate]|].
        split; [now left|].
        split; [exact Hlen4 | exact Hlen8].
  - rewrite !bind_some in Hgen.
    apply some_inv in Hgen. rewrite <- Hgen, <- !app_assoc.
    eexists [], ["18"; "12"; "06"; "00"], [], [21; 18; 15; 12; 9; 6; 3; 0]%Z.
    split; [reflexivity|].
    split; [left; split; [reflexivity | discriminate]|].
    split; [now left|].
    split; cbn [length]; lia.
Qed.

Lemma length_nil_eqb {A} : (length (@nil A) =? 0)%nat = true.
Proof. reflexivity. Qed.

Lemma length_cons_eqb {A} (x : A) (l : list A) : (length (x :: l) =? 0)%nat = false.
Proof. reflexivity. Qed.

(** The blocks of an ultra-rapid list of the older format. *)
Lemma legacy_ultra_parts (date_obj now : datetime) (w d : Z)
    (filenames : list string) :
  legacy_filenames date_obj now w d ultra_rapid = Some filenames ->
  exists (legacy_hours : list Z) (before : list string),
    filenames = igu_names w d legacy_hours ++ before ++ other_ultra_names w d
    /\ (before = []
        \/ legacy_hours = [] /\ exists w' d', before = igu_names w' d' [21; 18]%Z)
    /\ (length legacy_hours <= 8)%nat.
Proof.
  intros Hgen. unfold legacy_filenames in Hgen.
  destruct (date_eqb (date date_obj) (date now)).
  - pose proof (hours_out_length (hour now) [21; 18; 15; 12; 9; 6; 3; 0]%Z) as Hlen8.
    revert Hgen Hlen8.
    generalize (hours_out (hour now) [21; 18; 15; 12; 9; 6; 3; 0]%Z).
    intros lh Hgen Hlen8.
    change (length [21; 18; 15; 12; 9; 6; 3; 0]%Z) with 8%nat in Hlen8.
    rewrite filter_igu_names, igu_names_length in Hgen.
    destruct lh as [|z l].
    + rewrite length_nil_eqb in Hgen.
      destruct (sub_one_day date_obj) as [yesterday|];
        [|rewrite bind_none in Hgen; discriminate Hgen].
      rewrite !bind_some in Hgen. unfold date_to_gps_week in Hgen.
      rewrite !bind_some in Hgen.
      apply some_inv in Hgen. rewrite <- Hgen, <- !app_assoc.
      eexists [], _. split; [reflexivity|].
      split; [right; split; [reflexivity | eexists _, _; reflexivity]|].
      exact Hlen8.
    + rewrite length_cons_eqb in Hgen.
      rewrite !bind_some in Hgen.
      apply some_inv in Hgen. rewrite <- Hgen.
      eexists (z :: l), []. split; [reflexivity|].
      split; [now left | exact Hlen8].
  - rewrite !bind_some in Hgen. apply some_inv in Hgen. rewrite <- Hgen.
    eexists [21; 18; 15; 12; 9; 6; 3; 0]%Z, []. split; [reflexivity|].
    split; [now left | cbn [length]; lia].
Qed.

(** A property of every name pattern holds for every generated name. *)
Lemma generated_names_all (P : string -> Prop)
    (target_date now : datetime) (p : product_type)
    (filenames : list string) (gps_week : Z) (use_new_format : bool) :
  (forall code year doy hour span interval,
      P (modern_name code year doy hour span interval)) ->
  (forall center w d, P (legacy_daily_name center w d)) ->
  (forall center w d h, P (legacy_hourly_name center w d h)) ->
  generate_combined_sp3_filenames target_date now p
  = Some (filenames, gps_week, use_new_format) ->
  Forall P filenames.
Proof.
  intros Hm Hd Hh Hgen.
  assert (Higu : forall w d hs, Forall P (igu_names w d hs))
    by (intros; apply Forall_map_all; intros; apply Hh).
  assert (Hother : forall w d, Forall P (other_ultra_names w d)).
  { intros. apply Forall_flat_map_all. intros h.
    apply Forall_map_all. intros c. apply Hh. }
  assert (Hhourly : forall y doy hs, Forall P (hourly_ultra_names y doy hs)).
  { intros. apply Forall_flat_map_all. intros h.
    apply Forall_flat_map_all. intros iv.
    repeat (constructor; [apply Hm|]). constructor. }
  assert (Hyest : forall y doy, Forall P (yesterday_ultra_names y doy)).
  { intros. apply Forall_flat_map_all. intros h.
    apply Forall_flat_map_all. intros iv.
    repeat (constructor; [apply Hm|]). constructor. }
  apply generated_parts in Hgen as (_ & _ & Hgen). cbv zeta in Hgen.
  revert Hgen.
  generalize (days (sub target_date gps_epoch) / 7)%Z
             (days (sub target_date gps_epoch) mod 7)%Z.
  intros w d Hgen.
  destruct use_new_format, p.
  - apply some_inv in Hgen. rewrite <- Hgen.
    apply Forall_flat_map_all. intros iv.
    repeat (constructor; [apply Hm|]). constructor.
  - apply some_inv in Hgen. rewrite <- Hgen.
    apply Forall_flat_map_all. intros iv.
    repeat (constructor; [apply Hm|]). constructor.
  - apply modern_ultra_parts in Hgen
      as (ev & hs & bf & lh & -> & Hev & Hbf & _).
    apply Forall_app_2;
      [destruct Hev as [[-> _] | [_ [doy ->]]]; [constructor | apply Hyest]|].
    apply Forall_app_2; [apply Hhourly|].
    apply Forall_app_2; [|apply Higu].
    destruct Hbf as [-> | [_ (w' & d' & ->)]]; [constructor | apply Higu].
  - apply some_inv in Hgen. rewrite <- Hgen. cbn [map app].
    repeat (constructor; [apply Hd|]). constructor.
  - apply some_inv in Hgen. rewrite <- Hgen. cbn [map app].
    repeat (constructor; [apply Hd|]). constructor.
  - apply legacy_ultra_parts in Hgen as (lh & bf & -> & Hbf & _).
    apply Forall_app_2; [apply Higu|].
    apply Forall_app_2; [|apply Hother].
    destruct Hbf as [-> | [_ (w' & d' & ->)]]; [constructor | apply Higu].
Qed.

Lemma generated_length
    (target_date now : datetime) (p : product_type)
    (filenames : list string) (gps_week : Z) (use_new_format : bool) :
  generate_combined_sp3_filenames target_date now p
  = Some (filenames, gps_week, use_new_format) ->
  match p with
  | final => length filenames = if use_new_format then 16%nat else 4%nat
  | rapid => length filenames = if use_new_format then 20%nat else 4%nat
  | ultra_rapid => (1 <= length filenames <= 120)%nat
  end.
Proof.
  intros Hgen.
  apply generated_parts in Hgen as (_ & _ & Hgen). cbv zeta in Hgen.
  revert Hgen.
  generalize (days (sub target_date gps_epoch) / 7)%Z
             (days (sub target_date gps_epoch) mod 7)%Z.
  intros w d Hgen.
  destruct use_new_format, p.
  - apply some_inv in Hgen. now rewrite <- Hgen.
  - apply some_inv in Hgen. now rewrite <- Hgen.
  - apply modern_ultra_parts in Hgen
      as (ev & hs & bf & lh & -> & Hev & Hbf & H4 & H8).
    rewrite !length_app, hourly_ultra_names_length, igu_names_length.
    destruct Hev as [[-> Hhs] | [-> [doy ->]]];
      [assert (1 <= length hs)%nat
         by (destruct hs; [congruence | cbn [length]; lia])|];
      destruct Hbf as [-> | [-> (w' & d' & ->)]];
      rewrite ?igu_names_length, ?yesterday_ultra_names_length;
      cbn [length] in *; lia.
  - apply some_inv in Hgen. now rewrite <- Hgen.
  - apply some_inv in Hgen. now rewrite <- Hgen.
  - apply legacy_ultra_parts in Hgen as (lh & bf & -> & Hbf & H8).
    rewrite !length_app, igu_names_length, other_ultra_names_length.
    destruct Hbf as [-> | [-> (w' & d' & ->)]];
      rewrite ?igu_names_length; cbn [length] in *; lia.
Qed.

(** X5.  The number of candidates of a generated list: 16 final and 20 rapid
    names in the current format, 4 in the older one; an ultra-rapid list has
    at least one name and at most 120. *)
Theorem candidate_counts
    (target_date now : datetime) (p : product_type)
    (filenames : list string) (gps_week : Z) (use_new_format : bool) :
  generate_combined_sp3_filenames target_date now p
  = Some (filenames, gps_week, use_new_format) ->
  match p with
  | final => length filenames = if use_new_format then 16%nat else 4%nat
  | rapid => length filenames = if use_new_format then 20%nat else 4%nat
  | ultra_rapid => (1 <= length filenames <= 120)%nat
  end.
Proof. apply generated_length. Qed.

(** X6.  Every generated name ends with [.gz] or [.Z]: the names of the
    current format with [.gz], those of the older format with [.Z].  A final
    or rapid list has names of one format only. *)
Theorem candidates_are_compressed
    (target_date now : datetime) (p : product_type)
    (filenames : list string) (gps_week : Z) (use_new_format : bool) :
  generate_combined_sp3_filenames target_date now p
  = Some (filenames, gps_week, use_new_format) ->
  Forall (fun f => endswith f ".gz" = true \/ endswith f ".Z" = true) filenames
  /\ (p <> ultra_rapid ->
      Forall (fun f => endswith f (if use_new_format then ".gz" else ".Z") = true)
             filenames).
Proof.
  intros Hgen. split.
  - apply (generated_names_all
             (fun f => endswith f ".gz" = true \/ endswith f ".Z" = true)
             _ _ _ _ _ _) in Hgen; [exact Hgen | | |]; intros.
    + left. apply modern_name_gz.
    + right. apply legacy_daily_name_Z.
    + right. apply legacy_hourly_name_Z.
  - intros Hp.
    apply generated_parts in Hgen as (_ & _ & Hgen). cbv zeta in Hgen.
    revert Hgen.
    generalize (days (sub target_date gps_epoch) / 7)%Z
               (days (sub target_date gps_epoch) mod 7)%Z.
    intros w d Hgen.
    destruct use_new_format, p; try congruence;
      apply some_inv in Hgen; rewrite <- Hgen.
    + apply Forall_flat_map_all. intros iv.
      repeat (constructor; [apply modern_name_gz|]). constructor.
    + apply Forall_flat_map_all. intros iv.
      repeat (constructor; [apply modern_name_gz|]). constructor.
    + cbn [map app].
      repeat (constructor; [apply legacy_daily_name_Z|]). constructor.
    + cbn [map app].
      repeat (constructor; [apply legacy_daily_name_Z|]). constructor.
Qed.

End GeneratedParts.

Section GeneratedPartsExamples.
Local Open Scope string_scope.
Local Open Scope list_scope.

Lemma candidate_counts_witness :
  exists filenames,
    generate_combined_sp3_filenames (mk_datetime 2024 1 1 0 0 0 0)
      (mk_datetime 2024 1 1 2 0 0 0) ultra_rapid
    = Some (filenames, 2295%Z, true)
    /\ (1 <= length filenames <= 120)%nat.
Proof.
  eexists. split; [vm_compute; reflexivity|].
  refine (candidate_counts (mk_datetime 2024 1 1 0 0 0 0)
            (mk_datetime 2024 1 1 2 0 0 0) ultra_rapid _ 2295%Z true _).
  vm_compute; reflexivity.
Defined.

Lemma candidates_are_compressed_witness :
  exists filenames,
    generate_combined_sp3_filenames (mk_datetime 2020 5 17 0 0 0 0)
      (mk_datetime 2024 1 1 2 0 0 0) rapid
    = Some (filenames, 2106%Z, false)
    /\ Forall (fun f => endswith f ".Z" = true) filenames.
Proof.
  eexists. split; [vm_compute; reflexivity|].
  refine (proj2 (candidates_are_compressed (mk_datetime 2020 5 17 0 0 0 0)
            (mk_datetime 2024 1 1 2 0 0 0) rapid _ 2106%Z false _) _);
    [vm_compute; reflexivity | discriminate].
Defined.

End GeneratedPartsExamples.

(** ** When the name generator fails *)

Section GeneratorFailure.
Local Open Scope string_scope.
Local Open Scope list_scope.

Lemma hours_out_late (current_hour : Z) (hours : list Z) :
  (0 <= current_hour - 3)%Z -> In 0%Z hours -> hours_out current_hour hours <> [].
Proof.
  intros Hh Hin Hnil.
  pose proof (filter_empty_false _ _ 0%Z Hnil Hin) as H.
  apply Z.leb_gt in H. lia.
Qed.

Lemma hours_out_early_all (current_hour : Z) (hours : list Z) :
  (current_hour - 3 < 0)%Z -> List.Forall (fun h => (0 <= h)%Z) hours ->
  hours_out current_hour hours = [].
Proof.
  intros Hh Hall. induction Hall as [|h hours Hpos _ IH]; [reflexivity|].
  unfold hours_out in *. cbn [List.filter].
  destruct (Z.leb_spec h (current_hour - 3)); [lia | exact IH].
Qed.

Lemma map_eq_nil_inv {A B} (f : A -> B) (l : list A) : map f l = [] -> l = [].
Proof. destruct l; [reflexivity | discriminate]. Qed.

Lemma modern_failure (date_obj now : datetime) (w d : Z) (p : product_type) :
  modern_filenames date_obj now w d p = None
  <-> p = ultra_rapid
      /\ date_eqb (date date_obj) (date now) = true
      /\ (hour now < 3)%Z
      /\ sub_one_day date_obj = None.
Proof.
  destruct p; unfold modern_filenames.
  - split; [discriminate | intros (H & _); discriminate H].
  - split; [discriminate | intros (H & _); discriminate H].
  - destruct (date_eqb (date date_obj) (date now)).
    + destruct (Z.lt_ge_cases (hour now) 3) as [Hh | Hh].
      * rewrite (hours_out_early (hour now)) by lia.
        rewrite (hours_out_early_all (hour now) [21; 18; 15; 12; 9; 6; 3; 0]%Z)
          by (lia || (repeat constructor; lia)).
        rewrite map_nil_eq, !is_empty_nil.
        destruct (sub_one_day date_obj) as [yesterday|].
        -- rewrite !bind_some. unfold date_to_gps_week. rewrite !bind_some.
           split; [discriminate | intros (_ & _ & _ & H); discriminate H].
        -- rewrite bind_none. split; [auto | reflexivity].
      * pose proof (hours_out_late (hour now) [18; 12; 6; 0]%Z ltac:(lia)
                      ltac:(cbn; tauto)) as H4.
        pose proof (hours_out_late (hour now) [21; 18; 15; 12; 9; 6; 3; 0]%Z
                      ltac:(lia) ltac:(cbn; tauto)) as H8.
        revert H4 H8.
        generalize (hours_out (hour now) [18; 12; 6; 0]%Z).
        generalize (hours_out (hour now) [21; 18; 15; 12; 9; 6; 3; 0]%Z).
        intros lh hs H4 H8.
        destruct hs as [|h0 hs]; [congruence|].
        destruct lh as [|l0 lh]; [congruence|].
        cbn [map]. rewrite !is_empty_cons, !bind_some.
        split; [discriminate | intros (_ & _ & H & _); lia].
    + rewrite !bind_some.
      split; [discriminate | intros (_ & H & _); discriminate H].
Qed.

Lemma legacy_failure (date_obj now : datetime) (w d : Z) (p : product_type) :
  legacy_filenames date_obj now w d p = None
  <-> p = ultra_rapid
      /\ date_eqb (date date_obj) (date now) = true
      /\ (hour now < 3)%Z
      /\ sub_one_day date_obj = None.
Proof.
  destruct p; unfold legacy_filenames.
  - split; [discriminate | intros (H & _); discriminate H].
  - split; [discriminate | intros (H & _); discriminate H].
  - destruct (date_eqb (date date_obj) (date now)).
    + rewrite filter_igu_names, igu_names_length.
      destruct (Z.lt_ge_cases (hour now) 3) as [Hh | Hh].
      * rewrite (hours_out_early_all (hour now) [21; 18; 15; 12; 9; 6; 3; 0]%Z)
          by (lia || (repeat constructor; lia)).
        rewrite length_nil_eqb.
        destruct (sub_one_day date_obj) as [yesterday|].
        -- rewrite !bind_some. unfold date_to_gps_week. rewrite !bind_some.
           split; [discriminate | intros (_ & _ & _ & H); discriminate H].
        -- rewrite bind_none. split; [auto | reflexivity].
      * pose proof (hours_out_late (hour now) [21; 18; 15; 12; 9; 6; 3; 0]%Z
                      ltac:(lia) ltac:(cbn; tauto)) as H8.
        revert H8.
        generalize (hours_out (hour now) [21; 18; 15; 12; 9; 6; 3; 0]%Z).
        intros lh H8.
        destruct lh as [|l0 lh]; [congruence|].
        rewrite length_cons_eqb, !bind_some.
        split; [discriminate | intros (_ & _ & H & _); lia].
    + rewrite !bind_some.
      split; [discriminate | intros (_ & H & _); discriminate H].
Qed.

Lemma generate_failure (target_date now : datetime) (p : product_type) :
  generate_combined_sp3_filenames target_date now p = None
  <-> p = ultra_rapid
      /\ date_eqb (date target_date) (date now) = true
      /\ (hour now < 3)%Z
      /\ sub_one_day target_date = None.
Proof.
  unfold generate_combined_sp3_filenames, date_to_gps_week.
  generalize (days (sub target_date gps_epoch) / 7)%Z
             (days (sub target_date gps_epoch) mod 7)%Z.
  intros w d.
  rewrite <- (modern_failure target_date now w d p).
  pose proof (modern_failure target_date now w d p) as Hm.
  pose proof (legacy_failure target_date now w d p) as Hl.
  destruct (2238 <=? w)%Z.
  - destruct (modern_filenames target_date now w d p) as [names|].
    + rewrite bind_some. split; discriminate.
    + rewrite bind_none. tauto.
  - destruct (legacy_filenames target_date now w d p) as [names|].
    + rewrite bind_some. split; [discriminate|].
      intros H. apply Hm in H. apply Hl in H. discriminate H.
    + rewrite bind_none. split; [|reflexivity].
      intros _. apply Hm. now apply Hl.
Qed.

(** X7.  The name generator raises in one case only: for the ultra-rapid
    class, when the target date is today's date, the hour is before 3 and the
    day before the target date does not exist (the date arithmetic
    overflows).  In every other case it returns a list. *)
Theorem generator_fails_only_without_day_before
    (target_date now : datetime) (p : product_type) :
  generate_combined_sp3_filenames target_date now p = None
  <-> p = ultra_rapid
      /\ date_eqb (date target_date) (date now) = true
      /\ (hour now < 3)%Z
      /\ sub_one_day target_date = None.
Proof. apply generate_failure. Qed.

End GeneratorFailure.

(** ** The calendar and the day before *)

Section CalendarFacts.

Lemma all_from_spec (f : Z -> bool) (a : Z) (n : N) :
  all_from f a n = true -> forall z, a <= z < a + Z.of_N n -> f z = true.
Proof.
  unfold all_from.
  assert (H : forall n,
             fst (N.iter n (fun '(i, b) => (i + 1, b && f i)) (a, true))
             = a + Z.of_N n
             /\ (snd (N.iter n (fun '(i, b) => (i + 1, b && f i)) (a, true)) = true
                 -> forall z, a <= z < a + Z.of_N n -> f z = true)).
  { clear n. intros n. induction n as [|n [IH1 IH2]] using N.peano_ind.
    - cbn. split; [lia | intros _ z Hz; lia].
    - rewrite N.iter_succ.
      destruct (N.iter n _ (a, true)) as [i b]. cbn [fst snd] in *. subst i.
      split; [lia|]. intros Hb z Hz.
      apply andb_prop in Hb as [Hb Hf].
      destruct (Z.eq_dec z (a + Z.of_N n)) as [-> | Hne]; [exact Hf|].
      apply IH2; [exact Hb | lia]. }
  intros Hall. exact (proj2 (H n) Hall).
Qed.

Lemma negb_true_orb (b : bool) : negb true || b = b.
Proof. reflexivity. Qed.

Lemma some_inv_pair {A B} (a a' : A) (b b' : B) : (a, b) = (a', b') -> a = a' /\ b = b'.
Proof. intros H. now injection H. Qed.

Lemma days_of_year_restored (leapyear : bool) :
  all_from (day_of_year_restored leapyear) 0 (if leapyear then 366 else 365) = true.
Proof. destruct leapyear; vm_compute; reflexivity. Qed.

Lemma months_days_restored (leapyear : bool) :
  all_from (month_day_restored leapyear) 0 372 = true.
Proof. destruct leapyear; vm_compute; reflexivity. Qed.

(** The parts of an ordinal (minus one): 400-year cycles, centuries, 4-year
    cycles, years and days. *)
Lemma ordinal_parts (n0 : Z) :
  let a := n0 / _DI400Y in let r := n0 mod _DI400Y in
  let b := r / _DI100Y in let r100 := r mod _DI100Y in
  let c := r100 / _DI4Y in let r4 := r100 mod _DI4Y in
  let e := r4 / 365 in let r1 := r4 mod 365 in
  n0 = _DI400Y * a + _DI100Y * b + _DI4Y * c + 365 * e + r1
  /\ 0 <= b <= 4 /\ 0 <= c <= 24 /\ 0 <= e <= 4 /\ 0 <= r1 <= 364
  /\ (b = 4 -> c = 0 /\ e = 0 /\ r1 = 0)
  /\ (e = 4 -> r1 = 0 /\ c <= 23 /\ b <= 3).
Proof.
  cbv zeta. unfold _DI400Y, _DI100Y, _DI4Y.
  Z.div_mod_to_equations. lia.
Qed.

Lemma year_parts (y : Z) :
  let a := (y - 1) / 400 in let r := (y - 1) mod 400 in
  let b := r / 100 in let c := r mod 100 / 4 in let e := r mod 100 mod 4 in
  y = 400 * a + 100 * b + 4 * c + e + 1
  /\ 0 <= b <= 3 /\ 0 <= c <= 24 /\ 0 <= e <= 3.
Proof. cbv zeta. Z.div_mod_to_equations. lia. Qed.

Lemma _days_before_year_parts (a b c e : Z) :
  0 <= b <= 3 -> 0 <= c <= 24 -> 0 <= e <= 3 ->
  _days_before_year (400 * a + 100 * b + 4 * c + e + 1)
  = _DI400Y * a + _DI100Y * b + _DI4Y * c + 365 * e.
Proof.
  intros Hb Hc He. unfold _days_before_year, _DI400Y, _DI100Y, _DI4Y. cbv zeta.
  Z.div_mod_to_equations. lia.
Qed.

Lemma _is_leap_parts (a b c e : Z) :
  0 <= b <= 3 -> 0 <= c <= 24 -> 0 <= e <= 3 ->
  _is_leap (400 * a + 100 * b + 4 * c + e + 1)
  = (e =? 3) && (negb (c =? 24) || (b =? 3)).
Proof.
  intros Hb Hc He. unfold _is_leap.
  destruct (Z.eqb_spec e 3), (Z.eqb_spec c 24), (Z.eqb_spec b 3);
    cbn [negb andb orb];
    repeat match goal with
           | |- context [(?x mod ?k =? 0)] =>
               destruct (Z.eqb_spec (x mod k) 0)
           end; cbn [negb andb orb]; try reflexivity;
    exfalso; Z.div_mod_to_equations; lia.
Qed.

Lemma div_mod_step (k q r : Z) :
  0 <= r < k -> (k * q + r) / k = q /\ (k * q + r) mod k = r.
Proof.
  intros Hr. split.
  - symmetry. apply (Z.div_unique_pos _ _ q r Hr). reflexivity.
  - symmetry. apply (Z.mod_unique_pos _ _ q r Hr). reflexivity.
Qed.

Lemma ordinal_parts_unique (a b c e r1 : Z) :
  0 <= b <= 3 -> 0 <= c <= 24 -> 0 <= e <= 3 -> 0 <= r1 <= 364 ->
  let n0 := _DI400Y * a + _DI100Y * b + _DI4Y * c + 365 * e + r1 in
  n0 / _DI400Y = a
  /\ n0 mod _DI400Y / _DI100Y = b
  /\ n0 mod _DI400Y mod _DI100Y / _DI4Y = c
  /\ n0 mod _DI400Y mod _DI100Y mod _DI4Y / 365 = e
  /\ n0 mod _DI400Y mod _DI100Y mod _DI4Y mod 365 = r1.
Proof.
  intros Hb Hc He Hr. cbv zeta.
  replace (_DI400Y * a + _DI100Y * b + _DI4Y * c + 365 * e + r1)
    with (_DI400Y * a + (_DI100Y * b + (_DI4Y * c + (365 * e + r1)))) by lia.
  destruct (div_mod_step 365 e r1 ltac:(lia)) as [E1 E2].
  destruct (div_mod_step _DI4Y c (365 * e + r1)
              ltac:(unfold _DI4Y; lia)) as [C1 C2].
  destruct (div_mod_step _DI100Y b (_DI4Y * c + (365 * e + r1))
              ltac:(unfold _DI100Y, _DI4Y; lia)) as [B1 B2].
  destruct (div_mod_step _DI400Y a
              (_DI100Y * b + (_DI4Y * c + (365 * e + r1)))
              ltac:(unfold _DI400Y, _DI100Y, _DI4Y; lia)) as [A1 A2].
  rewrite A1, A2, B1, B2, C1, C2, E1, E2. repeat split; reflexivity.
Qed.

(** The end of a leap year: the last day of a 4-year cycle or of a 400-year
    cycle. *)
Lemma ordinal_parts_leap_end (a b c : Z) :
  0 <= b <= 3 -> 0 <= c <= 24 -> c <> 24 \/ b = 3 ->
  let n0 := _DI400Y * a + _DI100Y * b + _DI4Y * c + 365 * 3 + 365 in
  let b' := n0 mod _DI400Y / _DI100Y in
  let c' := n0 mod _DI400Y mod _DI100Y / _DI4Y in
  let e' := n0 mod _DI400Y mod _DI100Y mod _DI4Y / 365 in
  (e' = 4 \/ b' = 4)
  /\ n0 / _DI400Y * 400 + 1 + b' * 100 + c' * 4 + e' - 1
     = 400 * a + 100 * b + 4 * c + 3 + 1.
Proof.
  intros Hb Hc Hleap. cbv zeta.
  destruct (Z.eq_dec c 24) as [-> | Hc24].
  - assert (b = 3) as -> by lia.
    replace (_DI400Y * a + _DI100Y * 3 + _DI4Y * 24 + 365 * 3 + 365)
      with (_DI400Y * a + 146096) by (unfold _DI400Y, _DI100Y, _DI4Y; lia).
    destruct (div_mod_step _DI400Y a 146096 ltac:(unfold _DI400Y; lia))
      as [A1 A2].
    rewrite A1, A2.
    change (146096 / _DI100Y) with 4.
    change (146096 mod _DI100Y) with 0.
    change (0 / _DI4Y) with 0. change (0 mod _DI4Y) with 0.
    change (0 / 365) with 0.
    split; [now right | lia].
  - replace (_DI400Y * a + _DI100Y * b + _DI4Y * c + 365 * 3 + 365)
      with (_DI400Y * a + (_DI100Y * b + (_DI4Y * c + 1460))) by lia.
    destruct (div_mod_step _DI4Y c 1460 ltac:(unfold _DI4Y; lia)) as [C1 C2].
    destruct (div_mod_step _DI100Y b (_DI4Y * c + 1460)
                ltac:(unfold _DI100Y, _DI4Y; lia)) as [B1 B2].
    destruct (div_mod_step _DI400Y a (_DI100Y * b + (_DI4Y * c + 1460))
                ltac:(unfold _DI400Y, _DI100Y, _DI4Y; lia)) as [A1 A2].
    rewrite A1, A2, B1, B2, C1, C2.
    change (1460 / 365) with 4.
    split; [now left | lia].
Qed.

Lemma _ord2ymd_eq (n : Z) :
  _ord2ymd n
  = let n0 := n - 1 in
    let a := n0 / _DI400Y in let r := n0 mod _DI400Y in
    let b := r / _DI100Y in let r100 := r mod _DI100Y in
    let c := r100 / _DI4Y in let r4 := r100 mod _DI4Y in
    let e := r4 / 365 in let r1 := r4 mod 365 in
    let y := a * 400 + 1 + b * 100 + c * 4 + e in
    if (e =? 4) || (b =? 4) then (y - 1, 12, 31)
    else
      let '(m, d) :=
        month_and_day r1 ((e =? 3) && (negb (c =? 24) || (b =? 3))) in
      (y, m, d).
Proof.
  unfold _ord2ymd, month_and_day. cbv zeta.
  destruct (_ || _); [reflexivity|].
  destruct (_ <? _); reflexivity.
Qed.

Lemma _ymd2ord_eq (y m d : Z) :
  _ymd2ord y m d = _days_before_year y + preceding_days (_is_leap y) m + d.
Proof. reflexivity. Qed.

Lemma is_date_eq (y m d : Z) :
  is_date y m d
  = (1 <=? m) && (m <=? 12) && (1 <=? d) && (d <=? month_length (_is_leap y) m).
Proof. reflexivity. Qed.

Lemma day_of_year_restored_spec (leapyear : bool) (n : Z) :
  0 <= n <= 364 ->
  let '(m, d) := month_and_day n leapyear in
  (1 <=? m) && (m <=? 12) && (1 <=? d) && (d <=? month_length leapyear m) = true
  /\ preceding_days leapyear m + d = n + 1.
Proof.
  intros Hn.
  pose proof (all_from_spec _ _ _ (days_of_year_restored leapyear) n
                ltac:(destruct leapyear; lia)) as H.
  unfold day_of_year_restored in H.
  destruct (month_and_day n leapyear) as [m d].
  apply andb_prop in H as [H1 H2]. apply Z.eqb_eq in H2. now split.
Qed.

Lemma month_day_restored_spec (leapyear : bool) (m d : Z) :
  (1 <=? m) && (m <=? 12) && (1 <=? d) && (d <=? month_length leapyear m) = true ->
  let n := preceding_days leapyear m + d - 1 in
  month_and_day n leapyear = (m, d)
  /\ 0 <= n <= (if leapyear then 365 else 364).
Proof.
  intros Hd. cbv zeta.
  assert (Hm : 1 <= m <= 12 /\ 1 <= d <= month_length leapyear m) by lia.
  assert (Hlen : month_length leapyear m <= 31).
  { unfold month_length.
    assert (m = 1 \/ m = 2 \/ m = 3 \/ m = 4 \/ m = 5 \/ m = 6 \/ m = 7
            \/ m = 8 \/ m = 9 \/ m = 10 \/ m = 11 \/ m = 12) as Hcases by lia.
    repeat (destruct Hcases as [-> | Hcases]); try subst m;
      destruct leapyear; cbn; lia. }
  pose proof (all_from_spec _ _ _ (months_days_restored leapyear)
                ((m - 1) * 31 + (d - 1)) ltac:(lia)) as H.
  unfold month_day_restored in H. cbv zeta in H.
  replace (((m - 1) * 31 + (d - 1)) / 31 + 1) with m in H
    by (Z.div_mod_to_equations; lia).
  replace (((m - 1) * 31 + (d - 1)) mod 31 + 1) with d in H
    by (Z.div_mod_to_equations; lia).
  replace (d <=? month_length leapyear m) with true in H
    by (symmetry; apply Z.leb_le; lia).
  rewrite negb_true_orb in H.
  destruct (month_and_day (preceding_days leapyear m + d - 1) leapyear)
    as [m' d'].
  repeat (apply andb_prop in H as [H ?]).
  split; [f_equal; lia | destruct leapyear; lia].
Qed.

(** An ordinal gives a date of the calendar, and the date gives the ordinal
    back. *)
Lemma ordinal_round_trip (n : Z) :
  let '(y, m, d) := _ord2ymd n in
  _ymd2ord y m d = n /\ is_date y m d = true.
Proof.
  rewrite _ord2ymd_eq. cbv zeta.
  pose proof (ordinal_parts (n - 1)) as H. cbv zeta in H. revert H.
  generalize ((n - 1) / _DI400Y) ((n - 1) mod _DI400Y). intros a r.
  generalize (r / _DI100Y) (r mod _DI100Y). intros b r100.
  generalize (r100 / _DI4Y) (r100 mod _DI4Y). intros c r4.
  generalize (r4 / 365) (r4 mod 365). intros e r1.
  intros (Hn & Hb & Hc & He & Hr & Hb4 & He4).
  destruct ((e =? 4) || (b =? 4)) eqn:Hex.
  - split; [|reflexivity].
    rewrite _ymd2ord_eq.
    destruct (Z.eq_dec b 4) as [Hb' | Hb'].
    + destruct (Hb4 Hb') as (-> & -> & ->). subst b.
      replace (a * 400 + 1 + 4 * 100 + 0 * 4 + 0 - 1)
        with (400 * a + 100 * 3 + 4 * 24 + 3 + 1) by lia.
      rewrite _days_before_year_parts, _is_leap_parts by lia.
      change (preceding_days _ 12) with 335.
      unfold _DI400Y, _DI100Y, _DI4Y in *. lia.
    + assert (e = 4) as -> by lia. destruct (He4 eq_refl) as (-> & Hc' & Hb'').
      replace (a * 400 + 1 + b * 100 + c * 4 + 4 - 1)
        with (400 * a + 100 * b + 4 * c + 3 + 1) by lia.
      rewrite _days_before_year_parts, _is_leap_parts by lia.
      replace (c =? 24) with false by (symmetry; apply Z.eqb_neq; lia).
      change (preceding_days _ 12) with 335.
      unfold _DI400Y, _DI100Y, _DI4Y in *. lia.
  - assert (He' : 0 <= e <= 3) by lia. assert (Hb' : 0 <= b <= 3) by lia.
    pose proof (day_of_year_restored_spec
                  ((e =? 3) && (negb (c =? 24) || (b =? 3))) r1 Hr) as Hmd.
    destruct (month_and_day r1 _) as [m d]. destruct Hmd as [Hdate Hdoy].
    replace (a * 400 + 1 + b * 100 + c * 4 + e)
      with (400 * a + 100 * b + 4 * c + e + 1) by lia.
    rewrite _ymd2ord_eq, is_date_eq.
    rewrite _days_before_year_parts, _is_leap_parts by lia.
    split; [lia | exact Hdate].
Qed.

(** A date of the calendar gives an ordinal, and the ordinal gives the date
    back. *)
Lemma date_round_trip (y m d : Z) :
  is_date y m d = true -> _ord2ymd (_ymd2ord y m d) = (y, m, d).
Proof.
  intros Hd. rewrite is_date_eq in Hd. rewrite _ymd2ord_eq, _ord2ymd_eq.
  pose proof (year_parts y) as H. cbv zeta in H. revert H.
  generalize ((y - 1) / 400) ((y - 1) mod 400). intros a r.
  generalize (r / 100) (r mod 100 / 4) (r mod 100 mod 4). intros b c e.
  intros (-> & Hb & Hc & He).
  rewrite _is_leap_parts in Hd |- * by lia.
  rewrite _days_before_year_parts by lia.
  pose proof (month_day_restored_spec _ m d Hd) as [Hmd Hn]. cbv zeta in Hmd, Hn.
  revert Hmd Hn.
  generalize (preceding_days ((e =? 3) && (negb (c =? 24) || (b =? 3))) m).
  intros p Hmd Hn.
  destruct (Z.eq_dec (p + d - 1) 365) as [Hlast | Hlast].
  - (* the last day of a leap year *)
    destruct ((e =? 3) && (negb (c =? 24) || (b =? 3))) eqn:Hleap; [|lia].
    assert (e = 3) as -> by lia.
    assert (Hcb : c <> 24 \/ b = 3) by lia.
    rewrite Hlast in Hmd. change (month_and_day 365 true) with (12, 31) in Hmd.
    apply some_inv_pair in Hmd as [Hm12 Hd31].
    pose proof (ordinal_parts_leap_end a b c Hb Hc Hcb) as [Hex Hy].
    cbv zeta in Hex, Hy |- *.
    replace (_DI400Y * a + _DI100Y * b + _DI4Y * c + 365 * 3 + p + d - 1)
      with (_DI400Y * a + _DI100Y * b + _DI4Y * c + 365 * 3 + 365) by lia.
    revert Hex Hy.
    generalize (_DI400Y * a + _DI100Y * b + _DI4Y * c + 365 * 3 + 365).
    intros n0.
    generalize (n0 / _DI400Y) (n0 mod _DI400Y). intros a' r'.
    generalize (r' / _DI100Y) (r' mod _DI100Y). intros b' r100'.
    generalize (r100' / _DI4Y) (r100' mod _DI4Y). intros c' r4'.
    generalize (r4' / 365) (r4' mod 365). intros e' r1'.
    intros Hex Hy.
    replace ((e' =? 4) || (b' =? 4)) with true by (symmetry; lia).
    rewrite Hy, Hm12, Hd31. reflexivity.
  - assert (Hr1 : 0 <= p + d - 1 <= 364)
      by (destruct ((e =? 3) && (negb (c =? 24) || (b =? 3))); lia).
    pose proof (ordinal_parts_unique a b c e (p + d - 1) Hb Hc He Hr1)
      as (H1 & H2 & H3 & H4 & H5).
    cbv zeta in H1, H2, H3, H4, H5 |- *.
    replace (_DI400Y * a + _DI100Y * b + _DI4Y * c + 365 * e + p + d - 1)
      with (_DI400Y * a + _DI100Y * b + _DI4Y * c + 365 * e + (p + d - 1)) by lia.
    rewrite H5, H4, H3, H2, H1.
    replace ((e =? 4) || (b =? 4)) with false by (symmetry; lia).
    rewrite Hmd. f_equal. f_equal. lia.
Qed.

(** The parts of the day before, when the time of the day is one. *)
Lemma sub_one_day_parts (d : datetime) :
  0 <= time_of_day d < US_PER_DAY ->
  sub_one_day d
  = if (1 <? toordinal d) && (toordinal d - 1 <=? _MAXORDINAL) then
      let '(y, m, dd) := _ord2ymd (toordinal d - 1) in
      Some {| year := y; month := m; day := dd;
              hour := time_of_day d / US_PER_SECOND / 3600;
              minute := (time_of_day d / US_PER_SECOND) mod 3600 / 60;
              second := (time_of_day d / US_PER_SECOND) mod 3600 mod 60;
              microsecond := time_of_day d mod US_PER_SECOND |}
    else None.
Proof.
  intros Ht. unfold sub_one_day, new_timedelta. cbv zeta.
  cbn [days seconds microseconds].
  replace (((toordinal d - 1) * 86400
            + (hour d * 3600 + minute d * 60 + second d)) * US_PER_SECOND
           + microsecond d)
    with (time_of_day d + (toordinal d - 1) * US_PER_DAY)
    by (unfold time_of_day, US_PER_DAY, US_PER_SECOND; lia).
  rewrite Z.div_add, Z.mod_add by (unfold US_PER_DAY, US_PER_SECOND; lia).
  rewrite (Z.div_small (time_of_day d)), (Z.mod_small (time_of_day d))
    by exact Ht.
  replace (0 <? 0 + (toordinal d - 1)) with (1 <? toordinal d)
    by (destruct (Z.ltb_spec 1 (toordinal d)),
                 (Z.ltb_spec 0 (0 + (toordinal d - 1))); lia).
  replace (0 + (toordinal d - 1)) with (toordinal d - 1) by lia.
  reflexivity.
Qed.

Lemma time_of_day_parts (t : Z) :
  0 <= t < US_PER_DAY ->
  ((t / US_PER_SECOND) mod 3600 mod 60
   + (t / US_PER_SECOND) mod 3600 / 60 * 60
   + t / US_PER_SECOND / 3600 * 3600) * US_PER_SECOND + t mod US_PER_SECOND
  = t.
Proof.
  unfold US_PER_DAY, US_PER_SECOND. intros Ht.
  Z.div_mod_to_equations. lia.
Qed.

Lemma day_before_instant (d yesterday : datetime) :
  0 <= time_of_day d < US_PER_DAY ->
  sub_one_day d = Some yesterday ->
  toordinal yesterday = toordinal d - 1
  /\ time_of_day yesterday = time_of_day d
  /\ instant yesterday = instant d - US_PER_DAY
  /\ is_date (year yesterday) (month yesterday) (day yesterday) = true.
Proof.
  intros Ht Hy. rewrite (sub_one_day_parts d Ht) in Hy.
  destruct ((1 <? toordinal d) && (toordinal d - 1 <=? _MAXORDINAL));
    [|discriminate Hy].
  pose proof (ordinal_round_trip (toordinal d - 1)) as Hrt.
  destruct (_ord2ymd (toordinal d - 1)) as [[y m] dd].
  destruct Hrt as [Hord Hdate].
  apply some_inv in Hy. subst yesterday.
  assert (Htod : time_of_day
                   {| year := y; month := m; day := dd;
                      hour := time_of_day d / US_PER_SECOND / 3600;
                      minute := (time_of_day d / US_PER_SECOND) mod 3600 / 60;
                      second := (time_of_day d / US_PER_SECOND) mod 3600 mod 60;
                      microsecond := time_of_day d mod US_PER_SECOND |}
                 = time_of_day d)
    by (unfold time_of_day at 1; cbn [second minute hour microsecond];
        now apply time_of_day_parts).
  split; [exact Hord|]. split; [exact Htod|]. split; [|exact Hdate].
  clear Hdate.
  assert (Hi : forall x, instant x = toordinal x * US_PER_DAY + time_of_day x)
    by (intros x; unfold instant, time_of_day, US_PER_DAY, US_PER_SECOND; lia).
  rewrite (Hi d), Hi, Htod.
  unfold toordinal at 1. cbn [year month day]. rewrite Hord. lia.
Qed.

(** X8.  The day before a datetime, [yesterday = date_obj - timedelta(days=1)],
    is the instant exactly 24 hours earlier: the date of the calendar one
    day earlier, at the same time of the day. *)
Theorem day_before_is_one_day_earlier (d yesterday : datetime) :
  0 <= time_of_day d < US_PER_DAY ->
  sub_one_day d = Some yesterday ->
  toordinal yesterday = toordinal d - 1
  /\ time_of_day yesterday = time_of_day d
  /\ instant yesterday = instant d - US_PER_DAY
  /\ is_date (year yesterday) (month yesterday) (day yesterday) = true.
Proof. apply day_before_instant. Qed.

Lemma sub_one_day_none (d : datetime) :
  0 <= time_of_day d < US_PER_DAY ->
  toordinal d <= _MAXORDINAL ->
  sub_one_day d = None <-> toordinal d <= 1.
Proof.
  intros Ht Hmax. rewrite (sub_one_day_parts d Ht).
  destruct (Z.ltb_spec 1 (toordinal d)) as [H1 | H1]; cbn [andb].
  - destruct (Z.leb_spec (toordinal d - 1) _MAXORDINAL) as [H2 | H2]; [|lia].
    destruct (_ord2ymd (toordinal d - 1)) as [[y m] dd].
    split; [discriminate | lia].
  - split; [intros _; exact H1 | reflexivity].
Qed.

(** X9.  The day before exists for every datetime after the first day of
    the calendar (0001-01-01), and only for those: at that date the
    subtraction overflows. *)
Theorem day_before_exists_after_first_day (d : datetime) :
  0 <= time_of_day d < US_PER_DAY ->
  toordinal d <= _MAXORDINAL ->
  sub_one_day d = None <-> toordinal d <= 1.
Proof. apply sub_one_day_none. Qed.

(** X10.  The GPS week and day of the day before: the same week and the day
    of the week before, or, on the first day of a GPS week, day 6 of the
    week before. *)
Theorem day_before_gps_day (d yesterday : datetime) :
  0 <= time_of_day d < US_PER_DAY ->
  sub_one_day d = Some yesterday ->
  let '(gps_week, day_of_week, _) := date_to_gps_week d in
  date_to_gps_week yesterday
  = if day_of_week =? 0 then (gps_week - 1, 6, yesterday)
    else (gps_week, day_of_week - 1, yesterday).
Proof.
  intros Ht Hy.
  pose proof (day_before_instant d yesterday Ht Hy) as (_ & _ & Hinst & _).
  unfold date_to_gps_week. rewrite !sub_days, Hinst.
  replace (instant d - US_PER_DAY - instant gps_epoch)
    with (instant d - instant gps_epoch + (-1) * US_PER_DAY) by lia.
  rewrite Z.div_add by (unfold US_PER_DAY, US_PER_SECOND; lia).
  generalize ((instant d - instant gps_epoch) / US_PER_DAY). intros n.
  destruct (Z.eqb_spec (n mod 7) 0) as [H0 | H0];
    rewrite !pair_equal_spec; repeat split; Z.div_mod_to_equations; lia.
Qed.

End CalendarFacts.

Section CalendarExamples.

Lemma day_before_is_one_day_earlier_witness :
  0 <= time_of_day (mk_datetime 2024 3 1 2 30 0 0) < US_PER_DAY
  /\ sub_one_day (mk_datetime 2024 3 1 2 30 0 0)
     = Some (mk_datetime 2024 2 29 2 30 0 0)
  /\ instant (mk_datetime 2024 2 29 2 30 0 0)
     = instant (mk_datetime 2024 3 1 2 30 0 0) - US_PER_DAY.
Proof.
  split; [vm_compute; split; [discriminate | reflexivity]|].
  split; [vm_compute; reflexivity|].
  apply (day_before_is_one_day_earlier (mk_datetime 2024 3 1 2 30 0 0)
           (mk_datetime 2024 2 29 2 30 0 0));
    [vm_compute; split; [discriminate | reflexivity] | vm_compute; reflexivity].
Defined.

Lemma day_before_exists_after_first_day_witness :
  sub_one_day (mk_datetime 1 1 1 2 0 0 0) = None.
Proof.
  apply (day_before_exists_after_first_day (mk_datetime 1 1 1 2 0 0 0));
    [vm_compute; split; [discriminate | reflexivity]
    | vm_compute; discriminate | vm_compute; discriminate].
Defined.

Lemma day_before_gps_day_witness :
  date_to_gps_week (mk_datetime 2023 12 31 0 0 0 0)
  = (2295, 0, mk_datetime 2023 12 31 0 0 0 0)
  /\ date_to_gps_week (mk_datetime 2023 12 30 0 0 0 0)
     = (2294, 6, mk_datetime 2023 12 30 0 0 0 0).
Proof.
  split; [vm_compute; reflexivity|].
  apply (day_before_gps_day (mk_datetime 2023 12 31 0 0 0 0)
           (mk_datetime 2023 12 30 0 0 0 0));
    [vm_compute; split; [discriminate | reflexivity] | vm_compute; reflexivity].
Defined.

End CalendarExamples.

(** ** The names of the day before *)

Section DayBeforeNames.
Local Open Scope string_scope.
Local Open Scope list_scope.

Lemma _days_before_year_succ (y : Z) :
  (_days_before_year (y + 1)
   = _days_before_year y + 365 + (if _is_leap y then 1 else 0))%Z.
Proof.
  unfold _days_before_year, _is_leap. cbv zeta.
  destruct (Z.eqb_spec (y mod 4) 0), (Z.eqb_spec (y mod 100) 0),
           (Z.eqb_spec (y mod 400) 0); cbn [negb andb orb];
    Z.div_mod_to_equations; lia.
Qed.

Lemma new_year_eve_ordinal (y : Z) :
  (_ymd2ord y 1 1 - 1 = _ymd2ord (y - 1) 12 31)%Z.
Proof.
  unfold _ymd2ord, _days_before_month. cbn [_DAYS_BEFORE_MONTH Z.ltb Z.compare].
  replace y with (y - 1 + 1)%Z at 1 by lia.
  rewrite _days_before_year_succ.
  change (2 <? 1)%Z with false. change (2 <? 12)%Z with true. cbn [andb].
  destruct (_is_leap (y - 1)); lia.
Qed.

Lemma new_year_eve_is_date (y : Z) : is_date y 12 31 = true.
Proof. reflexivity. Qed.

(** The day before a first of January is the 31st of December of the year
    before, day 365 or 366 of that year. *)
Lemma day_before_new_year (d yesterday : datetime) :
  (0 <= time_of_day d < US_PER_DAY)%Z ->
  month d = 1%Z -> day d = 1%Z ->
  sub_one_day d = Some yesterday ->
  date yesterday = ((year d - 1)%Z, 12%Z, 31%Z)
  /\ tm_yday yesterday = if _is_leap (year d - 1) then 366%Z else 365%Z.
Proof.
  intros Ht Hm Hd Hy. rewrite (sub_one_day_parts d Ht) in Hy.
  destruct ((1 <? toordinal d)%Z && (toordinal d - 1 <=? _MAXORDINAL)%Z);
    [|discriminate Hy].
  unfold toordinal in Hy. rewrite Hm, Hd, new_year_eve_ordinal in Hy.
  rewrite (date_round_trip _ _ _ (new_year_eve_is_date (year d - 1))) in Hy.
  apply some_inv in Hy. subst yesterday.
  unfold date, tm_yday, _days_before_month. cbn [year month day].
  split; [reflexivity|].
  change (2 <? 12)%Z with true. cbn [andb _DAYS_BEFORE_MONTH].
  now destruct (_is_leap (year d - 1)).
Qed.

(** The ultra-rapid list before 3 o'clock of the target day, in the two
    formats. *)
Lemma early_names (target_date now : datetime) (filenames : list string)
    (gps_week : Z) (use_new_format : bool) :
  generate_combined_sp3_filenames target_date now ultra_rapid
  = Some (filenames, gps_week, use_new_format) ->
  date_eqb (date target_date) (date now) = true ->
  (hour now < 3)%Z ->
  exists yesterday,
    sub_one_day target_date = Some yesterday
    /\ filenames
       = if use_new_format
         then yesterday_ultra_names (year target_date) (tm_yday yesterday)
              ++ igu_names (days (sub yesterday gps_epoch) / 7)
                           (days (sub yesterday gps_epoch) mod 7)
                           [21; 18; 15; 12]%Z
         else igu_names (days (sub yesterday gps_epoch) / 7)
                        (days (sub yesterday gps_epoch) mod 7)
                        [21; 18]%Z
              ++ other_ultra_names gps_week
                   (days (sub target_date gps_epoch) mod 7).
Proof.
  intros Hgen Htoday Hh.
  apply generated_parts in Hgen as (Hw & _ & Hgen). cbv zeta in Hw, Hgen.
  rewrite <- Hw in Hgen. clear Hw. revert Hgen.
  generalize (days (sub target_date gps_epoch) mod 7)%Z. intros d Hgen.
  assert (H8 : hours_out (hour now) [21; 18; 15; 12; 9; 6; 3; 0]%Z = [])
    by (apply hours_out_early_all; [lia | repeat constructor; lia]).
  assert (H4 : hours_out (hour now) [18; 12; 6; 0]%Z = [])
    by (apply hours_out_early; lia).
  destruct use_new_format.
  - unfold modern_filenames in Hgen.
    rewrite Htoday, H8, H4, map_nil_eq, !is_empty_nil in Hgen.
    destruct (sub_one_day target_date) as [yesterday|];
      [|rewrite bind_none in Hgen; discriminate Hgen].
    rewrite !bind_some in Hgen. unfold date_to_gps_week in Hgen.
    rewrite !bind_some in Hgen. apply some_inv in Hgen.
    exists yesterday. split; [reflexivity|].
    rewrite <- Hgen.
    now rewrite hourly_ultra_names_nil, igu_names_nil, !app_nil_r.
  - unfold legacy_filenames in Hgen.
    rewrite Htoday, H8, igu_names_nil in Hgen.
    change (List.filter (contains "igu") []) with (@nil string) in Hgen.
    rewrite length_nil_eqb in Hgen.
    destruct (sub_one_day target_date) as [yesterday|];
      [|rewrite bind_none in Hgen; discriminate Hgen].
    rewrite !bind_some in Hgen. unfold date_to_gps_week in Hgen.
    rewrite !bind_some in Hgen. apply some_inv in Hgen.
    exists yesterday. split; [reflexivity|].
    rewrite <- Hgen. reflexivity.
Qed.

(** X11.  In the older format, an ultra-rapid list made before 3 o'clock of
    the target day has the [igu] names of the hours 21 and 18 of the day
    before, with the GPS week and day of that day, followed by the names of
    the other centres for the target day itself. *)
Theorem early_legacy_names (target_date now : datetime) (filenames : list string)
    (gps_week : Z) :
  generate_combined_sp3_filenames target_date now ultra_rapid
  = Some (filenames, gps_week, false) ->
  date_eqb (date target_date) (date now) = true ->
  (hour now < 3)%Z ->
  exists yesterday gps_week_y day_of_week_y,
    sub_one_day target_date = Some yesterday
    /\ date_to_gps_week yesterday = (gps_week_y, day_of_week_y, yesterday)
    /\ filenames
       = igu_names gps_week_y day_of_week_y [21; 18]%Z
         ++ other_ultra_names gps_week (days (sub target_date gps_epoch) mod 7).
Proof.
  intros Hgen Htoday Hh.
  destruct (early_names _ _ _ _ _ Hgen Htoday Hh) as (yesterday & Hy & ->).
  exists yesterday, (days (sub yesterday gps_epoch) / 7)%Z,
         (days (sub yesterday gps_epoch) mod 7)%Z.
  split; [exact Hy|]. split; reflexivity.
Qed.

(** X12.  On a first of January before 3 o'clock, the ultra-rapid names of
    the evening before carry the year of the target date together with the
    day of the year of the 31st of December, 365 or 366 by the year before:
    they begin with [IGS0OPSULT_<year><365|366>1800_02D_01S_ORB.SP3.gz]. *)
Theorem new_year_evening_names (target_date now : datetime)
    (filenames : list string) (gps_week : Z) :
  generate_combined_sp3_filenames target_date now ultra_rapid
  = Some (filenames, gps_week, true) ->
  date_eqb (date target_date) (date now) = true ->
  (hour now < 3)%Z ->
  (0 <= time_of_day target_date < US_PER_DAY)%Z ->
  month target_date = 1%Z -> day target_date = 1%Z ->
  let doy := if _is_leap (year target_date - 1) then 366%Z else 365%Z in
  (exists rest,
      filenames = yesterday_ultra_names (year target_date) doy ++ rest)
  /\ filenames !! 0%nat
     = Some (modern_name "IGS0OPSULT" (year target_date) doy "18" "02D" "01S").
Proof.
  intros Hgen Htoday Hh Ht Hm Hd.
  destruct (early_names _ _ _ _ _ Hgen Htoday Hh) as (yesterday & Hy & ->).
  destruct (day_before_new_year _ _ Ht Hm Hd Hy) as [_ ->].
  cbv zeta. split; [eexists; reflexivity | reflexivity].
Qed.

(** X13.  For a target date after the first day of the calendar, the name
    generator returns a list for every class and every clock reading. *)
Theorem generator_returns_names (target_date now : datetime) (p : product_type) :
  (0 <= time_of_day target_date < US_PER_DAY)%Z ->
  (1 < toordinal target_date <= _MAXORDINAL)%Z ->
  exists filenames gps_week use_new_format,
    generate_combined_sp3_filenames target_date now p
    = Some (filenames, gps_week, use_new_format).
Proof.
  intros Ht Hord.
  destruct (generate_combined_sp3_filenames target_date now p)
    as [[[filenames gps_week] use_new_format]|] eqn:Hgen.
  - now exists filenames, gps_week, use_new_format.
  - apply generate_failure in Hgen as (_ & _ & _ & Hnone).
    apply (sub_one_day_none target_date Ht) in Hnone; lia.
Qed.

End DayBeforeNames.

Section DayBeforeExamples.
Local Open Scope string_scope.
Local Open Scope list_scope.

Lemma early_legacy_names_witness :
  exists filenames,
    generate_combined_sp3_filenames (mk_datetime 2020 5 17 0 0 0 0)
      (mk_datetime 2020 5 17 1 30 0 0) ultra_rapid
    = Some (filenames, 2106%Z, false)
    /\ filenames
       = [ "igu21056_21.sp3.Z"; "igu21056_18.sp3.Z";
           "codu21060_18.sp3.Z"; "gfzu21060_18.sp3.Z";
           "codu21060_12.sp3.Z"; "gfzu21060_12.sp3.Z";
           "codu21060_06.sp3.Z"; "gfzu21060_06.sp3.Z";
           "codu21060_00.sp3.Z"; "gfzu21060_00.sp3.Z" ].
Proof.
  eexists. split; [vm_compute; reflexivity|].
  destruct (early_legacy_names (mk_datetime 2020 5 17 0 0 0 0)
              (mk_datetime 2020 5 17 1 30 0 0) _ 2106%Z
              ltac:(vm_compute; reflexivity) ltac:(reflexivity)
              ltac:(reflexivity))
    as (y & wy & dy & _ & _ & _).
  reflexivity.
Defined.

Lemma new_year_evening_names_witness :
  exists filenames,
    generate_combined_sp3_filenames (mk_datetime 2024 1 1 0 0 0 0)
      (mk_datetime 2024 1 1 2 0 0 0) ultra_rapid
    = Some (filenames, 2295%Z, true)
    /\ filenames !! 0%nat = Some "IGS0OPSULT_20243651800_02D_01S_ORB.SP3.gz".
Proof.
  eexists. split; [vm_compute; reflexivity|].
  exact (proj2 (new_year_evening_names (mk_datetime 2024 1 1 0 0 0 0)
                  (mk_datetime 2024 1 1 2 0 0 0) _ 2295%Z
                  ltac:(vm_compute; reflexivity) ltac:(reflexivity)
                  ltac:(reflexivity)
                  ltac:(vm_compute; split; [discriminate | reflexivity])
                  ltac:(reflexivity) ltac:(reflexivity))).
Defined.

Lemma generator_returns_names_witness :
  exists filenames gps_week use_new_format,
    generate_combined_sp3_filenames (mk_datetime 2024 1 1 0 0 0 0)
      (mk_datetime 2024 1 1 2 0 0 0) ultra_rapid
    = Some (filenames, gps_week, use_new_format).
Proof.
  apply (generator_returns_names (mk_datetime 2024 1 1 0 0 0 0)
           (mk_datetime 2024 1 1 2 0 0 0) ultra_rapid);
    vm_compute; split; (discriminate || reflexivity).
Defined.

End DayBeforeExamples.

(** ** The requests of a download *)

Section RequestBudget.
Context {X : Type} (E : env X).
Local Open Scope string_scope.
Local Open Scope list_scope.

Lemma probes_app (a b : list event) : probes (a ++ b) = probes a ++ probes b.
Proof. apply omap_app. Qed.

Lemma fetched_app (a b : list event) : fetched (a ++ b) = fetched a ++ fetched b.
Proof. apply omap_app. Qed.

Lemma probe_trace_budget (repository : string) (filenames : list string)
    (evs : list event) :
  probe_trace repository filenames evs ->
  (length (probes evs) <= length filenames)%nat
  /\ (length (fetched evs) <= 1)%nat
  /\ Forall (fun e => String.prefix repository (url e) = true) evs.
Proof.
  induction 1 as [|filename rest r evs Hr Hshape (IH1 & IH2 & IH3)| |];
    requests; cbn [length].
  - repeat split; [lia | lia | constructor].
  - repeat split; [lia | lia |].
    constructor; [apply prefix_append | exact IH3].
  - repeat split; [lia | lia |].
    constructor; [apply prefix_append | constructor].
  - repeat split; [lia | lia |].
    repeat (constructor; [apply prefix_append|]). constructor.
Qed.

Lemma class_requests_none (target_date : datetime) (n fetches : nat)
    (s s' : state X) :
  trace s' = trace s -> class_requests target_date n fetches s (None, s').
Proof.
  intros Ht. unfold class_requests. cbn [fst snd].
  assert (Hevs : requests_between s s' = [])
    by (apply requests_between_app; now rewrite app_nil_r).
  rewrite Hevs. requests. cbn [length].
  repeat split; [now rewrite app_nil_r | lia | lia | constructor].
Qed.

Lemma probe_loop_class_requests (target_date now : datetime) (p : product_type)
    (filenames : list string) (gps_week : Z) (use_new_format : bool)
    (s0 s : state X) :
  generate_combined_sp3_filenames target_date now p
  = Some (filenames, gps_week, use_new_format) ->
  trace s = trace s0 ->
  class_requests target_date (class_budget p) 1 s0
    (probe_loop E (cddis_base +:+ "/" +:+ format_0d 4 gps_week +:+ "/")
                filenames s).
Proof.
  intros Hgen Hs.
  pose proof (generated_length _ _ _ _ _ _ Hgen) as Hlen.
  apply generated_parts in Hgen as (Hw & _ & _). cbv zeta in Hw.
  fold (week_directory gps_week). rewrite Hw. clear Hw.
  destruct (probe_loop E _ filenames s) as [r s'] eqn:Hrun.
  destruct (probe_loop_trace E _ _ _ _ _ Hrun) as (evs & Ht & Hshape & Hres).
  rewrite Hs in Ht.
  destruct (probe_trace_budget _ _ _ Hshape) as (Hp & Hf & Hdir).
  unfold class_requests. cbn [fst snd].
  rewrite (requests_between_app _ _ _ Ht).
  split; [exact Ht|]. split.
  { destruct p, use_new_format; cbn [class_budget]; lia. }
  split; [exact Hf|]. split; [exact Hdir|].
  intros Hnone. destruct r as [path|]; [|reflexivity].
  exfalso. apply Hres; [discriminate | exact Hnone].
Qed.

Lemma download_product_type_requests (target_date : datetime)
    (p : product_type) (s : state X) :
  class_requests target_date (class_budget p) 1 s
    (download_product_type E target_date p s).
Proof.
  unfold download_product_type, generate_with_clock.
  unfold mbind, M_bind, mret, M_ret.
  destruct p.
  - destruct (generate_combined_sp3_filenames target_date target_date final)
      as [[[filenames gps_week] use_new_format]|] eqn:Hgen.
    + exact (probe_loop_class_requests _ _ _ _ _ _ s s Hgen eq_refl).
    + now apply class_requests_none.
  - destruct (generate_combined_sp3_filenames target_date target_date rapid)
      as [[[filenames gps_week] use_new_format]|] eqn:Hgen.
    + exact (probe_loop_class_requests _ _ _ _ _ _ s s Hgen eq_refl).
    + now apply class_requests_none.
  - pose proof (now_keeps_requests E s) as [Ht _].
    destruct (now E s) as [t s0]. cbn [snd] in Ht.
    destruct (generate_combined_sp3_filenames target_date t ultra_rapid)
      as [[[filenames gps_week] use_new_format]|] eqn:Hgen.
    + exact (probe_loop_class_requests _ _ _ _ _ _ s s0 Hgen Ht).
    + now apply class_requests_none.
Qed.

Lemma first_success_requests (target_date : datetime) (chain : list product_type) :
  forall s : state X,
    class_requests target_date (chain_budget chain) (length chain) s
      (first_success E target_date chain s).
Proof.
  induction chain as [|p rest IH]; intros s; cbn [first_success].
  - now apply class_requests_none.
  - unfold mbind, M_bind, mret, M_ret.
    pose proof (download_product_type_requests target_date p s) as H1.
    destruct (download_product_type E target_date p s) as [r s1].
    destruct H1 as (Ht1 & Hp1 & Hf1 & Hd1 & Hn1). cbn [fst snd] in *.
    destruct (truthy r) eqn:Hr.
    + unfold class_requests. cbn [fst snd chain_budget length].
      repeat split; [exact Ht1 | lia | lia | exact Hd1 | exact Hn1].
    + specialize (IH s1).
      destruct (first_success E target_date rest s1) as [r2 s2].
      destruct IH as (Ht2 & Hp2 & Hf2 & Hd2 & Hn2). cbn [fst snd] in *.
      assert (Ht : trace s2
                   = trace s ++ requests_between s s1 ++ requests_between s1 s2)
        by (rewrite Ht2, Ht1 at 1; now rewrite <- app_assoc).
      unfold class_requests. cbn [fst snd chain_budget length].
      rewrite (requests_between_app _ _ _ Ht).
      rewrite probes_app, fetched_app, !length_app.
      split; [exact Ht|]. split; [lia|]. split; [lia|].
      split; [now apply Forall_app_2|].
      intros Hnone. apply app_eq_nil in Hnone as [_ Hnone]. now apply Hn2.
Qed.

Lemma smart_download_chain (target_date : datetime) (s : state X) :
  smart_download_sp3 E target_date s
  = let (t, s0) := now E s in
    match optimal_product (analyze_data_availability target_date t) with
    | None => (None, s0)
    | Some p => first_success E target_date (degrade_chain p) s0
    end.
Proof.
  unfold smart_download_sp3, mbind, M_bind at 1.
  destruct (now E s) as [t s0].
  pose proof (unavailable_iff_no_class target_date t) as Hiff.
  destruct (data_unavailable (analyze_data_availability target_date t)).
  - rewrite (proj1 Hiff eq_refl). reflexivity.
  - destruct (optimal_product (analyze_data_availability target_date t)) as [p|];
      [|reflexivity].
    destruct p; cbn [degrade_chain first_success]; unfold mbind, M_bind, mret, M_ret.
    + destruct (download_product_type E target_date final s0) as [r s1].
      now destruct (truthy r).
    + destruct (download_product_type E target_date rapid s0) as [r s1].
      destruct (truthy r); [reflexivity|].
      destruct (download_product_type E target_date final s1) as [r2 s2].
      now destruct (truthy r2).
    + destruct (download_product_type E target_date ultra_rapid s0) as [r s1].
      destruct (truthy r); [reflexivity|].
      destruct (download_product_type E target_date rapid s1) as [r2 s2].
      destruct (truthy r2); [reflexivity|].
      destruct (download_product_type E target_date final s2) as [r3 s3].
      now destruct (truthy r3).
Qed.

Lemma smart_download_requests (target_date : datetime) (s : state X) :
  class_requests target_date 156 3 s (smart_download_sp3 E target_date s).
Proof.
  rewrite smart_download_chain.
  pose proof (now_keeps_requests E s) as [Ht _].
  destruct (now E s) as [t s0]. cbn [snd] in Ht.
  destruct (optimal_product (analyze_data_availability target_date t)) as [p|].
  - pose proof (first_success_requests target_date (degrade_chain p) s0) as H.
    destruct (first_success E target_date (degrade_chain p) s0) as [r s1].
    destruct H as (Ht1 & Hp1 & Hf1 & Hd1 & Hn1). cbn [fst snd] in *.
    assert (Hts : trace s1 = trace s ++ requests_between s0 s1)
      by (now rewrite <- Ht).
    unfold class_requests. cbn [fst snd].
    rewrite (requests_between_app _ _ _ Hts).
    split; [exact Hts|].
    split; [destruct p; cbn [degrade_chain chain_budget class_budget] in Hp1; lia|].
    split; [destruct p; cbn [degrade_chain length] in Hf1; lia|].
    split; [exact Hd1 | exact Hn1].
  - now apply class_requests_none.
Qed.

(** X14.  One class attempt ([download_product_type]) sends at most 16 HEAD
    requests for the final class, 20 for the rapid class and 120 for the
    ultra-rapid class, and at most one GET request; without a GET request it
    returns [None]. *)
Theorem class_attempt_budget (target_date : datetime) (p : product_type)
    (s : state X) :
  let run := download_product_type E target_date p s in
  let evs := requests_between s run.2 in
  trace run.2 = trace s ++ evs
  /\ (length (probes evs) <= class_budget p)%nat
  /\ (length (fetched evs) <= 1)%nat
  /\ (fetched evs = [] -> run.1 = None).
Proof.
  cbv zeta.
  destruct (download_product_type_requests target_date p s)
    as (Ht & Hp & Hf & _ & Hn).
  now repeat split.
Qed.

(** X15.  A whole download ([smart_download_sp3]) only adds requests to
    those sent before, at most 156 HEAD requests and 3 GET requests. *)
Theorem download_request_budget (target_date : datetime) (s : state X) :
  let run := smart_download_sp3 E target_date s in
  let evs := requests_between s run.2 in
  trace run.2 = trace s ++ evs
  /\ (length (probes evs) <= 156)%nat
  /\ (length (fetched evs) <= 3)%nat.
Proof.
  cbv zeta.
  destruct (smart_download_requests target_date s) as (Ht & Hp & Hf & _).
  now repeat split.
Qed.

(** X16.  Every request of a download, of whatever class and also for the
    names of the day before, goes to the directory of the GPS week of the
    target date, [<base>/<week>/]. *)
Theorem requests_stay_in_week_directory (target_date : datetime) (s : state X) :
  let run := smart_download_sp3 E target_date s in
  let '(gps_week, _, _) := date_to_gps_week target_date in
  Forall (fun e => String.prefix (week_directory gps_week) (url e) = true)
         (requests_between s run.2).
Proof.
  cbv zeta. unfold date_to_gps_week.
  destruct (smart_download_requests target_date s) as (_ & _ & _ & Hd & _).
  exact Hd.
Qed.

End RequestBudget.

(** ** A target date of today *)

Section SameDay.
Local Open Scope list_scope.

Lemma instant_parts (d : datetime) :
  instant d = toordinal d * US_PER_DAY + time_of_day d.
Proof. unfold instant, time_of_day, US_PER_DAY, US_PER_SECOND. lia. Qed.

Lemma date_eqb_true (a b : datetime) :
  date_eqb (date a) (date b) = true ->
  year a = year b /\ month a = month b /\ day a = day b.
Proof. unfold date_eqb, date. lia. Qed.

Lemma same_date_ordinal (a b : datetime) :
  date_eqb (date a) (date b) = true -> toordinal a = toordinal b.
Proof.
  intros H. apply date_eqb_true in H as (Hy & Hm & Hd).
  unfold toordinal. now rewrite Hy, Hm, Hd.
Qed.

Lemma hours_out_empty_iff (current_hour : Z) (hours : list Z) :
  In 0 hours -> List.Forall (fun h => 0 <= h) hours ->
  hours_out current_hour hours = [] <-> current_hour < 3.
Proof.
  intros Hin Hall. split.
  - intros Hnil. destruct (Z.lt_ge_cases current_hour 3) as [H | H]; [exact H|].
    exfalso. apply (hours_out_late current_hour hours); [lia | exact Hin | exact Hnil].
  - intros H. apply hours_out_early_all; [lia | exact Hall].
Qed.

Lemma same_day_unavailable (target_date now : datetime) :
  time_of_day target_date = 0 ->
  date_eqb (date target_date) (date now) = true ->
  0 <= minute now < 60 -> 0 <= second now < 60 ->
  0 <= microsecond now < 1000000 ->
  data_unavailable (analyze_data_availability target_date now) = true
  <-> hour now < 3.
Proof.
  intros Ht Hdate Hmin Hsec Hus.
  destruct (analyze_cases target_date now) as [_ Hu]. cbv zeta in Hu.
  rewrite Hu. clear Hu.
  assert (Hel : elapsed_hours target_date now
                = Qmake (time_of_day now) 3600000000).
  { unfold elapsed_hours. f_equal.
    rewrite !instant_parts, Ht, (same_date_ordinal _ _ Hdate). lia. }
  rewrite Hel. unfold time_of_day, US_PER_SECOND.
  split.
  - intros H. apply negb_true_iff, Qle_bool_false in H.
    unfold Qlt in H. cbn [Qnum Qden] in H. lia.
  - intros H. apply negb_true_iff, Qle_bool_false.
    unfold Qlt. cbn [Qnum Qden]. lia.
Qed.

(** X17.  For a target date at midnight of today's date, the classification
    reports the data unavailable exactly when the hour is before 3, which is
    exactly when no hour of the ultra-rapid products is out, in either
    format: a download that finds a class never needs the names of the day
    before. *)
Theorem same_day_class_means_hours_out (target_date now : datetime) :
  time_of_day target_date = 0 ->
  date_eqb (date target_date) (date now) = true ->
  0 <= minute now < 60 -> 0 <= second now < 60 ->
  0 <= microsecond now < 1000000 ->
  (data_unavailable (analyze_data_availability target_date now) = true
   <-> hour now < 3)
  /\ (hours_out (hour now) [18; 12; 6; 0] = [] <-> hour now < 3)
  /\ (hours_out (hour now) [21; 18; 15; 12; 9; 6; 3; 0] = [] <-> hour now < 3).
Proof.
  intros Ht Hdate Hmin Hsec Hus.
  split; [now apply same_day_unavailable|].
  split; apply hours_out_empty_iff;
    solve [cbn; tauto | repeat constructor; lia].
Qed.

End SameDay.

Section SameDayExamples.
Local Open Scope list_scope.

Lemma same_day_class_means_hours_out_witness :
  data_unavailable (analyze_data_availability (mk_datetime 2024 1 1 0 0 0 0)
                      (mk_datetime 2024 1 1 2 59 59 999999)) = true
  /\ hours_out 2 [18; 12; 6; 0] = [].
Proof.
  pose proof (same_day_class_means_hours_out (mk_datetime 2024 1 1 0 0 0 0)
                (mk_datetime 2024 1 1 2 59 59 999999)
                ltac:(reflexivity) ltac:(reflexivity)
                ltac:(cbn; lia) ltac:(cbn; lia) ltac:(cbn; lia))
    as (H1 & H2 & _).
  split; [apply H1; cbn; lia | apply H2; cbn; lia].
Defined.

End SameDayExamples.

(** ** Downloaded files and their decompression *)

Section PathFacts.
Local Open Scope string_scope.
#[local] Arguments String.append !_ _ / : simpl nomatch.

Lemma length_append (a b : string) :
  String.length (a +:+ b) = (String.length a + String.length b)%nat.
Proof. induction a as [|x a IH]; [reflexivity|]. simpl. now rewrite IH. Qed.

Lemma rfind_dot_append (a b : string) (i : nat) :
  rfind_dot b = Some i -> rfind_dot (a +:+ b) = Some (String.length a + i)%nat.
Proof.
  intros Hb. induction a as [|x a IH]; [exact Hb|].
  simpl. now rewrite IH.
Qed.

Lemma substring_skip (a b : string) (n : nat) :
  substring (String.length a) n (a +:+ b) = substring 0 n b.
Proof. induction a as [|x a IH]; [reflexivity|]. simpl. exact IH. Qed.

Lemma substring_all (b : string) : substring 0 (String.length b) b = b.
Proof. induction b as [|x b IH]; [reflexivity|]. simpl. now rewrite IH. Qed.

Lemma substring_head (a b : string) :
  substring 0 (String.length a) (a +:+ b) = a.
Proof.
  induction a as [|x a IH]; [now destruct b|]. simpl. now rewrite IH.
Qed.

Lemma append_eq_empty (a b : string) : a +:+ b = "" -> a = "" /\ b = "".
Proof. destruct a; [now split | discriminate]. Qed.

Lemma append_neq_self (a b : string) : b <> "" -> a <> a +:+ b.
Proof.
  intros Hb H. apply (f_equal String.length) in H.
  rewrite length_append in H. destruct b; [congruence|]. cbn in H. lia.
Qed.

(** [Path(base + ext).suffix] for an extension [ext] that starts with its
    only dot and has a character after it, and a name [base] that is not
    empty. *)
Lemma suffix_append (base ext : string) :
  base <> "" -> rfind_dot ext = Some 0%nat -> (2 <= String.length ext)%nat ->
  suffix (base +:+ ext) = ext.
Proof.
  intros Hbase Hdot Hlen. unfold suffix.
  rewrite (rfind_dot_append base ext 0 Hdot), length_append, Nat.add_0_r.
  assert (Hpos : (0 < String.length base)%nat)
    by (destruct base; [congruence | cbn; lia]).
  replace ((0 <? String.length base)%nat
           && (String.length base <? String.length base + String.length ext - 1)%nat)
    with true
    by (symmetry; apply andb_true_iff; split; apply Nat.ltb_lt; lia).
  replace (String.length base + String.length ext - String.length base)%nat
    with (String.length ext) by lia.
  now rewrite substring_skip, substring_all.
Qed.

(** [Path(dir / (base + ext)).with_suffix('')] *)
Lemma with_suffix_empty_append (d base ext : string) :
  base <> "" -> rfind_dot ext = Some 0%nat -> (2 <= String.length ext)%nat ->
  with_suffix_empty (mk_path d (base +:+ ext)) = Some (mk_path d base).
Proof.
  intros Hbase Hdot Hlen. unfold with_suffix_empty. cbn [name dir].
  replace (String.eqb (base +:+ ext) "") with false
    by (destruct base; [congruence | reflexivity]).
  rewrite (suffix_append base ext Hbase Hdot Hlen), length_append.
  replace (String.length base + String.length ext - String.length ext)%nat
    with (String.length base) by lia.
  now rewrite substring_head.
Qed.

End PathFacts.

Section FileFacts.
Context {X : Type} (E : env X).
Local Open Scope string_scope.
Local Open Scope list_scope.

Lemma gzip_run (compressed_path decompressed_path : path) (s : state X)
    (data plain : string) :
  with_suffix_empty compressed_path = Some decompressed_path ->
  fs s !! str compressed_path = Some data ->
  writable E (str decompressed_path) = true ->
  gunzip E data = Some plain ->
  str decompressed_path <> str compressed_path ->
  decompress_file E compressed_path s
  = (str decompressed_path,
     mk_state (ext s)
       (match auto_cleanup E with
        | Some false =>
            <[str decompressed_path := plain]>
              (<[str decompressed_path := ""]> (fs s))
        | _ =>
            delete (str compressed_path)
              (<[str decompressed_path := plain]>
                 (<[str decompressed_path := ""]> (fs s)))
        end)
       (trace s)).
Proof.
  intros Hq Hdata Hw Hg Hne. unfold decompress_file. rewrite Hq.
  unfold mbind, M_bind, read_file, write_file, exists_, unlink, mret, M_ret.
  rewrite Hdata, Hw. cbn [negb]. rewrite Hg.
  destruct (auto_cleanup E) as [[|]|]; cbn [ext fs trace].
  - rewrite bool_decide_eq_true_2; [reflexivity|].
    rewrite lookup_delete_ne by congruence. rewrite lookup_insert_eq. eauto.
  - rewrite bool_decide_eq_true_2; [reflexivity|].
    rewrite lookup_insert_eq. eauto.
  - rewrite bool_decide_eq_true_2; [reflexivity|].
    rewrite lookup_delete_ne by congruence. rewrite lookup_insert_eq. eauto.
Qed.

Lemma gzip_success_files (compressed_path decompressed_path : path)
    (s : state X) (data plain : string) :
  with_suffix_empty compressed_path = Some decompressed_path ->
  fs s !! str compressed_path = Some data ->
  writable E (str decompressed_path) = true ->
  gunzip E data = Some plain ->
  str decompressed_path <> str compressed_path ->
  let run := decompress_file E compressed_path s in
  run.1 = str decompressed_path
  /\ fs run.2 !! str decompressed_path = Some plain
  /\ fs run.2 !! str compressed_path
     = match auto_cleanup E with Some false => Some data | _ => None end
  /\ (forall p, p <> str compressed_path -> p <> str decompressed_path ->
      fs run.2 !! p = fs s !! p)
  /\ trace run.2 = trace s.
Proof.
  intros Hq Hdata Hw Hg Hne. cbv zeta.
  rewrite (gzip_run _ _ _ _ _ Hq Hdata Hw Hg Hne). cbn [fst snd fs trace].
  split; [reflexivity|].
  destruct (auto_cleanup E) as [[|]|].
  - split; [rewrite lookup_delete_ne by congruence; apply lookup_insert_eq|].
    split; [apply lookup_delete_eq|]. split; [|reflexivity].
    intros p Hc Hd. now rewrite lookup_delete_ne, !lookup_insert_ne by congruence.
  - split; [apply lookup_insert_eq|].
    split; [now rewrite !lookup_insert_ne by congruence|]. split; [|reflexivity].
    intros p Hc Hd. now rewrite !lookup_insert_ne by congruence.
  - split; [rewrite lookup_delete_ne by congruence; apply lookup_insert_eq|].
    split; [apply lookup_delete_eq|]. split; [|reflexivity].
    intros p Hc Hd. now rewrite lookup_delete_ne, !lookup_insert_ne by congruence.
Qed.

(** X18.  A gzip decompression that succeeds returns the path without the
    last suffix; the file at that path holds the decompressed data; the
    compressed file is removed, unless the setting [auto_cleanup] is
    [False]; no other file changes and no request is sent. *)
Theorem gzip_success_cleans_up (compressed_path decompressed_path : path)
    (s : state X) (data plain : string) :
  with_suffix_empty compressed_path = Some decompressed_path ->
  fs s !! str compressed_path = Some data ->
  writable E (str decompressed_path) = true ->
  gunzip E data = Some plain ->
  str decompressed_path <> str compressed_path ->
  let run := decompress_file E compressed_path s in
  run.1 = str decompressed_path
  /\ fs run.2 !! str decompressed_path = Some plain
  /\ fs run.2 !! str compressed_path
     = match auto_cleanup E with Some false => Some data | _ => None end
  /\ (forall p, p <> str compressed_path -> p <> str decompressed_path ->
      fs run.2 !! p = fs s !! p)
  /\ trace run.2 = trace s.
Proof. apply gzip_success_files. Qed.

(** X19.  When the downloaded data is not valid gzip data, the output file
    has been opened for writing before the error: [decompress_file] returns
    the compressed path and leaves an empty file at the decompressed
    path. *)
Theorem invalid_gzip_leaves_empty_output
    (compressed_path decompressed_path : path) (s : state X) (data : string) :
  with_suffix_empty compressed_path = Some decompressed_path ->
  fs s !! str compressed_path = Some data ->
  writable E (str decompressed_path) = true ->
  gunzip E data = None ->
  str decompressed_path <> str compressed_path ->
  let run := decompress_file E compressed_path s in
  run.1 = str compressed_path
  /\ fs run.2 !! str decompressed_path = Some ""
  /\ fs run.2 !! str compressed_path = Some data.
Proof.
  intros Hq Hdata Hw Hg Hne. cbv zeta. unfold decompress_file. rewrite Hq.
  unfold mbind, M_bind, read_file, write_file, mret, M_ret.
  rewrite Hdata, Hw. cbn [negb]. rewrite Hg. cbn [fst snd fs].
  split; [reflexivity|]. split; [apply lookup_insert_eq|].
  now rewrite lookup_insert_ne by congruence.
Qed.

(** X20.  [decompress_unix_z] returns the decompressed path exactly when the
    [uncompress] program exited with code 0 and the decompressed file exists
    afterwards; the files are those the program left, whatever the
    result. *)
Theorem unix_z_success_iff (compressed_path decompressed_path : path)
    (s : state X) (r : run_result) (x : X) :
  with_suffix_empty compressed_path = Some decompressed_path ->
  uncompress_run E (str compressed_path) (ext s) (fs s) = (r, x) ->
  str decompressed_path <> str compressed_path ->
  let run := decompress_unix_z E compressed_path s in
  (run.1 = str decompressed_path
   <-> exists after, r = RunExited 0 after
                     /\ is_Some (after !! str decompressed_path))
  /\ run.2 = mk_state x (files_left r (fs s)) (trace s).
Proof.
  intros Hq Hrun Hne. cbv zeta. unfold decompress_unix_z. rewrite Hq.
  unfold mbind, M_bind, run_uncompress, exists_, mret, M_ret. rewrite Hrun.
  destruct r as [|returncode after|after]; cbn [fst snd fs files_left].
  - split; [|reflexivity].
    split; [intros H; congruence | intros (a & H & _); discriminate H].
  - destruct (Z.eqb_spec returncode 0) as [-> | Hrc]; cbn [andb].
    + destruct (bool_decide (is_Some (after !! str decompressed_path))) eqn:Hex;
        cbn [fst snd]; (split; [|reflexivity]).
      * apply bool_decide_eq_true_1 in Hex.
        split; [intros _; now exists after | reflexivity].
      * apply bool_decide_eq_false_1 in Hex.
        split; [intros H; congruence|].
        intros (a & Ha & Hsome). injection Ha as <-. contradiction.
    + cbn [fst snd]. split; [|reflexivity].
      split; [intros H; congruence|].
      intros (a & Ha & _). injection Ha as -> _. contradiction.
  - split; [|reflexivity].
    split; [intros H; congruence | intros (a & H & _); discriminate H].
Qed.

Lemma download_file_cases (file_url filename : string) (s : state X)
    (response : get_result) (x : X) :
  session_get E file_url (ext s) = (response, x) ->
  let output_path := mk_path (output_dir E) filename in
  let s1 := mk_state x (fs s) (trace s ++ [Get file_url]) in
  download_file E file_url filename s
  = match response with
    | GetRaised => (None, s1)
    | GetStream received complete =>
        if negb (writable E (str output_path)) then (None, s1)
        else
          let s2 := mk_state x (<[str output_path := received]> (fs s))
                             (trace s ++ [Get file_url]) in
          if negb complete then (None, s2)
          else if endswith filename ".gz"
          then (Some <$> decompress_file E output_path) s2
          else if endswith filename ".Z"
          then (Some <$> decompress_unix_z E output_path) s2
          else (Some (str output_path), s2)
    end.
Proof.
  intros Hget. cbv zeta. unfold download_file, mbind, M_bind at 1, get.
  rewrite Hget. destruct response as [|received complete]; [reflexivity|].
  destruct (writable E _); cbn [negb]; [|reflexivity].
  unfold mbind, M_bind, write_file, mret, M_ret. cbn [ext fs trace].
  destruct complete; cbn [negb]; [|reflexivity].
  destruct (endswith filename ".gz"); [reflexivity|].
  destruct (endswith filename ".Z"); reflexivity.
Qed.

(** X21.  [download_file] returns [None] exactly when the GET request
    raises, the output file cannot be opened, or the stream breaks before
    its end.  A broken stream leaves the part received in the output file;
    the two other failures leave the files as they were. *)
Theorem download_failures (file_url filename : string) (s : state X)
    (response : get_result) (x : X) :
  session_get E file_url (ext s) = (response, x) ->
  let run := download_file E file_url filename s in
  let output := output_dir E +:+ filename in
  (run.1 = None
   <-> response = GetRaised
       \/ exists received complete,
            response = GetStream received complete
            /\ (writable E output = false \/ complete = false))
  /\ (forall received,
        response = GetStream received false -> writable E output = true ->
        fs run.2 = <[output := received]> (fs s))
  /\ (response = GetRaised
      \/ (exists received complete, response = GetStream received complete)
         /\ writable E output = false ->
      fs run.2 = fs s).
Proof.
  intros Hget. cbv zeta.
  rewrite (download_file_cases _ _ _ _ _ Hget). cbv zeta.
  change (str (mk_path (output_dir E) filename)) with (output_dir E +:+ filename).
  destruct response as [|received complete].
  - cbn [fst snd fs]. split; [split; [now left | reflexivity]|].
    split; [intros ? H; discriminate H | reflexivity].
  - destruct (writable E (output_dir E +:+ filename)) eqn:Hw; cbn [negb].
    + destruct complete; cbn [negb].
      * repeat split.
        -- intros Hnone. exfalso. revert Hnone.
           unfold fmap, M_fmap.
           destruct (endswith filename ".gz");
             [destruct (decompress_file E _ _); discriminate|].
           destruct (endswith filename ".Z");
             [destruct (decompress_unix_z E _ _); discriminate|].
           discriminate.
        -- intros [H | (r & c & H & [Hf | Hf])]; try discriminate.
           injection H as _ <-. discriminate.
        -- intros r H. discriminate H.
        -- intros [H | [_ H]]; discriminate.
      * cbn [fst snd fs]. repeat split.
        -- intros _. right. exists received, false. split; [reflexivity | now right].
        -- intros r H _. now injection H as ->.
        -- intros [H | [_ H]]; discriminate.
    + cbn [fst snd fs]. repeat split.
      * intros _. right. exists received, complete. split; [reflexivity | now left].
      * intros r _ H. discriminate H.
Qed.

(** X22.  A candidate [<base>.gz] that is fetched completely and holds valid
    gzip data gives the path [<output directory><base>] with the
    decompressed data; the compressed file is removed unless [auto_cleanup]
    is [False]. *)
Theorem fetched_gz_is_decompressed (file_url base : string) (s : state X)
    (data plain : string) (x : X) :
  base <> "" ->
  session_get E file_url (ext s) = (GetStream data true, x) ->
  writable E (output_dir E +:+ base +:+ ".gz") = true ->
  writable E (output_dir E +:+ base) = true ->
  gunzip E data = Some plain ->
  let run := download_file E file_url (base +:+ ".gz") s in
  run.1 = Some (output_dir E +:+ base)
  /\ fs run.2 !! (output_dir E +:+ base) = Some plain
  /\ fs run.2 !! (output_dir E +:+ base +:+ ".gz")
     = match auto_cleanup E with Some false => Some data | _ => None end
  /\ trace run.2 = trace s ++ [Get file_url].
Proof.
  intros Hbase Hget Hwc Hwd Hg. cbv zeta.
  rewrite (download_file_cases _ _ _ _ _ Hget). cbv zeta.
  change (str (mk_path (output_dir E) (base +:+ ".gz")))
    with (output_dir E +:+ base +:+ ".gz").
  rewrite Hwc. cbn [negb].
  rewrite (endswith_append base ".gz" ".gz" eq_refl).
  unfold fmap, M_fmap.
  assert (Hq : with_suffix_empty (mk_path (output_dir E) (base +:+ ".gz"))
               = Some (mk_path (output_dir E) base))
    by (apply with_suffix_empty_append; [exact Hbase | reflexivity | cbn; lia]).
  assert (Hne : str (mk_path (output_dir E) base)
                <> str (mk_path (output_dir E) (base +:+ ".gz"))).
  { unfold str. cbn [dir name]. intros H. apply append_inv_head in H.
    now apply (append_neq_self base ".gz"). }
  match goal with |- context [decompress_file E ?p ?s2] =>
    pose proof (gzip_success_files p (mk_path (output_dir E) base) s2 data plain
                  Hq (lookup_insert_eq _ _ _) Hwd Hg Hne)
      as (H1 & H2 & H3 & _ & H5);
    destruct (decompress_file E p s2) as [result s3]
  end.
  cbn [fst snd trace] in *. subst result.
  repeat split; assumption.
Qed.

End FileFacts.

Section FileExamples.
Local Open Scope string_scope.
Local Open Scope list_scope.

Lemma gzip_success_cleans_up_witness :
  let s := mk_state 0%nat {[ "/data/a.sp3.gz" := "gzip data" ]} [] in
  let run := decompress_file world_third (mk_path "/data/" "a.sp3.gz") s in
  run.1 = "/data/a.sp3"
  /\ fs run.2 = {[ "/data/a.sp3" := "orbit data" ]}.
Proof.
  cbv zeta.
  pose proof (gzip_success_cleans_up world_third (mk_path "/data/" "a.sp3.gz")
                (mk_path "/data/" "a.sp3")
                (mk_state 0%nat {[ "/data/a.sp3.gz" := "gzip data" ]} [])
                "gzip data" "orbit data"
                ltac:(vm_compute; reflexivity) ltac:(vm_compute; reflexivity)
                ltac:(reflexivity) ltac:(reflexivity)
                ltac:(vm_compute; discriminate)) as (H1 & _).
  split; [exact H1 | vm_compute; reflexivity].
Defined.

Lemma invalid_gzip_leaves_empty_output_witness :
  let s := mk_state tt {[ "/data/a.sp3.gz" := "not compressed data" ]} [] in
  let run := decompress_file world_no_tools (mk_path "/data/" "a.sp3.gz") s in
  run.1 = "/data/a.sp3.gz"
  /\ fs run.2 !! "/data/a.sp3" = Some "".
Proof.
  cbv zeta.
  pose proof (invalid_gzip_leaves_empty_output world_no_tools
                (mk_path "/data/" "a.sp3.gz") (mk_path "/data/" "a.sp3")
                (mk_state tt {[ "/data/a.sp3.gz" := "not compressed data" ]} [])
                "not compressed data"
                ltac:(vm_compute; reflexivity) ltac:(vm_compute; reflexivity)
                ltac:(reflexivity) ltac:(reflexivity)
                ltac:(vm_compute; discriminate)) as (H1 & H2 & _).
  split; [exact H1 | exact H2].
Defined.

Lemma unix_z_success_iff_witness :
  (decompress_unix_z world_no_tools (mk_path "/data/" "igu22950_18.sp3.Z")
     start).1 <> "/data/igu22950_18.sp3".
Proof.
  pose proof (unix_z_success_iff world_no_tools
                (mk_path "/data/" "igu22950_18.sp3.Z")
                (mk_path "/data/" "igu22950_18.sp3") start RunUnavailable tt
                ltac:(vm_compute; reflexivity) ltac:(reflexivity)
                ltac:(vm_compute; discriminate)) as [H _].
  intros Heq. apply H in Heq as (after & Hr & _). discriminate Hr.
Defined.

Lemma download_failures_witness :
  (download_file world_no_tools "u" "a.sp3.gz" start).1 <> None.
Proof.
  pose proof (download_failures world_no_tools "u" "a.sp3.gz" start
                (GetStream "not compressed data" true) tt
                ltac:(reflexivity)) as [H _].
  intros Hnone. apply H in Hnone as [Hr | (r & c & Hr & [Hw | Hc])].
  - discriminate Hr.
  - discriminate Hw.
  - injection Hr as _ <-. discriminate Hc.
Defined.

Lemma fetched_gz_is_decompressed_witness :
  let run := download_file world_third "u" "a.sp3.gz" (mk_state 0%nat ∅ []) in
  run.1 = Some "/data/a.sp3"
  /\ fs run.2 !! "/data/a.sp3" = Some "orbit data".
Proof.
  cbv zeta.
  pose proof (fetched_gz_is_decompressed world_third "u" "a.sp3"
                (mk_state 0%nat ∅ []) "gzip data" "orbit data" 0%nat
                ltac:(discriminate) ltac:(reflexivity) ltac:(reflexivity)
                ltac:(reflexivity) ltac:(reflexivity)) as (H1 & H2 & _).
  split; [exact H1 | exact H2].
Defined.

End FileExamples.

(** ** The header scan *)

Section ScanFacts.
Local Open Scope string_scope.
Local Open Scope list_scope.

Lemma scan_sat_id_eq (sat_id : string) (sc : sp3_scan) :
  scan_sat_id sat_id sc
  = if sat_id_ok sat_id then
      mk_scan
        (<[constellation_of sat_id :=
             {[sat_id]} ∪ default ∅ (satellites sc !! constellation_of sat_id)]>
           (satellites sc))
        ({[constellation_of sat_id]} ∪ constellations sc)
        ({[sat_id]} ∪ all_satellites sc)
    else sc.
Proof. destruct sat_id; reflexivity. Qed.

Lemma empty_scan_consistent : scan_consistent empty_scan.
Proof.
  unfold scan_consistent, empty_scan. cbn [satellites constellations all_satellites].
  split; [now rewrite dom_empty_L|]. split.
  - intros sat_id. split; [intros H; now apply not_elem_of_empty in H|].
    intros (c & ids & H & _). now rewrite lookup_empty in H.
  - split; intros c ids; [intros sat_id|]; rewrite lookup_empty; discriminate.
Qed.

Lemma scan_sat_id_consistent (sat_id : string) (sc : sp3_scan) :
  scan_consistent sc -> scan_consistent (scan_sat_id sat_id sc).
Proof.
  intros (Hdom & Hall & Hok & Hne). rewrite scan_sat_id_eq.
  destruct (sat_id_ok sat_id) eqn:Hid;
    [|exact (conj Hdom (conj Hall (conj Hok Hne)))].
  set (c := constellation_of sat_id).
  set (old := default ∅ (satellites sc !! c)).
  assert (Hold : forall x, x ∈ old -> x ∈ all_satellites sc
                                      /\ sat_id_ok x = true
                                      /\ constellation_of x = c).
  { intros x Hx. subst old.
    destruct (satellites sc !! c) as [ids|] eqn:Hc; cbn in Hx;
      [|now apply not_elem_of_empty in Hx].
    split; [apply Hall; eauto | eapply Hok; eauto]. }
  unfold scan_consistent. cbn [satellites constellations all_satellites].
  split; [rewrite dom_insert_L, Hdom; reflexivity|].
  split; [|split].
  - intros x. split.
    + intros Hx. apply elem_of_union in Hx as [Hx | Hx].
      * apply elem_of_singleton in Hx as ->.
        exists c, ({[sat_id]} ∪ old). rewrite lookup_insert_eq.
        split; [reflexivity | now apply elem_of_union_l, elem_of_singleton].
      * apply Hall in Hx as (c' & ids & Hc' & Hin).
        destruct (decide (c' = c)) as [-> | Hcc].
        -- exists c, ({[sat_id]} ∪ old). rewrite lookup_insert_eq.
           split; [reflexivity|]. subst old. rewrite Hc'. cbn.
           now apply elem_of_union_r.
        -- exists c', ids. now rewrite lookup_insert_ne by congruence.
    + intros (c' & ids & Hc' & Hin).
      destruct (decide (c' = c)) as [-> | Hcc].
      * rewrite lookup_insert_eq in Hc'. injection Hc' as <-.
        apply elem_of_union in Hin as [Hin | Hin];
          [now apply elem_of_union_l|].
        apply Hold in Hin as [Hin _]. now apply elem_of_union_r.
      * rewrite lookup_insert_ne in Hc' by congruence.
        apply elem_of_union_r. apply Hall. eauto.
  - intros c' ids x Hc' Hin.
    destruct (decide (c' = c)) as [-> | Hcc].
    + rewrite lookup_insert_eq in Hc'. injection Hc' as <-.
      apply elem_of_union in Hin as [Hin | Hin].
      * apply elem_of_singleton in Hin as ->. now split.
      * now apply Hold in Hin as (_ & ? & ?).
    + rewrite lookup_insert_ne in Hc' by congruence. eapply Hok; eauto.
  - intros c' ids Hc'.
    destruct (decide (c' = c)) as [-> | Hcc].
    + rewrite lookup_insert_eq in Hc'. injection Hc' as <-.
      intros Hempty.
      apply (not_elem_of_empty (C := gset string) sat_id).
      rewrite <- Hempty. now apply elem_of_union_l, elem_of_singleton.
    + rewrite lookup_insert_ne in Hc' by congruence. eapply Hne; eauto.
Qed.

(** What holds of the empty scan and is kept by the scan of one identifier
    holds after the scan of any lines. *)
Lemma scan_lines_invariant (P : sp3_scan -> Prop) :
  P empty_scan ->
  (forall sat_id sc, P sc -> P (scan_sat_id sat_id sc)) ->
  forall lines, P (scan_lines lines).
Proof.
  intros Hempty Hstep.
  assert (Hsection : forall n sat_section, (String.length sat_section <= n)%nat ->
                     forall sc, P sc -> P (scan_section sat_section sc)).
  { induction n as [|n IH]; intros sat_section Hlen sc Hsc.
    - destruct sat_section; [exact Hsc | cbn in Hlen; lia].
    - destruct sat_section as [|a [|b [|c rest]]]; try exact Hsc.
      cbn [scan_section]. apply IH; [cbn in Hlen; lia|]. now apply Hstep. }
  assert (Hline : forall sc line, P sc -> P (scan_line sc line)).
  { intros sc line Hsc. unfold scan_line.
    destruct (String.prefix "+" line); [|exact Hsc].
    exact (Hsection _ _ (Nat.le_refl _) sc Hsc). }
  assert (Hfold : forall lines sc, P sc -> P (fold_left scan_line lines sc)).
  { induction lines as [|line lines IH]; intros sc Hsc; [exact Hsc|].
    cbn [fold_left]. apply IH. now apply Hline. }
  intros lines. unfold scan_lines. now apply Hfold.
Qed.

Lemma listed_insert_new (m : gmap string (gset string)) (c : string)
    (ids : gset string) :
  m !! c = None ->
  map_fold (fun _ ids n => (size ids + n)%nat) 0%nat (<[c := ids]> m)
  = (size ids + map_fold (fun _ ids n => (size ids + n)%nat) 0%nat m)%nat.
Proof.
  intros Hc. apply (map_fold_insert_L (fun _ ids n => (size ids + n)%nat));
    [intros; lia | exact Hc].
Qed.

Lemma listed_insert_old (m : gmap string (gset string)) (c : string)
    (old ids : gset string) :
  m !! c = Some old ->
  (map_fold (fun _ ids n => (size ids + n)%nat) 0%nat (<[c := ids]> m)
   + size old
   = size ids + map_fold (fun _ ids n => (size ids + n)%nat) 0%nat m)%nat.
Proof.
  intros Hc.
  rewrite (map_fold_delete_L (fun _ ids n => (size ids + n)%nat) 0%nat c old m)
    by (intros; lia || exact Hc).
  rewrite <- (insert_delete_eq m c ids).
  rewrite listed_insert_new by apply lookup_delete_eq. lia.
Qed.

Lemma scan_sat_id_counted (sat_id : string) (sc : sp3_scan) :
  scan_consistent sc /\ total_satellites sc = listed_satellites sc ->
  scan_consistent (scan_sat_id sat_id sc)
  /\ total_satellites (scan_sat_id sat_id sc)
     = listed_satellites (scan_sat_id sat_id sc).
Proof.
  intros [Hsc Hcount]. split; [now apply scan_sat_id_consistent|].
  destruct Hsc as (Hdom & Hall & Hok & Hne). rewrite scan_sat_id_eq.
  destruct (sat_id_ok sat_id) eqn:Hid; [|exact Hcount].
  unfold total_satellites, listed_satellites in *.
  cbn [satellites all_satellites].
  set (c := constellation_of sat_id) in *.
  destruct (decide (sat_id ∈ all_satellites sc)) as [Hin | Hnin].
  - (* seen before: nothing changes *)
    destruct (proj1 (Hall sat_id) Hin) as (c' & ids & Hc' & Hids).
    destruct (Hok _ _ _ Hc' Hids) as [_ Hcc]. fold c in Hcc. subst c'.
    rewrite Hc'. cbn [default from_option id].
    replace ({[sat_id]} ∪ ids) with ids
      by (apply set_eq; intros x; rewrite elem_of_union, elem_of_singleton;
          split; [tauto | intros [-> | ?]; assumption]).
    rewrite (insert_id _ _ _ Hc').
    replace ({[sat_id]} ∪ all_satellites sc) with (all_satellites sc)
      by (apply set_eq; intros x; rewrite elem_of_union, elem_of_singleton;
          split; [tauto | intros [-> | ?]; assumption]).
    exact Hcount.
  - (* a new satellite: one more in the total and under its key *)
    rewrite size_union by (apply disjoint_singleton_l; exact Hnin).
    rewrite size_singleton, Hcount.
    destruct (satellites sc !! c) as [ids|] eqn:Hc; cbn [default from_option id].
    + assert (Hnew : sat_id ∉ ids)
        by (intros Hids; apply Hnin, Hall; eauto).
      pose proof (listed_insert_old (satellites sc) c ids ({[sat_id]} ∪ ids) Hc)
        as Hsum.
      rewrite size_union in Hsum by (apply disjoint_singleton_l; exact Hnew).
      rewrite size_singleton in Hsum. lia.
    + rewrite (listed_insert_new _ _ _ Hc).
      rewrite (right_id_L ∅ (∪)), size_singleton. reflexivity.
Qed.


(** X29.  The total that the report gives is the sum of the counts it gives
    for the constellations: every satellite counted is listed under exactly
    one constellation. *)
Theorem total_is_sum_of_constellations (lines : list string) :
  total_satellites (scan_lines lines) = listed_satellites (scan_lines lines).
Proof.
  apply (scan_lines_invariant
           (fun sc => scan_consistent sc
                      /\ total_satellites sc = listed_satellites sc)).
  - split; [apply empty_scan_consistent | reflexivity].
  - intros sat_id sc. apply scan_sat_id_counted.
Qed.

Lemma fold_scan_ignores (lines : list string) :
  forall sc,
    fold_left scan_line lines sc
    = fold_left scan_line (List.filter (String.prefix "+") lines) sc.
Proof.
  induction lines as [|line lines IH]; intros sc; [reflexivity|].
  cbn [fold_left List.filter].
  destruct (String.prefix "+" line) eqn:Hp.
  - cbn [fold_left]. apply IH.
  - replace (scan_line sc line) with sc by (unfold scan_line; now rewrite Hp).
    apply IH.
Qed.

(** X24.  The scan looks at the first 200 lines only and, among them, at
    the lines that start with [+]: the other lines and everything after
    line 200 have no influence on the result. *)
Theorem scan_reads_plus_lines_of_first_200 (lines more : list string) :
  scan_lines lines
  = scan_lines (List.filter (String.prefix "+") (take 200 lines))
  /\ ((200 <= length lines)%nat -> scan_lines (lines ++ more) = scan_lines lines).
Proof.
  split.
  - unfold scan_lines. rewrite fold_scan_ignores.
    rewrite (take_ge (List.filter _ _)); [reflexivity|].
    etransitivity; [apply List.filter_length_le|].
    rewrite length_take. lia.
  - intros Hlen. unfold scan_lines. now rewrite take_app_le by exact Hlen.
Qed.


(** X26.  A candidate that was kept compressed (its decompression failed) is
    never analysed: for every name of a generated list, the analysis of the
    file of that name, in whatever directory, answers [False] without a
    scan. *)
Theorem kept_compressed_is_not_analysed
    (target_date now : datetime) (p : product_type)
    (filenames : list string) (gps_week : Z) (use_new_format : bool)
    (filename directory : string) (disk : files) :
  generate_combined_sp3_filenames target_date now p
  = Some (filenames, gps_week, use_new_format) ->
  In filename filenames ->
  analyze_sp3_file disk (directory +:+ filename) = (false, None).
Proof.
  intros Hgen Hin.
  assert (Hall : Forall (fun f => forall directory,
                    endswith (directory +:+ f) ".gz" = true
                    \/ endswith (directory +:+ f) ".Z" = true) filenames).
  { apply (generated_names_all
             (fun f => forall directory,
                endswith (directory +:+ f) ".gz" = true
                \/ endswith (directory +:+ f) ".Z" = true)
             _ _ _ _ _ _) in Hgen; [exact Hgen | | |];
      intros; [left | right | right]; apply endswith_append.
    - apply modern_name_gz.
    - apply legacy_daily_name_Z.
    - apply legacy_hourly_name_Z. }
  rewrite List.Forall_forall in Hall. specialize (Hall _ Hin directory).
  unfold analyze_sp3_file.
  destruct (disk !! (directory +:+ filename)); [|reflexivity].
  destruct Hall as [-> | ->]; [reflexivity | now rewrite orb_true_r].
Qed.

End ScanFacts.

Section ScanExamples.
Local Open Scope string_scope.
Local Open Scope list_scope.

Lemma scan_reads_plus_lines_of_first_200_witness :
  scan_lines (replicate 200 "x" ++ ["+        G01"]) = scan_lines (replicate 200 "x").
Proof.
  apply (scan_reads_plus_lines_of_first_200 (replicate 200 "x") ["+        G01"]).
  vm_compute. lia.
Defined.

Lemma kept_compressed_is_not_analysed_witness :
  analyze_sp3_file {[ "/data/igr21060.sp3.Z" := "data" ]} "/data/igr21060.sp3.Z"
  = (false, None).
Proof.
  refine (kept_compressed_is_not_analysed (mk_datetime 2020 5 17 0 0 0 0)
            (mk_datetime 2024 1 1 2 0 0 0) rapid _ 2106 false
            "igr21060.sp3.Z" "/data/" _ _ _);
    [vm_compute; reflexivity | vm_compute; tauto].
Defined.

End ScanExamples.

(** ** The output directory *)

Section OutputDirectory.
Context {X : Type} (E : env X).
Local Open Scope string_scope.
Local Open Scope list_scope.









End OutputDirectory.

(** ** The configuration *)

Section ConfigurationFacts.
Local Open Scope string_scope.
Local Open Scope list_scope.



End ConfigurationFacts.

(** ** No candidate twice *)

Section Distinct.
Local Open Scope string_scope.
Local Open Scope list_scope.
#[local] Arguments String.append !_ _ / : simpl nomatch.

Lemma span_cases (s1 s2 r1 r2 : string) :
  In s1 ["01D"; "02D"] -> In s2 ["01D"; "02D"] ->
  s1 +:+ r1 = s2 +:+ r2 -> s1 = s2.
Proof.
  cbn [In]. intros [<- | [<- | []]] [<- | [<- | []]] H;
    try reflexivity; simpl in H; discriminate H.
Qed.

(** Two well-formed candidates with the same name, for the same year and
    day, are the same candidate. *)
Lemma render_inj (year doy : Z) (c1 c2 : candidate) :
  well_formed c1 = true -> well_formed c2 = true ->
  render year doy c1 = render year doy c2 -> c1 = c2.
Proof.
  intros H1 H2 Heq.
  assert (Hcode : c_code c1 = c_code c2)
    by (rewrite <- (center_code_render year doy c1 H1),
                <- (center_code_render year doy c2 H2); now rewrite Heq).
  assert (Hhour : c_hour c1 = c_hour c2)
    by (apply (same_epoch_same_hour year doy); try assumption; now rewrite Heq).
  assert (Hint : c_interval c1 = c_interval c2).
  { apply some_inv.
    rewrite <- (interval_match_render year doy c1 H1),
            <- (interval_match_render year doy c2 H2). now rewrite Heq. }
  destruct (well_formed_parts c1 H1) as (_ & _ & Hs1 & _).
  destruct (well_formed_parts c2 H2) as (_ & _ & Hs2 & _).
  destruct c1 as [code1 hour1 span1 int1], c2 as [code2 hour2 span2 int2].
  cbn [c_code c_hour c_span c_interval] in *. subst code2 hour2 int2.
  unfold render, modern_name in Heq. cbn [c_code c_hour c_span c_interval] in Heq.
  do 6 apply append_inv_head in Heq.
  now rewrite (span_cases _ _ _ _ Hs1 Hs2 Heq).
Qed.

Lemma NoDup_render (year doy : Z) (cs : list candidate) :
  forallb well_formed cs = true -> NoDup cs ->
  NoDup (map (render year doy) cs).
Proof.
  intros Hwf Hnd. rewrite forallb_forall in Hwf.
  apply (NoDup_fmap_2_strong (render year doy)); [|exact Hnd].
  intros c1 c2 Hc1 Hc2. apply render_inj; apply Hwf;
    now apply list_elem_of_In.
Qed.

Lemma NoDup_checked {A} `{EqDecision A} (l : list A) :
  bool_decide (NoDup l) = true -> NoDup l.
Proof. apply bool_decide_eq_true_1. Qed.

Lemma ultra_rapid_candidates_distinct (current_hour : Z) :
  let hours := map (format_0d 2) (hours_out current_hour [18; 12; 6; 0]%Z) in
  NoDup (ultra_rapid_candidates hours).
Proof.
  cbv zeta. unfold hours_out. cbn [List.filter].
  destruct (18 <=? _)%Z, (12 <=? _)%Z, (6 <=? _)%Z, (0 <=? _)%Z;
    apply NoDup_checked; vm_compute; reflexivity.
Qed.

Lemma hour_inj (h1 h2 : Z) (r1 r2 : string) :
  In h1 hours8 -> In h2 hours8 ->
  format_0d 2 h1 +:+ r1 = format_0d 2 h2 +:+ r2 -> h1 = h2.
Proof.
  unfold hours8. cbn [In].
  intros [<-|[<-|[<-|[<-|[<-|[<-|[<-|[<-|[]]]]]]]]]
         [<-|[<-|[<-|[<-|[<-|[<-|[<-|[<-|[]]]]]]]]] H;
    try reflexivity; vm_compute in H; discriminate H.
Qed.

Lemma legacy_hourly_inj (center : string) (w d h1 h2 : Z) :
  In h1 hours8 -> In h2 hours8 ->
  legacy_hourly_name center w d h1 = legacy_hourly_name center w d h2 ->
  h1 = h2.
Proof.
  intros H1 H2 Heq. unfold legacy_hourly_name in Heq.
  do 3 apply append_inv_head in Heq.
  change ("_" +:+ ?R) with (String "_" R) in Heq. injection Heq as Heq.
  exact (hour_inj _ _ _ _ H1 H2 Heq).
Qed.

Lemma hours_out_sub (current_hour : Z) (hours : list Z) (h : Z) :
  In h (hours_out current_hour hours) -> In h hours.
Proof. unfold hours_out. intros H. now apply filter_In in H. Qed.

Lemma NoDup_igu_names (w d : Z) (hours : list Z) :
  (forall h, In h hours -> In h hours8) -> NoDup hours ->
  NoDup (igu_names w d hours).
Proof.
  intros Hsub Hnd. unfold igu_names.
  apply (NoDup_fmap_2_strong (fun hour => legacy_hourly_name "igu" w d hour));
    [|exact Hnd].
  intros h1 h2 Hh1 Hh2. apply legacy_hourly_inj; apply Hsub;
    now apply list_elem_of_In.
Qed.

Lemma NoDup_hours_out (current_hour : Z) :
  NoDup (hours_out current_hour hours8).
Proof.
  unfold hours_out. apply NoDup_ListNoDup, List.NoDup_filter, NoDup_ListNoDup.
  apply NoDup_checked. vm_compute. reflexivity.
Qed.

(** The first character of a name tells the [igu] names from those of the
    other centres. *)
Lemma igu_names_first (w d : Z) (hours : list Z) (f : string) :
  In f (igu_names w d hours) -> first_char f = Some "i"%char.
Proof.
  unfold igu_names. intros H. apply in_map_iff in H as (h & <- & _).
  reflexivity.
Qed.

Lemma other_ultra_names_first (w d : Z) (f : string) :
  In f (other_ultra_names w d) ->
  first_char f = Some "c"%char \/ first_char f = Some "g"%char.
Proof.
  unfold other_ultra_names. cbn [flat_map map app In].
  intros H. repeat (destruct H as [<- | H]; [auto|]). destruct H.
Qed.

Lemma NoDup_other_ultra_names (w d : Z) : NoDup (other_ultra_names w d).
Proof.
  assert (Hinj : forall c1 c2 h1 h2,
             In c1 ["codu"; "gfzu"] -> In c2 ["codu"; "gfzu"] ->
             In h1 hours8 -> In h2 hours8 ->
             legacy_hourly_name c1 w d h1 = legacy_hourly_name c2 w d h2 ->
             c1 = c2 /\ h1 = h2).
  { cbn [In]. intros c1 c2 h1 h2 [<- | [<- | []]] [<- | [<- | []]] Hh1 Hh2 Heq.
    - split; [reflexivity | exact (legacy_hourly_inj _ _ _ _ _ Hh1 Hh2 Heq)].
    - unfold legacy_hourly_name in Heq. simpl in Heq. discriminate Heq.
    - unfold legacy_hourly_name in Heq. simpl in Heq. discriminate Heq.
    - split; [reflexivity | exact (legacy_hourly_inj _ _ _ _ _ Hh1 Hh2 Heq)]. }
  change (other_ultra_names w d)
    with (map (fun ch : string * Z => legacy_hourly_name ch.1 w d ch.2)
            [ ("codu", 18); ("gfzu", 18); ("codu", 12); ("gfzu", 12);
              ("codu", 6); ("gfzu", 6); ("codu", 0); ("gfzu", 0) ]%Z).
  apply (NoDup_fmap_2_strong
           (fun ch : string * Z => legacy_hourly_name ch.1 w d ch.2)).
  - intros [c1 h1] [c2 h2] H1 H2 Heq. cbn [fst snd] in Heq.
    apply list_elem_of_In in H1, H2.
    assert (In c1 ["codu"; "gfzu"] /\ In h1 hours8)
      by (cbn [In] in H1; unfold hours8; cbn [In];
          repeat (destruct H1 as [H1 | H1]; [injection H1 as <- <-; tauto|]);
          destruct H1).
    assert (In c2 ["codu"; "gfzu"] /\ In h2 hours8)
      by (cbn [In] in H2; unfold hours8; cbn [In];
          repeat (destruct H2 as [H2 | H2]; [injection H2 as <- <-; tauto|]);
          destruct H2).
    destruct (Hinj c1 c2 h1 h2) as [-> ->]; tauto.
  - apply NoDup_checked. vm_compute. reflexivity.
Qed.

Lemma NoDup_app_intro {A} (l k : list A) :
  NoDup l -> NoDup k -> (forall x, In x l -> In x k -> False) -> NoDup (l ++ k).
Proof.
  intros Hl Hk Hdis. apply NoDup_app. split; [exact Hl|]. split; [|exact Hk].
  intros x Hx Hx'. apply (Hdis x); now apply list_elem_of_In.
Qed.

Lemma igu_other_disjoint (w d w' d' : Z) (hours : list Z) (f : string) :
  In f (igu_names w d hours) -> In f (other_ultra_names w' d') -> False.
Proof.
  intros Hi Ho. apply igu_names_first in Hi.
  apply other_ultra_names_first in Ho as [Ho | Ho]; congruence.
Qed.

Lemma modern_legacy_disjoint (year doy : Z) (cs : list candidate)
    (rest : list string) (f : string) :
  forallb well_formed cs = true ->
  Forall (fun f => interval_match f = None) rest ->
  In f (map (render year doy) cs) -> In f rest -> False.
Proof.
  intros Hwf Hrest Hm Hr. rewrite forallb_forall in Hwf.
  apply in_map_iff in Hm as (c & <- & Hc).
  rewrite List.Forall_forall in Hrest. specialize (Hrest _ Hr).
  rewrite (interval_match_render year doy c (Hwf c Hc)) in Hrest.
  discriminate Hrest.
Qed.

Lemma NoDup_modern_list (year doy : Z) (cs : list candidate) (rest : list string) :
  forallb well_formed cs = true -> NoDup cs ->
  Forall (fun f => interval_match f = None) rest -> NoDup rest ->
  NoDup (map (render year doy) cs ++ rest).
Proof.
  intros Hwf Hcs Hrest Hnd. apply NoDup_app_intro; [|exact Hnd|].
  - now apply NoDup_render.
  - intros f. now apply modern_legacy_disjoint.
Qed.

Lemma hours_sub8 (l : list Z) :
  forallb (fun h => bool_decide (In h hours8)) l = true ->
  forall h, In h l -> In h hours8.
Proof.
  intros H h Hh. rewrite forallb_forall in H.
  exact (bool_decide_eq_true_1 _ (H h Hh)).
Qed.

Lemma modern_distinct (target_date now : datetime) (w d : Z) (p : product_type)
    (filenames : list string) :
  modern_filenames target_date now w d p = Some filenames -> NoDup filenames.
Proof.
  intros Hgen. destruct p; unfold modern_filenames in Hgen.
  - apply some_inv in Hgen. rewrite <- Hgen, modern_final_names_render.
    apply NoDup_render; [vm_compute; reflexivity|].
    apply NoDup_checked. vm_compute. reflexivity.
  - apply some_inv in Hgen. rewrite <- Hgen, modern_rapid_names_render.
    apply NoDup_render; [vm_compute; reflexivity|].
    apply NoDup_checked. vm_compute. reflexivity.
  - assert (Hy : NoDup yesterday_candidates)
      by (apply NoDup_checked; vm_compute; reflexivity).
    assert (H4 : forall wy dy, NoDup (igu_names wy dy [21; 18; 15; 12]%Z)).
    { intros. apply NoDup_igu_names.
      - apply hours_sub8. vm_compute. reflexivity.
      - apply NoDup_checked. vm_compute. reflexivity. }
    destruct (date_eqb (date target_date) (date now)).
    + pose proof (ultra_rapid_candidates_checked (hour now)) as [Hwf _].
      pose proof (ultra_rapid_candidates_distinct (hour now)) as Hnd.
      pose proof (NoDup_hours_out (hour now)) as Hlh.
      pose proof (hours_out_sub (hour now) hours8) as Hsub.
      cbv zeta in Hwf, Hnd. unfold hours8 in Hlh, Hsub at 1.
      revert Hgen Hwf Hnd Hlh Hsub.
      generalize (map (format_0d 2) (hours_out (hour now) [18; 12; 6; 0]%Z)).
      generalize (hours_out (hour now) [21; 18; 15; 12; 9; 6; 3; 0]%Z).
      intros lh hs Hgen Hwf Hnd Hlh Hsub.
      destruct hs as [|h0 hl].
      * rewrite is_empty_nil in Hgen.
        destruct (sub_one_day target_date) as [yesterday|];
          [|rewrite bind_none in Hgen; discriminate Hgen].
        rewrite !bind_some in Hgen. unfold date_to_gps_week in Hgen.
        rewrite !bind_some, hourly_ultra_names_nil, app_nil_r in Hgen.
        rewrite yesterday_ultra_names_render in Hgen.
        destruct lh as [|z l].
        -- rewrite is_empty_nil, !bind_some in Hgen.
           apply some_inv in Hgen. rewrite <- Hgen, igu_names_nil, app_nil_r.
           apply NoDup_modern_list;
             [vm_compute; reflexivity | exact Hy | apply igu_names_untagged
             | apply H4].
        -- rewrite is_empty_cons, !bind_some in Hgen.
           apply some_inv in Hgen. rewrite <- Hgen.
           apply NoDup_modern_list;
             [vm_compute; reflexivity | exact Hy | apply igu_names_untagged|].
           now apply NoDup_igu_names.
      * rewrite is_empty_cons, !bind_some in Hgen.
        rewrite (app_nil_l (hourly_ultra_names _ _ _)) in Hgen.
        rewrite hourly_ultra_names_render in Hgen.
        destruct lh as [|z l].
        -- rewrite is_empty_nil in Hgen.
           destruct (sub_one_day target_date) as [yesterday|];
             [|rewrite bind_none in Hgen; discriminate Hgen].
           rewrite !bind_some in Hgen. unfold date_to_gps_week in Hgen.
           rewrite !bind_some in Hgen.
           apply some_inv in Hgen. rewrite <- Hgen, igu_names_nil, app_nil_r.
           apply NoDup_modern_list;
             [exact Hwf | exact Hnd | apply igu_names_untagged | apply H4].
        -- rewrite is_empty_cons, !bind_some in Hgen.
           apply some_inv in Hgen. rewrite <- Hgen.
           apply NoDup_modern_list;
             [exact Hwf | exact Hnd | apply igu_names_untagged|].
           now apply NoDup_igu_names.
    + rewrite !bind_some in Hgen.
      rewrite (app_nil_l (hourly_ultra_names _ _ _)) in Hgen.
      rewrite hourly_ultra_names_render in Hgen.
      apply some_inv in Hgen. rewrite <- Hgen.
      apply NoDup_modern_list;
        [vm_compute; reflexivity
        | apply NoDup_checked; vm_compute; reflexivity
        | apply igu_names_untagged |].
      apply NoDup_igu_names.
      * apply hours_sub8. vm_compute. reflexivity.
      * apply NoDup_checked. vm_compute. reflexivity.
Qed.

Lemma NoDup_daily (w d : Z) (c1 c2 c3 c4 : string) :
  NoDup (first_char <$> [c1; c2; c3; c4]) ->
  Forall (fun c => c <> "") [c1; c2; c3; c4] ->
  NoDup (map (fun c => legacy_daily_name c w d) [c1; c2; c3] ++
         [legacy_daily_name c4 w d]).
Proof.
  intros Hnd Hne. cbn [map app].
  change [legacy_daily_name c1 w d; legacy_daily_name c2 w d;
          legacy_daily_name c3 w d; legacy_daily_name c4 w d]
    with (map (fun c => legacy_daily_name c w d) [c1; c2; c3; c4]).
  apply (NoDup_fmap_1 first_char).
  rewrite <- list_fmap_compose.
  replace ((first_char ∘ (fun c => legacy_daily_name c w d)) <$> [c1; c2; c3; c4])
    with (first_char <$> [c1; c2; c3; c4]); [exact Hnd|].
  apply Forall_fmap_ext_1. eapply Forall_impl; [exact Hne|].
  intros c Hc. cbn. unfold legacy_daily_name. destruct c; [congruence | reflexivity].
Qed.

Lemma legacy_distinct (target_date now : datetime) (w d : Z) (p : product_type)
    (filenames : list string) :
  legacy_filenames target_date now w d p = Some filenames -> NoDup filenames.
Proof.
  intros Hgen. destruct p; unfold legacy_filenames in Hgen.
  - apply some_inv in Hgen. rewrite <- Hgen.
    apply (NoDup_daily w d "cod" "gfz" "whu" "igs");
      [apply NoDup_checked; vm_compute; reflexivity
      | repeat constructor; discriminate].
  - apply some_inv in Hgen. rewrite <- Hgen.
    apply (NoDup_daily w d ("cod" +:+ "r") ("gfz" +:+ "r") ("jpl" +:+ "r") "igr");
      [apply NoDup_checked; vm_compute; reflexivity
      | repeat constructor; discriminate].
  - destruct (date_eqb (date target_date) (date now)).
    + pose proof (NoDup_hours_out (hour now)) as Hlh.
      pose proof (hours_out_sub (hour now) hours8) as Hsub.
      unfold hours8 in Hlh, Hsub at 1. revert Hgen Hlh Hsub.
      generalize (hours_out (hour now) [21; 18; 15; 12; 9; 6; 3; 0]%Z).
      intros lh Hgen Hlh Hsub.
      rewrite filter_igu_names, igu_names_length in Hgen.
      destruct lh as [|z l].
      * rewrite length_nil_eqb in Hgen.
        destruct (sub_one_day target_date) as [yesterday|];
          [|rewrite bind_none in Hgen; discriminate Hgen].
        rewrite !bind_some in Hgen. unfold date_to_gps_week in Hgen.
        rewrite !bind_some in Hgen.
        apply some_inv in Hgen. rewrite <- Hgen, igu_names_nil, app_nil_l.
        apply NoDup_app_intro;
          [|apply NoDup_other_ultra_names | intros f; apply igu_other_disjoint].
        apply NoDup_igu_names.
        -- apply hours_sub8. vm_compute. reflexivity.
        -- apply NoDup_checked. vm_compute. reflexivity.
      * rewrite length_cons_eqb, !bind_some in Hgen.
        apply some_inv in Hgen. rewrite <- Hgen.
        apply NoDup_app_intro;
          [|apply NoDup_other_ultra_names | intros f; apply igu_other_disjoint].
        now apply NoDup_igu_names.
    + rewrite !bind_some in Hgen. apply some_inv in Hgen. rewrite <- Hgen.
      apply NoDup_app_intro;
        [|apply NoDup_other_ultra_names | intros f; apply igu_other_disjoint].
      apply NoDup_igu_names.
      * apply hours_sub8. vm_compute. reflexivity.
      * apply NoDup_checked. vm_compute. reflexivity.
Qed.

(** X30.  No name occurs twice in a generated list, and the URLs of its
    first [k] candidates under a repository, the form of the URLs that the
    probe loop builds, are pairwise distinct. *)
Theorem candidates_are_distinct
    (target_date now : datetime) (p : product_type)
    (filenames : list string) (gps_week : Z) (use_new_format : bool) :
  generate_combined_sp3_filenames target_date now p
  = Some (filenames, gps_week, use_new_format) ->
  NoDup filenames
  /\ forall k repository,
       NoDup (map (String.append repository) (take k filenames)).
Proof.
  intros Hgen. apply generated_parts in Hgen as (_ & _ & Hgen).
  cbv zeta in Hgen.
  assert (Hnd : NoDup filenames).
  { destruct use_new_format.
    - exact (modern_distinct _ _ _ _ _ _ Hgen).
    - exact (legacy_distinct _ _ _ _ _ _ Hgen). }
  split; [exact Hnd|]. intros k repository.
  apply (NoDup_fmap_2_strong (String.append repository)).
  - intros a b _ _. apply append_inv_head.
  - exact (sublist_NoDup _ _ Hnd (sublist_take filenames k)).
Qed.

End Distinct.

Section DistinctExamples.
Local Open Scope string_scope.
Local Open Scope list_scope.

Lemma candidates_are_distinct_witness :
  exists filenames,
    generate_combined_sp3_filenames (mk_datetime 2024 1 1 0 0 0 0)
      (mk_datetime 2024 1 1 2 0 0 0) ultra_rapid
    = Some (filenames, 2295%Z, true)
    /\ NoDup filenames.
Proof.
  eexists. split; [vm_compute; reflexivity|].
  refine (proj1 (candidates_are_distinct (mk_datetime 2024 1 1 0 0 0 0)
                   (mk_datetime 2024 1 1 2 0 0 0) ultra_rapid _ 2295%Z true _)).
  vm_compute; reflexivity.
Defined.

End DistinctExamples.
